(** * Cloud synchronisation of locally collected submissions

    A shallow embedding of [scripts/cloud_sync.py] (class [CloudSyncManager])
    together with the part of [flask_server/app.py] that fixes the schema of
    the [submissions] table, and the properties of the submission store and
    of the sync engine that are checked against it.

    Layout: Python values and [json.dumps]; [hashlib.md5]; clock rendering;
    the [submissions] table and its two SQL statements; the world the
    manager runs in and its methods; then the lemmas. *)

From Stdlib Require Import ZArith List Ascii String Sorting.Sorted Permutation Lia.
From stdpp Require Import base option list strings pretty gmap.

Local Open Scope Z_scope.

(* ===================================================================== *)
(** * Python values *)
(* ===================================================================== *)

Module Py.

(** A Python [str] is modelled by a Rocq [string], one [ascii] per code
    point; code points above 255 are outside the model. *)

(** Scalars: what a value of the JSON configuration file is taken to be. *)
Inductive scalar : Type :=
| SNone
| SBool (b : bool)
| SInt (n : Z)
| SStr (s : string).

(** JSON documents as [json.loads] returns them (no floats). A [dict] is kept
    as the list of its items. *)
#[warnings="-register-all"] Inductive jval : Type :=
| JNull
| JBool (b : bool)
| JNum (n : Z)
| JStr (s : string)
| JList (l : list jval)
| JObj (kvs : list (string * jval)).

(** Truth value testing, [bool(v)]. *)
Definition truthy_scalar (v : scalar) : bool :=
  match v with
  | SNone => false
  | SBool b => b
  | SInt n => negb (n =? 0)
  | SStr s => negb (String.eqb s "")
  end.

Definition truthy (v : jval) : bool :=
  match v with
  | JNull => false
  | JBool b => b
  | JNum n => negb (n =? 0)
  | JStr s => negb (String.eqb s "")
  | JList l => match l with [] => false | _ => true end
  | JObj kvs => match kvs with [] => false | _ => true end
  end.

(** [str(v)], as an f-string renders a scalar. *)
Definition str (v : scalar) : string :=
  match v with
  | SNone => "None"
  | SBool true => "True"
  | SBool false => "False"
  | SInt n => pretty n
  | SStr s => s
  end.

(** [d.get(k)] and [d.get(k, default)] on a dictionary of scalars. *)
Definition get (d : gmap string scalar) (k : string) : scalar :=
  default SNone (d !! k).

Definition get_default (d : gmap string scalar) (k : string) (dflt : scalar) : scalar :=
  default dflt (d !! k).

(** [d[k]], which raises [KeyError] on a missing key. *)
Fixpoint item (kvs : list (string * jval)) (k : string) : option jval :=
  match kvs with
  | [] => None
  | (k', v) :: rest => if String.eqb k' k then Some v else item rest k
  end.

(** ** [json.dumps(v, sort_keys=True)]

    Default separators [", "] and [": "], [ensure_ascii=True]. *)

Definition hex_digit (n : N) : ascii :=
  if (n <? 10)%N then ascii_of_N (48 + n) else ascii_of_N (87 + n).

(** ["\\u%04x"] for a code point below 256. *)
Definition u_escape (c : N) : string :=
  String "\" (String "u" (String "0" (String "0"
    (String (hex_digit (c / 16)) (String (hex_digit (c mod 16)) EmptyString))))).

Definition escape_char (a : ascii) : string :=
  let c := N_of_ascii a in
  if (c =? 34)%N then String "\" (String a EmptyString)
  else if (c =? 92)%N then String "\" (String "\" EmptyString)
  else if (c =? 10)%N then String "\" (String "n" EmptyString)
  else if (c =? 13)%N then String "\" (String "r" EmptyString)
  else if (c =? 9)%N then String "\" (String "t" EmptyString)
  else if (c =? 8)%N then String "\" (String "b" EmptyString)
  else if (c =? 12)%N then String "\" (String "f" EmptyString)
  else if ((c <? 32) || (126 <? c))%N then u_escape c
  else String a EmptyString.

Fixpoint escape (s : string) : string :=
  match s with
  | EmptyString => EmptyString
  | String a rest => escape_char a +:+ escape rest
  end.

Definition quote (s : string) : string :=
  String (ascii_of_N 34) (escape s +:+ String (ascii_of_N 34) EmptyString).

Fixpoint join (sep : string) (parts : list string) : string :=
  match parts with
  | [] => EmptyString
  | [p] => p
  | p :: rest => p +:+ sep +:+ join sep rest
  end.

(** Insertion of an item into a list of items sorted by key. *)
Fixpoint insert_by_key (kv : string * string) (l : list (string * string))
  : list (string * string) :=
  match l with
  | [] => [kv]
  | kv' :: rest =>
      if String.leb (fst kv) (fst kv') then kv :: l
      else kv' :: insert_by_key kv rest
  end.

Definition sort_by_key (l : list (string * string)) : list (string * string) :=
  foldr insert_by_key [] l.

Fixpoint dumps (v : jval) : string :=
  match v with
  | JNull => "null"
  | JBool true => "true"
  | JBool false => "false"
  | JNum n => pretty n
  | JStr s => quote s
  | JList l => "[" +:+ join ", " (map dumps l) +:+ "]"
  | JObj kvs =>
      let rendered :=
        (fix items (l : list (string * jval)) : list (string * string) :=
           match l with
           | [] => []
           | (k, x) :: rest => (k, dumps x) :: items rest
           end) kvs in
      "{" +:+ join ", " (map (fun kv => quote (fst kv) +:+ ": " +:+ snd kv)
                            (sort_by_key rendered)) +:+ "}"
  end.

(** [s.encode('utf-8')] for code points below 256. *)
Definition utf8_char (a : ascii) : list Z :=
  let c := Z.of_N (N_of_ascii a) in
  if c <? 128 then [c]
  else [Z.lor 192 (Z.shiftr c 6); Z.lor 128 (Z.land c 63)].

Fixpoint encode_utf8 (s : string) : list Z :=
  match s with
  | EmptyString => []
  | String a rest => utf8_char a ++ encode_utf8 rest
  end.

(** [needle in s] for a one-character needle. *)
Fixpoint contains_char (c : ascii) (s : string) : bool :=
  match s with
  | EmptyString => false
  | String a rest => Ascii.eqb a c || contains_char c rest
  end.

(** [s.split(c)[-1]]: what follows the last occurrence of [c]. *)
Fixpoint after_last (c : ascii) (s : string) : string :=
  match s with
  | EmptyString => EmptyString
  | String a rest =>
      if contains_char c rest then after_last c rest
      else if Ascii.eqb a c then rest
      else s
  end.

End Py.

(* ===================================================================== *)
(** * [hashlib.md5] (RFC 1321), on bytes held as [Z] *)
(* ===================================================================== *)

Module MD5.

Definition mask32 (x : Z) : Z := Z.land x 4294967295.

Definition add32 (x y : Z) : Z := mask32 (x + y).

Definition not32 (x : Z) : Z := Z.lxor x 4294967295.

Definition rotl32 (x c : Z) : Z :=
  mask32 (Z.lor (Z.shiftl x c) (Z.shiftr x (32 - c))).

Definition shifts : list Z :=
  [7; 12; 17; 22; 7; 12; 17; 22; 7; 12; 17; 22; 7; 12; 17; 22;
   5; 9; 14; 20; 5; 9; 14; 20; 5; 9; 14; 20; 5; 9; 14; 20;
   4; 11; 16; 23; 4; 11; 16; 23; 4; 11; 16; 23; 4; 11; 16; 23;
   6; 10; 15; 21; 6; 10; 15; 21; 6; 10; 15; 21; 6; 10; 15; 21].

Definition sines : list Z :=
  [0xd76aa478; 0xe8c7b756; 0x242070db; 0xc1bdceee;
   0xf57c0faf; 0x4787c62a; 0xa8304613; 0xfd469501;
   0x698098d8; 0x8b44f7af; 0xffff5bb1; 0x895cd7be;
   0x6b901122; 0xfd987193; 0xa679438e; 0x49b40821;
   0xf61e2562; 0xc040b340; 0x265e5a51; 0xe9b6c7aa;
   0xd62f105d; 0x02441453; 0xd8a1e681; 0xe7d3fbc8;
   0x21e1cde6; 0xc33707d6; 0xf4d50d87; 0x455a14ed;
   0xa9e3e905; 0xfcefa3f8; 0x676f02d9; 0x8d2a4c8a;
   0xfffa3942; 0x8771f681; 0x6d9d6122; 0xfde5380c;
   0xa4beea44; 0x4bdecfa9; 0xf6bb4b60; 0xbebfbc70;
   0x289b7ec6; 0xeaa127fa; 0xd4ef3085; 0x04881d05;
   0xd9d4d039; 0xe6db99e5; 0x1fa27cf8; 0xc4ac5665;
   0xf4292244; 0x432aff97; 0xab9423a7; 0xfc93a039;
   0x655b59c3; 0x8f0ccc92; 0xffeff47d; 0x85845dd1;
   0x6fa87e4f; 0xfe2ce6e0; 0xa3014314; 0x4e0811a1;
   0xf7537e82; 0xbd3af235; 0x2ad7d2bb; 0xeb86d391].

Record regs : Type := Regs { ra : Z; rb : Z; rc : Z; rd : Z }.

Definition init : regs :=
  Regs 0x67452301 0xefcdab89 0x98badcfe 0x10325476.

(** The message, the bit 1, zeros up to 56 modulo 64, and the bit length on
    eight little-endian bytes. *)
Definition le_bytes (count : nat) (x : Z) : list Z :=
  map (fun i => Z.land (Z.shiftr x (8 * Z.of_nat i)) 255) (seq 0 count).

Definition pad (msg : list Z) : list Z :=
  let len := Z.of_nat (length msg) in
  msg ++ [128] ++ repeat 0 (Z.to_nat ((55 - len) mod 64))
      ++ le_bytes 8 (Z.land (8 * len) 18446744073709551615).

Definition word_le (bs : list Z) : Z :=
  match bs with
  | [b0; b1; b2; b3] =>
      Z.lor b0 (Z.lor (Z.shiftl b1 8) (Z.lor (Z.shiftl b2 16) (Z.shiftl b3 24)))
  | _ => 0
  end.

Fixpoint words (count : nat) (bs : list Z) : list Z :=
  match count with
  | O => []
  | S k => word_le (firstn 4 bs) :: words k (skipn 4 bs)
  end.

Definition step (m : list Z) (r : regs) (i : nat) : regs :=
  let zi := Z.of_nat i in
  let '(f, g) :=
    if zi <? 16 then
      (Z.lor (Z.land (rb r) (rc r)) (Z.land (not32 (rb r)) (rd r)), zi)
    else if zi <? 32 then
      (Z.lor (Z.land (rd r) (rb r)) (Z.land (not32 (rd r)) (rc r)),
       (5 * zi + 1) mod 16)
    else if zi <? 48 then
      (Z.lxor (rb r) (Z.lxor (rc r) (rd r)), (3 * zi + 5) mod 16)
    else
      (Z.lxor (rc r) (Z.lor (rb r) (not32 (rd r))), (7 * zi) mod 16) in
  let f' := add32 (add32 (add32 f (ra r)) (nth i sines 0)) (nth (Z.to_nat g) m 0) in
  Regs (rd r) (add32 (rb r) (rotl32 f' (nth i shifts 0))) (rb r) (rc r).

Definition chunk (r : regs) (block : list Z) : regs :=
  let r' := fold_left (step (words 16 block)) (seq 0 64) r in
  Regs (add32 (ra r) (ra r')) (add32 (rb r) (rb r'))
       (add32 (rc r) (rc r')) (add32 (rd r) (rd r')).

Fixpoint chunks (count : nat) (bs : list Z) (r : regs) : regs :=
  match count with
  | O => r
  | S k => chunks k (skipn 64 bs) (chunk r (firstn 64 bs))
  end.

Definition digest (msg : list Z) : list Z :=
  let p := pad msg in
  let r := chunks (length p / 64)%nat p init in
  le_bytes 4 (ra r) ++ le_bytes 4 (rb r) ++ le_bytes 4 (rc r) ++ le_bytes 4 (rd r).

Definition hex_byte (b : Z) : string :=
  String (Py.hex_digit (Z.to_N (b / 16)))
    (String (Py.hex_digit (Z.to_N (b mod 16))) EmptyString).

Definition hexdigest (msg : list Z) : string :=
  fold_right (fun b acc => hex_byte b +:+ acc) EmptyString (digest msg).

End MD5.


(* ===================================================================== *)
(** * Clock readings *)
(* ===================================================================== *)

(** The clock is a count of microseconds since the epoch. The three ways
    the program reads it: [int(time.time())], SQLite's [CURRENT_TIMESTAMP]
    (UTC, to the second) and [datetime.now().isoformat()] (local time). *)

Module Clock.

Definition second : Z := 1000000.

(** Proleptic Gregorian date of a day count since 1970-01-01. *)
Definition civil_from_days (days : Z) : Z * Z * Z :=
  let z := days + 719468 in
  let era := z / 146097 in
  let doe := z - era * 146097 in
  let yoe := (doe - doe / 1460 + doe / 36524 - doe / 146096) / 365 in
  let doy := doe - (365 * yoe + yoe / 4 - yoe / 100) in
  let mp := (5 * doy + 2) / 153 in
  let d := doy - (153 * mp + 2) / 5 + 1 in
  let m := if mp <? 10 then mp + 3 else mp - 9 in
  let y := yoe + era * 400 in
  (if m <=? 2 then y + 1 else y, m, d).

(** [n] in decimal, padded with zeros on the left up to [width] digits. *)
Definition zero_padded (width : nat) (n : Z) : string :=
  let digits := pretty n in
  String.concat "" (repeat "0" (width - String.length digits)) +:+ digits.

Definition date_time (sep : string) (secs : Z) : string :=
  let '(y, m, d) := civil_from_days (secs / 86400) in
  let tod := secs mod 86400 in
  zero_padded 4 y +:+ "-" +:+ zero_padded 2 m +:+ "-" +:+ zero_padded 2 d
  +:+ sep
  +:+ zero_padded 2 (tod / 3600) +:+ ":" +:+ zero_padded 2 (tod mod 3600 / 60)
  +:+ ":" +:+ zero_padded 2 (tod mod 60).

Definition time_time (clock : Z) : Z := clock / second.

Definition current_timestamp (clock : Z) : string :=
  date_time " " (clock / second).

Definition isoformat_now (utc_offset : Z) (clock : Z) : string :=
  let micro := clock mod second in
  date_time "T" (clock / second + utc_offset)
  +:+ (if micro =? 0 then "" else "." +:+ zero_padded 6 micro).

End Clock.

(* ===================================================================== *)
(** * The [submissions] table *)
(* ===================================================================== *)

Module Store.

(** A [TEXT] column that holds a JSON document: [NULL] or the empty text,
    the text of a document, or text [json.loads] rejects. *)
Inductive json_col : Type :=
| ColEmpty
| ColJson (v : Py.jval)
| ColInvalid.

(** One row, with the columns of [CREATE TABLE submissions] in [init_database]. *)
Record row : Type := Row {
  id : Z;
  timestamp : string;
  form_type : option string;
  data : json_col;
  files : json_col;
  ip_address : option string;
  user_agent : option string;
  synced_to_cloud : bool;
  sync_timestamp : option string
}.

(** The table, in rowid order. *)
Definition table : Type := list row.

(** [SET synced_to_cloud = TRUE, sync_timestamp = CURRENT_TIMESTAMP] on one row. *)
Definition set_synced (now : string) (r : row) : row :=
  {| id := id r; timestamp := timestamp r; form_type := form_type r;
     data := data r; files := files r; ip_address := ip_address r;
     user_agent := user_agent r;
     synced_to_cloud := true; sync_timestamp := Some now |}.

(** [UPDATE submissions SET synced_to_cloud = TRUE,
      sync_timestamp = CURRENT_TIMESTAMP WHERE id = ?] (mark_as_synced). *)
Definition update_synced (now : string) (submission_id : Z) (t : table) : table :=
  map (fun r => if id r =? submission_id then set_synced now r else r) t.

(** [r1] is not younger than [r2]. *)
Definition older (r1 r2 : row) : Prop :=
  String.leb (timestamp r1) (timestamp r2) = true.

(** [ORDER BY timestamp ASC]: text compared byte by byte; rows with equal
    timestamps are kept in table order. *)
Fixpoint insert_by_timestamp (r : row) (l : list row) : list row :=
  match l with
  | [] => [r]
  | r' :: rest =>
      if String.leb (timestamp r) (timestamp r') then r :: l
      else r' :: insert_by_timestamp r rest
  end.

Definition order_by_timestamp (l : list row) : list row :=
  foldr insert_by_timestamp [] l.

(** [LIMIT ?]: SQLite reads a negative limit as no limit. *)
Definition sql_limit (limit : Z) (l : list row) : list row :=
  if limit <? 0 then l else firstn (Z.to_nat limit) l.

(** [SELECT ... FROM submissions WHERE synced_to_cloud = FALSE
      ORDER BY timestamp ASC LIMIT ?] (get_unsynced_submissions). *)
Definition select_unsynced (limit : Z) (t : table) : list row :=
  sql_limit limit
    (order_by_timestamp (List.filter (fun r => negb (synced_to_cloud r)) t)).

(** [SELECT COUNT( * ) FROM submissions WHERE synced_to_cloud = FALSE] (get_stats). *)
Definition unsynced_count (t : table) : nat :=
  length (List.filter (fun r => negb (synced_to_cloud r)) t).

End Store.

(* ===================================================================== *)
(** * The sync manager *)
(* ===================================================================== *)

Module Sync.

Import Py.

(** The entries of the module-level [CONFIG] dictionary that the methods read. *)
Record Settings : Type := {
  api_base_url : string;
  max_retries : Z;
  retry_delay : Z;
  batch_size : Z
}.

Definition CONFIG : Settings :=
  {| api_base_url := "https://api.cli.im";
     max_retries := 3;
     retry_delay := 5;
     batch_size := 10 |}.

(** A row as [get_unsynced_submissions] hands it on: the dictionary with the
    keys [id], [timestamp], [form_type], [data], [files], [ip_address]. *)
Record submission : Type := {
  sub_id : Z;
  sub_timestamp : string;
  sub_form_type : option string;
  sub_data : jval;
  sub_files : jval;
  sub_ip_address : option string
}.

(** The body of the POST request ([api_data]). *)
Record api_request : Type := {
  req_api_key : scalar;
  req_timestamp : Z;
  req_signature : string;
  req_data : jval
}.

(** ** What the remote side and the libraries answer *)

(** Exceptions, as far as the handlers tell them apart. *)
Inductive exn : Type :=
| RequestException   (* requests.exceptions.RequestException and subclasses *)
| OtherException.    (* any other Exception *)

Inductive json_result : Type :=
| JsonRaises (e : exn)
| JsonValue (v : jval).

Record response : Type := {
  status_code : Z;
  json : json_result     (* what response.json() does *)
}.

Inductive post_result : Type :=
| PostRaises (e : exn)
| PostReturns (r : response).

(** The configuration file at [config_path]. *)
Inductive file_state : Type :=
| FileAbsent
| FileCorrupt        (* open or json.load raises *)
| FileOther          (* valid JSON that is not an object: a list, a string,
                        a number, true, false or null *)
| FileJson (content : gmap string scalar).

(** What [load_config] returns: a dictionary, or the value of another type
    that [json.load] read from the file. Such a value has no [get]. *)
Inductive loaded : Type :=
| Dict (content : gmap string scalar)
| NotDict.

(** How [main] ends. *)
Inductive exit : Type :=
| Returns
| RaisesAttributeError.

Inductive save_outcome : Type :=
| Saved
| SaveRaisedEarly    (* makedirs or open raised: the file is as it was *)
| SaveRaisedLate.    (* json.dump raised after open(..., 'w') truncated the file *)

(** The environment of one run. The answer of the remote side to a POST is
    given per submission id and attempt number (counted from 0). *)
Record env : Type := {
  hostname : string;                 (* os.uname().nodename *)
  utc_offset : Z;                    (* local time minus UTC, in seconds *)
  ping : option Z;                   (* return code of ping; None: run raised *)
  select_ok : bool;                  (* connect and SELECT do not raise *)
  update_ok : Z -> bool;             (* connect, UPDATE and commit do not raise *)
  save_result : save_outcome;
  post : Z -> Z -> post_result
}.

(** ** Observable events

    [Ping], [Select], [Update], [Post] and [SaveConfig] record that the call
    was made, whether or not it then raised. *)

Inductive level : Type := INFO | WARNING | ERROR.

(** One constructor per logging call of the module, in source order. *)
Inductive message : Type :=
| MsgLoadConfigFailed
| MsgSaveConfigFailed
| MsgSelectFailed
| MsgNoCredentials
| MsgNoSignature
| MsgSynced (submission_id : Z)
| MsgRemoteError (msg : jval)
| MsgHttpError (status : Z)
| MsgRequestFailed (attempt : Z) (max : Z)
| MsgSyncException
| MsgMarkFailed
| MsgNoNetwork
| MsgSyncDisabled
| MsgStart
| MsgNothingPending
| MsgItemFailed (submission_id : Z)
| MsgDone (success_count total_count : Z)
| MsgServiceStart
| MsgNoApiKey
| MsgServiceEnd.

Inductive event : Type :=
| Ping
| Select (limit : Z)
| Update (submission_id : Z)
| Post (url : string) (body : api_request)
| Sleep (seconds : Z)
| SaveConfig (content : gmap string scalar)
| Log (lvl : level) (msg : message).

(** ** The state the manager works on

    [config] is [self.config] of a manager whose configuration is a
    dictionary, the only kind its methods can read ([self.config.get]); what
    happens when [load_config] returns something else is in [init] and
    [main]. Only [time.sleep] moves the clock: the other calls are taken to
    return at once. *)

Record world : Type := World {
  db : Store.table;                  (* the table at db_path *)
  config : gmap string scalar;       (* self.config *)
  config_file : file_state;          (* the file at config_path *)
  clock : Z                          (* microseconds since the epoch *)
}.

Definition with_db (t : Store.table) (w : world) : world :=
  {| db := t; config := config w; config_file := config_file w; clock := clock w |}.

Definition with_config (c : gmap string scalar) (w : world) : world :=
  {| db := db w; config := c; config_file := config_file w; clock := clock w |}.

Definition with_config_file (f : file_state) (w : world) : world :=
  {| db := db w; config := config w; config_file := f; clock := clock w |}.

Definition with_clock (t : Z) (w : world) : world :=
  {| db := db w; config := config w; config_file := config_file w; clock := t |}.

(** A computation returns its value, the new state and the events it caused,
    oldest first. *)
Definition M (A : Type) : Type := world -> A * world * list event.

Definition ret {A : Type} (a : A) : M A := fun w => (a, w, []).

Definition bind {A B : Type} (m : M A) (k : A -> M B) : M B :=
  fun w =>
    let '(a, w1, t1) := m w in
    let '(b, w2, t2) := k a w1 in
    (b, w2, t1 ++ t2).

#[global] Instance M_ret : MRet M := @ret.
#[global] Instance M_bind : MBind M := fun A B k m => bind m k.

Definition gets {A : Type} (f : world -> A) : M A := fun w => (f w, w, []).
Definition modify (f : world -> world) : M unit := fun w => (tt, f w, []).
Definition emit (e : event) : M unit := fun w => (tt, w, [e]).
Definition log (lvl : level) (msg : message) : M unit := emit (Log lvl msg).

(** [time.sleep(seconds)] *)
Definition sleep (seconds : Z) : M unit :=
  fun w => (tt, with_clock (clock w + seconds * Clock.second) w, [Sleep seconds]).

Definition result {A : Type} (r : A * world * list event) : A := r.1.1.
Definition final {A : Type} (r : A * world * list event) : world := r.1.2.
Definition events {A : Type} (r : A * world * list event) : list event := r.2.

Definition opt_str (o : option string) : jval :=
  match o with
  | Some s => JStr s
  | None => JNull
  end.

(** [result.get(k)] on a JSON object. *)
Definition dict_get (kvs : list (string * jval)) (k : string) : jval :=
  default JNull (item kvs k).

(** [all-or-nothing] traversal: the first exception ends it. *)
Fixpoint collect {A B : Type} (f : A -> option B) (l : list A) : option (list B) :=
  match l with
  | [] => Some []
  | a :: rest =>
      match f a with
      | None => None
      | Some b =>
          match collect f rest with
          | None => None
          | Some bs => Some (b :: bs)
          end
      end
  end.

Definition default_config : gmap string scalar :=
  <["api_key" := SStr ""]>
    (<["api_secret" := SStr ""]>
      (<["sync_enabled" := SBool false]>
        (<["last_sync_time" := SNone]>
          (<["sync_interval" := SInt 300]>
            (<["auto_sync" := SBool true]> ∅))))).

Section Manager.

Variable C : Settings.
Variable E : env.

(** [save_config] (lines 70-77) *)
Definition save_config (content : gmap string scalar) : M unit :=
  emit (SaveConfig content);;
  match save_result E with
  | Saved => modify (with_config_file (FileJson content))
  | SaveRaisedEarly => log ERROR MsgSaveConfigFailed
  | SaveRaisedLate =>
      modify (with_config_file FileCorrupt);; log ERROR MsgSaveConfigFailed
  end.

(** [load_config] (lines 48-68) *)
Definition load_config : M loaded :=
  f ← gets config_file;
  match f with
  | FileJson content => mret (Dict content)
  | FileOther => mret NotDict
  | FileAbsent => save_config default_config;; mret (Dict default_config)
  | FileCorrupt => log ERROR MsgLoadConfigFailed;; mret (Dict ∅)
  end.

(** [__init__] (lines 40-46): [self.config] becomes what [load_config]
    returned. The state takes it when it is a dictionary; either way it is
    handed to the caller, who reads [sync_manager.config] next. *)
Definition init : M loaded :=
  c ← load_config;
  match c with
  | Dict content => modify (with_config content)
  | NotDict => mret tt
  end;;
  mret c.

(** [check_network_connection] (lines 79-87) *)
Definition check_network_connection : M bool :=
  emit Ping;;
  match ping E with
  | Some returncode => mret (returncode =? 0)
  | None => mret false
  end.

(** [json.loads(row[i]) if row[i] else dflt] *)
Definition load_col (c : Store.json_col) (dflt : jval) : option jval :=
  match c with
  | Store.ColEmpty => Some dflt
  | Store.ColJson v => Some v
  | Store.ColInvalid => None
  end.

Definition to_submission (r : Store.row) : option submission :=
  match load_col (Store.data r) (JObj []) with
  | None => None
  | Some d =>
      match load_col (Store.files r) (JList []) with
      | None => None
      | Some f =>
          Some {| sub_id := Store.id r;
                  sub_timestamp := Store.timestamp r;
                  sub_form_type := Store.form_type r;
                  sub_data := d;
                  sub_files := f;
                  sub_ip_address := Store.ip_address r |}
      end
  end.

(** [get_unsynced_submissions] (lines 89-120) *)
Definition get_unsynced_submissions : M (list submission) :=
  emit (Select (batch_size C));;
  if select_ok E then
    t ← gets db;
    match collect to_submission (Store.select_unsynced (batch_size C) t) with
    | Some submissions => mret submissions
    | None => log ERROR MsgSelectFailed;; mret []
    end
  else
    log ERROR MsgSelectFailed;; mret [].

(** [generate_signature] (lines 122-134). With the values of this model
    neither [json.dumps] nor [encode] raises, so the handler is not reached. *)
Definition generate_signature (config : gmap string scalar)
    (data : jval) (timestamp : Z) : option string :=
  let api_secret := get_default config "api_secret" (SStr "") in
  if negb (truthy_scalar api_secret) then None
  else
    let sign_string := dumps data +:+ pretty timestamp +:+ str api_secret in
    Some (MD5.hexdigest (encode_utf8 sign_string)).

(** ['.' in name], then [name.split('.')[-1]] or ['unknown'] (line 163).
    [None]: the expression raises. *)
Definition file_type (name : jval) : option jval :=
  match name with
  | JStr s =>
      Some (JStr (if contains_char "." s then after_last "." s else "unknown"))
  | JList l =>
      if existsb (fun x => match x with JStr s => String.eqb s "." | _ => false end) l
      then None else Some (JStr "unknown")
  | JObj kvs =>
      if existsb (fun kv => String.eqb (fst kv) ".") kvs
      then None else Some (JStr "unknown")
  | _ => None
  end.

(** One element of the [files] comprehension (lines 160-164). *)
Definition file_info (f : jval) : option jval :=
  match f with
  | JObj kvs =>
      match item kvs "original_name", item kvs "size" with
      | Some name, Some size =>
          match file_type name with
          | Some ty => Some (JObj [("name", name); ("size", size); ("type", ty)])
          | None => None
          end
      | _, _ => None
      end
  | _ => None
  end.

(** [sync_data] (lines 144-166). [None]: building it raises. *)
Definition build_sync_data (s : submission) : option jval :=
  let base :=
    [("source", JStr "raspberry_pi");
     ("submission_id", JNum (sub_id s));
     ("timestamp", JStr (sub_timestamp s));
     ("form_type", opt_str (sub_form_type s));
     ("data", sub_data s);
     ("ip_address", opt_str (sub_ip_address s));
     ("device_info", JObj [("hostname", JStr (hostname E));
                           ("platform", JStr "raspberry_pi_4b")])] in
  if truthy (sub_files s) then
    match sub_files s with
    | JList fs =>
        match collect file_info fs with
        | Some infos => Some (JObj (base ++ [("files", JList infos)]))
        | None => None
        end
    | _ => None
    end
  else Some (JObj base).

Definition session_post (submission_id attempt : Z) (body : api_request)
  : M post_result :=
  emit (Post (api_base_url C +:+ "/data/submit") body);;
  mret (post E submission_id attempt).

(** The [for attempt in range(max_retries)] loop (lines 185-208), with
    [remaining] iterations left. *)
Fixpoint post_attempts (submission_id : Z) (api_data : api_request)
    (remaining : nat) (attempt : Z) : M bool :=
  match remaining with
  | O => mret false
  | S remaining' =>
      r ← session_post submission_id attempt api_data;
      match r with
      | PostReturns resp =>
          if status_code resp =? 200 then
            match json resp with
            | JsonValue (JObj result) =>
                if truthy (dict_get result "success") then
                  log INFO (MsgSynced submission_id);; mret true
                else
                  log ERROR (MsgRemoteError (dict_get result "message"));;
                  post_attempts submission_id api_data remaining' (attempt + 1)
            | JsonValue _ => log ERROR MsgSyncException;; mret false
            | JsonRaises RequestException =>
                log ERROR (MsgRequestFailed (attempt + 1) (max_retries C));;
                (if attempt <? max_retries C - 1 then sleep (retry_delay C)
                 else mret tt);;
                post_attempts submission_id api_data remaining' (attempt + 1)
            | JsonRaises OtherException => log ERROR MsgSyncException;; mret false
            end
          else
            log ERROR (MsgHttpError (status_code resp));;
            post_attempts submission_id api_data remaining' (attempt + 1)
      | PostRaises RequestException =>
          log ERROR (MsgRequestFailed (attempt + 1) (max_retries C));;
          (if attempt <? max_retries C - 1 then sleep (retry_delay C)
           else mret tt);;
          post_attempts submission_id api_data remaining' (attempt + 1)
      | PostRaises OtherException => log ERROR MsgSyncException;; mret false
      end
  end.

(** [not signature] *)
Definition no_signature (signature : option string) : bool :=
  match signature with
  | None => true
  | Some s => String.eqb s ""
  end.

(** [sync_to_cloud] (lines 136-212) *)
Definition sync_to_cloud (s : submission) : M bool :=
  config ← gets config;
  if negb (truthy_scalar (get config "api_key"))
     || negb (truthy_scalar (get config "api_secret")) then
    log WARNING MsgNoCredentials;; mret false
  else
    match build_sync_data s with
    | None => log ERROR MsgSyncException;; mret false
    | Some sync_data =>
        now ← gets clock;
        let timestamp := Clock.time_time now in
        let signature := generate_signature config sync_data timestamp in
        if no_signature signature then
          log ERROR MsgNoSignature;; mret false
        else
          let api_data :=
            {| req_api_key := get config "api_key";
               req_timestamp := timestamp;
               req_signature := default "" signature;
               req_data := sync_data |} in
          post_attempts (sub_id s) api_data (Z.to_nat (max_retries C)) 0
    end.

(** [mark_as_synced] (lines 214-230) *)
Definition mark_as_synced (submission_id : Z) : M unit :=
  emit (Update submission_id);;
  if update_ok E submission_id then
    now ← gets clock;
    t ← gets db;
    modify (with_db (Store.update_synced (Clock.current_timestamp now)
                       submission_id t))
  else
    log ERROR MsgMarkFailed.

(** The [for submission in submissions] loop (lines 252-260). *)
Fixpoint sync_items (submissions : list submission) (success_count : Z) : M Z :=
  match submissions with
  | [] => mret success_count
  | s :: rest =>
      ok ← sync_to_cloud s;
      success_count' ←
        (if ok : bool then
           mark_as_synced (sub_id s);; mret (success_count + 1)
         else
           log ERROR (MsgItemFailed (sub_id s));; mret success_count) : M Z;
      sleep 1;;
      sync_items rest success_count'
  end.

(** [sync_all_pending] (lines 232-268) *)
Definition sync_all_pending : M bool :=
  online ← check_network_connection;
  if negb online then
    log WARNING MsgNoNetwork;; mret false
  else
    config ← gets config;
    if negb (truthy_scalar (get config "sync_enabled")) then
      log INFO MsgSyncDisabled;; mret false
    else
      log INFO MsgStart;;
      submissions ← get_unsynced_submissions;
      match submissions with
      | [] => log INFO MsgNothingPending;; mret true
      | _ :: _ =>
          let total_count := Z.of_nat (length submissions) in
          success_count ← sync_items submissions 0;
          log INFO (MsgDone success_count total_count);;
          now ← gets clock;
          modify (fun w =>
            with_config
              (<["last_sync_time" := SStr (Clock.isoformat_now (utc_offset E) now)]>
                 (Sync.config w)) w);;
          self_config ← gets Sync.config;
          save_config self_config;;
          mret (success_count =? total_count)
      end.

(** [main] (lines 303-339). [sync_manager.config.get] is outside the [try]:
    on a configuration that is not a dictionary it raises [AttributeError],
    which nothing catches. *)
Definition main : M exit :=
  log INFO MsgServiceStart;;
  c ← init;
  match c with
  | NotDict => mret RaisesAttributeError
  | Dict config =>
      if negb (truthy_scalar (get config "api_key")) then
        log WARNING MsgNoApiKey;; mret Returns
      else
        sync_all_pending;;
        log INFO MsgServiceEnd;;
        mret Returns
  end.

End Manager.

End Sync.

(* ===================================================================== *)
(** * Reading a run *)
(* ===================================================================== *)

(** Definitions used to state what a run did: how an answer to a POST is
    classified by the branches of the retry loop, and projections of the
    event list and of the table. *)

Module Reading.

Import Py Sync.

(** The five ways one iteration of the retry loop can go. *)
Inductive outcome : Type :=
| Delivered        (* status 200 and a truthy "success": return True *)
| Rejected         (* status 200 and a falsy "success" *)
| HttpFailure      (* any other status *)
| NetworkFailure   (* RequestException, caught inside the loop *)
| Crash.           (* any other exception, caught by the outer handler *)

Definition classify (r : post_result) : outcome :=
  match r with
  | PostRaises RequestException => NetworkFailure
  | PostRaises OtherException => Crash
  | PostReturns resp =>
      if status_code resp =? 200 then
        match json resp with
        | JsonValue (JObj result) =>
            if truthy (dict_get result "success") then Delivered else Rejected
        | JsonValue _ => Crash
        | JsonRaises RequestException => NetworkFailure
        | JsonRaises OtherException => Crash
        end
      else HttpFailure
  end.

(** The outcomes of [count] attempts numbered from [attempt] on, and those of
    the attempts [0 .. max_retries - 1] for one submission. *)
Fixpoint outcomes_from (E : env) (submission_id : Z) (count : nat) (attempt : Z)
  : list outcome :=
  match count with
  | O => []
  | S count' =>
      classify (post E submission_id attempt)
      :: outcomes_from E submission_id count' (attempt + 1)
  end.

Definition outcomes (C : Settings) (E : env) (submission_id : Z) : list outcome :=
  outcomes_from E submission_id (Z.to_nat (max_retries C)) 0.

(** Whether a sequence of outcomes ends in an acknowledged delivery. *)
Fixpoint acknowledged (outs : list outcome) : bool :=
  match outs with
  | [] => false
  | Delivered :: _ => true
  | Crash :: _ => false
  | _ :: rest => acknowledged rest
  end.

(** The requests and waits a sequence of outcomes gives rise to: every
    outcome but [Delivered] and [Crash] is followed by the next attempt, and
    only a [NetworkFailure] that is not the last attempt is followed by a wait. *)
Fixpoint retry_trace (url : string) (body : api_request) (delay : Z)
    (outs : list outcome) : list event :=
  match outs with
  | [] => []
  | o :: rest =>
      Post url body ::
      match o with
      | Delivered | Crash => []
      | Rejected | HttpFailure => retry_trace url body delay rest
      | NetworkFailure =>
          match rest with
          | [] => []
          | _ :: _ => Sleep delay :: retry_trace url body delay rest
          end
      end
  end.

(** Whether [sync_to_cloud] returns [True] for a submission. *)
Definition delivers (C : Settings) (E : env) (config : gmap string scalar)
    (s : submission) : bool :=
  truthy_scalar (get config "api_key")
  && truthy_scalar (get config "api_secret")
  && match build_sync_data E s with
     | Some _ => acknowledged (outcomes C E (sub_id s))
     | None => false
     end.

(** The request body [sync_to_cloud] builds for a payload at a clock reading. *)
Definition api_data (config : gmap string scalar) (now : Z) (sync_data : jval)
  : api_request :=
  let timestamp := Clock.time_time now in
  {| req_api_key := get config "api_key";
     req_timestamp := timestamp;
     req_signature := default "" (generate_signature config sync_data timestamp);
     req_data := sync_data |}.

Definition submit_url (C : Settings) : string := api_base_url C +:+ "/data/submit".

(** The requests and the waits among the events. *)
Definition is_io (e : event) : bool :=
  match e with
  | Post _ _ | Sleep _ => true
  | _ => false
  end.

Definition io_events (evs : list event) : list event := List.filter is_io evs.

(** The length of a wait, [None] for any other event. *)
Definition wait_of (e : event) : option Z :=
  match e with
  | Sleep seconds => Some seconds
  | _ => None
  end.

Definition is_post (e : event) : bool :=
  match e with
  | Post _ _ => true
  | _ => false
  end.

(** Statements run on the [submissions] table, reads included. *)
Definition is_store_access (e : event) : bool :=
  match e with
  | Select _ | Update _ => true
  | _ => false
  end.

Definition is_store_write (e : event) : bool :=
  match e with
  | Update _ => true
  | _ => false
  end.

Definition is_config_write (e : event) : bool :=
  match e with
  | SaveConfig _ => true
  | _ => false
  end.

(** A row with its [sync_timestamp] column blanked. *)
Definition forget_sync_timestamp (r : Store.row) : Store.row :=
  {| Store.id := Store.id r; Store.timestamp := Store.timestamp r;
     Store.form_type := Store.form_type r; Store.data := Store.data r;
     Store.files := Store.files r; Store.ip_address := Store.ip_address r;
     Store.user_agent := Store.user_agent r;
     Store.synced_to_cloud := Store.synced_to_cloud r;
     Store.sync_timestamp := None |}.

(** [touched ids r r']: [r'] is [r], marked as synced at some time if its id
    is one of [ids] and otherwise left as it is. *)
Definition touched (ids : Z -> bool) (r r' : Store.row) : Prop :=
  if ids (Store.id r) then exists now, r' = Store.set_synced now r else r' = r.

(** The ids a batch marks: delivered, and the UPDATE went through. *)
Definition marked (C : Settings) (E : env) (config : gmap string scalar)
    (batch : list submission) (submission_id : Z) : bool :=
  existsb (fun s => (sub_id s =? submission_id) && delivers C E config s
                    && update_ok E (sub_id s)) batch.

(** Nothing but the clock differs between two states. *)
Definition same_store (w w' : world) : Prop :=
  db w' = db w /\ config w' = config w /\ config_file w' = config_file w.

(** The batch a cycle selects, and the two counts it logs. *)
Definition batch (C : Settings) (E : env) (w : world) : list submission :=
  result (get_unsynced_submissions C E w).

Definition total_count (C : Settings) (E : env) (w : world) : Z :=
  Z.of_nat (length (batch C E w)).

Definition success_count (C : Settings) (E : env) (w : world) : Z :=
  Z.of_nat (length (List.filter (delivers C E (config w)) (batch C E w))).

(** The two checks at the head of [sync_all_pending]. *)
Definition online (E : env) : bool :=
  match ping E with
  | Some returncode => returncode =? 0
  | None => false
  end.

Definition sync_enabled (w : world) : bool :=
  truthy_scalar (get (config w) "sync_enabled").

End Reading.

(* ===================================================================== *)
(** * Concrete runs *)
(* ===================================================================== *)

Module Scenario.

Import Py Sync.

Definition delivered_response : post_result :=
  PostReturns {| status_code := 200;
                 json := JsonValue (JObj [("success", JBool true)]) |}.

Definition rejected_response : post_result :=
  PostReturns {| status_code := 200;
                 json := JsonValue (JObj [("success", JBool false);
                                          ("message", JStr "bad signature")]) |}.

Definition server_error_response : post_result :=
  PostReturns {| status_code := 503; json := JsonRaises OtherException |}.

Definition network_error : post_result := PostRaises RequestException.

(** A reachable network, a working database and file system, and a remote
    side that answers [answers submission_id attempt]. *)
Definition env_with (answers : Z -> Z -> post_result) : env :=
  {| hostname := "raspberrypi";
     utc_offset := 28800;
     ping := Some 0;
     select_ok := true;
     update_ok := fun _ => true;
     save_result := Saved;
     post := answers |}.

Definition configured (api_secret : string) (enabled : bool) : gmap string scalar :=
  <["api_key" := SStr "k-123"]>
    (<["api_secret" := SStr api_secret]>
      (<["sync_enabled" := SBool enabled]> default_config)).

Definition fresh_row (id : Z) (timestamp : string) : Store.row :=
  {| Store.id := id;
     Store.timestamp := timestamp;
     Store.form_type := Some "survey";
     Store.data := Store.ColJson (JObj [("name", JStr "ada")]);
     Store.files := Store.ColEmpty;
     Store.ip_address := Some "192.168.150.7";
     Store.user_agent := None;
     Store.synced_to_cloud := false;
     Store.sync_timestamp := None |}.

Definition world_with (t : Store.table) (c : gmap string scalar) : world :=
  {| db := t; config := c; config_file := FileJson c;
     clock := 1700000000 * Clock.second |}.

(** The remote side acknowledges everything. *)
Definition env_delivering : env := env_with (fun _ _ => delivered_response).

(** The remote side declines everything: status 200, [success] false. *)
Definition env_rejecting : env := env_with (fun _ _ => rejected_response).

(** The remote side answers 503 to everything. *)
Definition env_unavailable : env := env_with (fun _ _ => server_error_response).

(** Every request fails on the network. *)
Definition env_unreachable : env := env_with (fun _ _ => network_error).

(** The first request fails on the network, the second is acknowledged. *)
Definition env_second_attempt : env :=
  env_with (fun _ attempt => if attempt =? 0 then network_error
                             else delivered_response).

(** The remote side declines submission 4 and acknowledges the others. *)
Definition env_rejecting_4 : env :=
  env_with (fun submission_id _ =>
              if submission_id =? 4 then rejected_response else delivered_response).

(** The remote side acknowledges, but the UPDATE for submission 2 fails. *)
Definition env_update_fails_2 : env :=
  {| hostname := "raspberrypi";
     utc_offset := 28800;
     ping := Some 0;
     select_ok := true;
     update_ok := fun submission_id => negb (submission_id =? 2);
     save_result := Saved;
     post := fun _ _ => delivered_response |}.

Definition one_row : Store.table := [fresh_row 1 "2023-11-14 10:00:00"].

(** One row, delivered and marked a day before. *)
Definition synced_rows : Store.table :=
  Store.update_synced "2023-11-13 08:00:00" 1 one_row.

Definition two_rows : Store.table :=
  [fresh_row 1 "2023-11-14 10:00:00"; fresh_row 2 "2023-11-14 09:00:00"].

Definition ten_rows : Store.table :=
  [fresh_row 1 "2023-11-14 10:00:00"; fresh_row 2 "2023-11-14 10:00:01";
   fresh_row 3 "2023-11-14 10:00:02"; fresh_row 4 "2023-11-14 10:00:03";
   fresh_row 5 "2023-11-14 10:00:04"; fresh_row 6 "2023-11-14 10:00:05";
   fresh_row 7 "2023-11-14 10:00:06"; fresh_row 8 "2023-11-14 10:00:07";
   fresh_row 9 "2023-11-14 10:00:08"; fresh_row 10 "2023-11-14 10:00:09"].

(** Credentials set and sync enabled. *)
Definition ready : gmap string scalar := configured "s3cr3t" true.

(** The submission [get_unsynced_submissions] makes of [fresh_row]. *)
Definition fresh_submission (id : Z) (timestamp : string) : submission :=
  {| sub_id := id;
     sub_timestamp := timestamp;
     sub_form_type := Some "survey";
     sub_data := JObj [("name", JStr "ada")];
     sub_files := JList [];
     sub_ip_address := Some "192.168.150.7" |}.

(** The payload [sync_to_cloud] builds for [fresh_submission] on the host
    [raspberrypi]. *)
Definition fresh_sync_data (id : Z) (timestamp : string) : jval :=
  JObj [("source", JStr "raspberry_pi");
        ("submission_id", JNum id);
        ("timestamp", JStr timestamp);
        ("form_type", JStr "survey");
        ("data", JObj [("name", JStr "ada")]);
        ("ip_address", JStr "192.168.150.7");
        ("device_info", JObj [("hostname", JStr "raspberrypi");
                              ("platform", JStr "raspberry_pi_4b")])].

End Scenario.

(* ===================================================================== *)
(** * QR codes for submissions *)
(* ===================================================================== *)

Module QrCode.

Import Py Sync.

(** The body of the request to [/qr/create] ([qr_data]). *)
Record qr_request : Type := {
  qr_api_key : scalar;
  qr_text : string;
  qr_size : string;
  qr_format : string
}.

Inductive qr_event : Type :=
| QrPost (url : string) (body : qr_request)
| QrLogError.

(** The address the code encodes for a submission (line 277). *)
Definition data_url (s : submission) : string :=
  "http://data.local/view/" +:+ pretty (sub_id s).

(** [create_qr_code_for_data] (lines 270-301), for the configuration it
    reads and the answer the remote side gives to its one request. The
    value is what the method returns, [JNull] standing for [None]. *)
Definition create_qr_code_for_data (C : Settings) (config : gmap string scalar)
    (answer : post_result) (s : submission) : jval * list qr_event :=
  if negb (truthy_scalar (get config "api_key")) then (JNull, [])
  else
    let qr_data :=
      {| qr_api_key := get config "api_key";
         qr_text := data_url s;
         qr_size := "200x200";
         qr_format := "png" |} in
    let posted := QrPost (api_base_url C +:+ "/qr/create") qr_data in
    match answer with
    | PostRaises _ => (JNull, [posted; QrLogError])
    | PostReturns resp =>
        if status_code resp =? 200 then
          match json resp with
          | JsonRaises _ => (JNull, [posted; QrLogError])
          | JsonValue (JObj result) =>
              if truthy (dict_get result "success")
              then (dict_get result "qr_url", [posted])
              else (JNull, [posted])
          | JsonValue _ => (JNull, [posted; QrLogError])
          end
        else (JNull, [posted])
    end.

End QrCode.

(* ===================================================================== *)
(** * More readings of a run *)
(* ===================================================================== *)

Module Observing.

Import Py Sync Reading.

(** The seconds waited in [time.sleep], all waits of a run together. *)
Definition slept (evs : list event) : Z :=
  fold_right (fun e total => match e with
                             | Sleep seconds => seconds + total
                             | _ => total
                             end) 0 evs.

(** Events that are a request, a wait or a log line: nothing on the store,
    the configuration or the connectivity probe. *)
Definition is_quiet (e : event) : bool :=
  match e with
  | Post _ _ | Sleep _ | Log _ _ => true
  | _ => false
  end.

(** Events that reach outside the process for the sync: the connectivity
    probe, a statement on the table, a request. *)
Definition is_sync_activity (e : event) : bool :=
  match e with
  | Ping | Select _ | Update _ | Post _ _ => true
  | _ => false
  end.

(** A row with its two sync columns as at insertion. *)
Definition as_inserted (r : Store.row) : Store.row :=
  {| Store.id := Store.id r; Store.timestamp := Store.timestamp r;
     Store.form_type := Store.form_type r; Store.data := Store.data r;
     Store.files := Store.files r; Store.ip_address := Store.ip_address r;
     Store.user_agent := Store.user_agent r;
     Store.synced_to_cloud := false;
     Store.sync_timestamp := None |}.

(** Both JSON columns of a row hold text that [json.loads] accepts. *)
Definition json_valid (r : Store.row) : bool :=
  match Store.data r, Store.files r with
  | Store.ColInvalid, _ | _, Store.ColInvalid => false
  | _, _ => true
  end.

(** The keys of a JSON object, in order; [None] for any other value. *)
Definition keys_of (v : jval) : option (list string) :=
  match v with
  | JObj kvs => Some (map fst kvs)
  | _ => None
  end.

(** The [files] entry of a payload, if it has one. *)
Definition payload_files (payload : jval) : option jval :=
  match payload with
  | JObj kvs => item kvs "files"
  | _ => None
  end.

End Observing.

(* ===================================================================== *)
(** * The collecting server ([flask_server/app.py]) *)
(* ===================================================================== *)

Module App.

Import Py.

Definition UPLOADS_DIR : string := "/home/pi/data/uploads".

(** An uploaded file (a [FileStorage]): the name the client gave, empty when
    none, and the size of the content. *)
Record upload : Type := {
  filename : string;
  content_length : Z
}.

(** An incoming POST to [/api/submit]: form fields and files in the order
    they were sent, a key possibly more than once. *)
Record request : Type := {
  form : list (string * string);
  files : list (string * upload);
  remote_addr : option string;
  user_agent_header : option string
}.

(** What the libraries and the system answer to the server. *)
Record server_env : Type := {
  secure_filename : string -> string;  (* werkzeug.utils.secure_filename *)
  sql_date : string -> option string;  (* SQLite's DATE() on a column value *)
  local_offset : Z;                    (* local time minus UTC, in seconds *)
  connect_ok : bool;                   (* sqlite3.connect does not raise *)
  file_save_ok : string -> bool;       (* file.save(path) does not raise *)
  insert_ok : bool                     (* INSERT and commit do not raise *)
}.

(** The state the server works on. [sequence] is the entry of the table in
    [sqlite_sequence] (0 when there is none); [uploads] maps the path of a
    saved file to its size. *)
Record server : Type := {
  rows : Store.table;
  sequence : Z;
  uploads : gmap string Z;
  now : Z
}.

Inductive server_log : Type :=
| LogSaved (submission_id : Z)   (* line 115 *)
| LogSubmitFailed                (* line 163 *)
| LogListFailed                  (* line 204 *)
| LogStatsFailed.                (* line 300 *)

(** ** [AUTOINCREMENT] *)

Definition max_id (t : Store.table) : Z :=
  foldr (fun r top => Z.max (Store.id r) top) 0 t.

Definition largest_rowid : Z := 9223372036854775807.

(** The rowid of the next row: one more than the largest the table holds or
    ever held; [None] when that was the largest possible one. *)
Definition next_rowid (s : server) : option Z :=
  let top := Z.max (sequence s) (max_id (rows s)) in
  if largest_rowid <=? top then None else Some (top + 1).

(** ** [save_submission] (lines 78-116) *)

(** [datetime.now().strftime('%Y%m%d_%H%M%S')], for years from 1000 on. *)
Definition strftime_compact (secs : Z) : string :=
  let '(y, m, d) := Clock.civil_from_days (secs / 86400) in
  let tod := secs mod 86400 in
  Clock.zero_padded 4 y +:+ Clock.zero_padded 2 m +:+ Clock.zero_padded 2 d
  +:+ "_"
  +:+ Clock.zero_padded 2 (tod / 3600) +:+ Clock.zero_padded 2 (tod mod 3600 / 60)
  +:+ Clock.zero_padded 2 (tod mod 60).

(** [os.path.join(dir, name)] for a [dir] without a trailing slash. *)
Definition path_join (dir name : string) : string :=
  match name with
  | String "/" _ => name
  | _ => dir +:+ "/" +:+ name
  end.

Definition with_uploads (u : gmap string Z) (s : server) : server :=
  {| rows := rows s; sequence := sequence s; uploads := u; now := now s |}.

(** The loop over the files (lines 86-98): [None] when [file.save] raises,
    the files saved before staying where they are. *)
Fixpoint save_files (E : server_env) (fs : list upload) (file_info : list jval)
    (s : server) : option (list jval) * server :=
  match fs with
  | [] => (Some file_info, s)
  | file :: rest =>
      if String.eqb (filename file) "" then save_files E rest file_info s
      else
        let name := secure_filename E (filename file) in
        let timestamp := strftime_compact (now s / Clock.second + local_offset E) in
        let safe_filename := timestamp +:+ "_" +:+ name in
        let file_path := path_join UPLOADS_DIR safe_filename in
        if file_save_ok E file_path then
          save_files E rest
            (file_info ++ [JObj [("original_name", JStr name);
                                 ("saved_name", JStr safe_filename);
                                 ("path", JStr file_path);
                                 ("size", JNum (content_length file))]])
            (with_uploads (<[file_path := content_length file]> (uploads s)) s)
        else (None, s)
  end.

(** The row the INSERT writes: the five values given, the defaults of the
    schema for the others. *)
Definition new_row (id : Z) (clock : Z) (form_type : string) (data : jval)
    (file_info : list jval) (ip_address user_agent : option string) : Store.row :=
  {| Store.id := id;
     Store.timestamp := Clock.current_timestamp clock;
     Store.form_type := Some form_type;
     Store.data := Store.ColJson data;
     Store.files := match file_info with
                    | [] => Store.ColEmpty
                    | _ :: _ => Store.ColJson (JList file_info)
                    end;
     Store.ip_address := ip_address;
     Store.user_agent := user_agent;
     Store.synced_to_cloud := false;
     Store.sync_timestamp := None |}.

(** [save_submission]: the id of the new row, or [None] when it raises. *)
Definition save_submission (E : server_env) (form_type : string) (data : jval)
    (fs : list upload) (ip_address user_agent : option string) (s : server)
  : option Z * server * list server_log :=
  if negb (connect_ok E) then (None, s, [])
  else
    match save_files E fs [] s with
    | (None, s1) => (None, s1, [])
    | (Some file_info, s1) =>
        if insert_ok E then
          match next_rowid s1 with
          | None => (None, s1, [])
          | Some id =>
              (Some id,
               {| rows := rows s1
                          ++ [new_row id (now s1) form_type data file_info
                                ip_address user_agent];
                  sequence := id;
                  uploads := uploads s1;
                  now := now s1 |},
               [LogSaved id])
          end
        else (None, s1, [])
    end.

(** ** [submit_data] (lines 128-167) *)

(** [MultiDict.get(key, default)]: the first value sent for the key. *)
Fixpoint first_value {A : Type} (items : list (string * A)) (key : string)
  : option A :=
  match items with
  | [] => None
  | (k, v) :: rest => if String.eqb k key then Some v else first_value rest key
  end.

(** [MultiDict.items()]: each key once, with its first value, in the order
    the keys first came. *)
Fixpoint multi_items {A : Type} (items : list (string * A)) : list (string * A) :=
  match items with
  | [] => []
  | (k, v) :: rest =>
      (k, v) :: List.filter (fun kv => negb (String.eqb (fst kv) k)) (multi_items rest)
  end.

Inductive response : Type :=
| Submitted (submission_id : Z) (timestamp : string)   (* 200 *)
| SubmitFailed.                                        (* 500 *)

(** [form_data] (lines 135-138). *)
Definition form_data (req : request) : jval :=
  JObj (map (fun kv => (fst kv, JStr (snd kv)))
            (List.filter (fun kv => negb (String.eqb (fst kv) "form_type"))
                         (multi_items (form req)))).

(** The files handed on (lines 141-144). *)
Definition sent_files (req : request) : list upload :=
  List.filter (fun file => negb (String.eqb (filename file) ""))
              (map snd (multi_items (files req))).

Definition submit_data (E : server_env) (req : request) (s : server)
  : response * server * list server_log :=
  let form_type := default "general" (first_value (form req) "form_type") in
  match save_submission E form_type (form_data req) (sent_files req)
          (remote_addr req) (user_agent_header req) s with
  | (Some submission_id, s', logs) =>
      (Submitted submission_id (Clock.isoformat_now (local_offset E) (now s')),
       s', logs)
  | (None, s', logs) => (SubmitFailed, s', logs ++ [LogSubmitFailed])
  end.

(** ** [get_submissions] (lines 169-208) *)

(** [ORDER BY timestamp DESC]; rows with equal timestamps in table order. *)
Fixpoint insert_newest_first (r : Store.row) (l : list Store.row) : list Store.row :=
  match l with
  | [] => [r]
  | r' :: rest =>
      if String.leb (Store.timestamp r') (Store.timestamp r) then r :: l
      else r' :: insert_newest_first r rest
  end.

Definition newest_first (t : Store.table) : list Store.row :=
  foldr insert_newest_first [] t.

(** One element of the list the route returns. *)
Record entry : Type := {
  entry_id : Z;
  entry_timestamp : string;
  entry_form_type : option string;
  entry_data : jval;
  entry_files : jval;
  entry_ip_address : option string;
  entry_synced_to_cloud : bool
}.

Definition load_col (c : Store.json_col) (dflt : jval) : option jval :=
  match c with
  | Store.ColEmpty => Some dflt
  | Store.ColJson v => Some v
  | Store.ColInvalid => None
  end.

Definition to_entry (r : Store.row) : option entry :=
  match load_col (Store.data r) (JObj []), load_col (Store.files r) (JList []) with
  | Some d, Some f =>
      Some {| entry_id := Store.id r;
              entry_timestamp := Store.timestamp r;
              entry_form_type := Store.form_type r;
              entry_data := d;
              entry_files := f;
              entry_ip_address := Store.ip_address r;
              entry_synced_to_cloud := Store.synced_to_cloud r |}
  | _, _ => None
  end.

(** The list of the 200 answer, [None] for the 500 answer. *)
Definition get_submissions (E : server_env) (s : server)
  : option (list entry) * list server_log :=
  if connect_ok E then
    match Sync.collect to_entry (newest_first (rows s)) with
    | Some entries => (Some entries, [])
    | None => (None, [LogListFailed])
    end
  else (None, [LogListFailed]).

(** ** [get_stats] (lines 257-304) *)

Record stats : Type := {
  total_submissions : nat;
  today_submissions : nat;
  unsynced_count : nat;
  type_stats : gmap (option string) nat
}.

(** [DATE('now')]: the UTC date of the clock. *)
Definition today (clock : Z) : string :=
  String.substring 0 10 (Clock.current_timestamp clock).

Definition is_today (E : server_env) (clock : Z) (r : Store.row) : bool :=
  match sql_date E (Store.timestamp r) with
  | Some d => String.eqb d (today clock)
  | None => false
  end.

(** [jsonify] writes a dictionary with its keys sorted, and sorting raises
    [TypeError] when it compares [None] with a [str]: the keys of
    [type_stats] can be written when they are not of both kinds. *)
Definition sortable (keys : list (option string)) : bool :=
  negb (existsb (fun k => match k with None => true | Some _ => false end) keys
        && existsb (fun k => match k with Some _ => true | None => false end) keys).

(** [dict] of [SELECT form_type, COUNT( * ) ... GROUP BY form_type]. *)
Definition count_by_form_type (t : Store.table) : gmap (option string) nat :=
  foldr (fun r counts =>
           <[Store.form_type r := S (default 0%nat (counts !! Store.form_type r))]>
             counts)
        ∅ t.

(** The statistics of the 200 answer, [None] for the 500 answer. *)
Definition get_stats (E : server_env) (s : server) : option stats * list server_log :=
  if connect_ok E then
    let st := {| total_submissions := length (rows s);
                 today_submissions :=
                   length (List.filter (is_today E (now s)) (rows s));
                 unsynced_count := Store.unsynced_count (rows s);
                 type_stats := count_by_form_type (rows s) |} in
    if sortable (map fst (map_to_list (type_stats st))) then (Some st, [])
    else (None, [LogStatsFailed])
  else (None, [LogStatsFailed]).

End App.

(* ===================================================================== *)
(** * Readings and runs of the server *)
(* ===================================================================== *)

Module ServerReading.

Import Py App.

(** The sum of the counts of a [type_stats] dictionary. *)
Definition counted (m : gmap (option string) nat) : nat :=
  map_fold (fun _ n total => (n + total)%nat) 0%nat m.

(** The rows of one form type ([None]: the rows with a NULL form type). *)
Definition of_type (k : option string) (t : Store.table) : list Store.row :=
  List.filter (fun r => bool_decide (Store.form_type r = k)) t.

(** The table holds a row with a NULL form type and a row with a text one,
    so that [type_stats] has keys of both kinds. *)
Definition mixed_form_types (t : Store.table) : Prop :=
  exists r r', In r t /\ In r' t
               /\ Store.form_type r = None /\ Store.form_type r' <> None.

(** [e1] is not older than [e2]. *)
Definition not_older (e1 e2 : entry) : Prop :=
  String.leb (entry_timestamp e2) (entry_timestamp e1) = true.

(** The same on rows. *)
Definition row_not_older (r1 r2 : Store.row) : Prop :=
  String.leb (Store.timestamp r2) (Store.timestamp r1) = true.

(** The form type [submit_data] stores for a request. *)
Definition stored_form_type (req : request) : string :=
  default "general" (first_value (form req) "form_type").

End ServerReading.

Module ServerScenario.

Import Py App.

(** Libraries as they act on plain ASCII names and on timestamps written by
    [CURRENT_TIMESTAMP]; a database and a disk that work. *)
Definition working : server_env :=
  {| secure_filename := fun name => name;
     sql_date := fun timestamp => Some (String.substring 0 10 timestamp);
     local_offset := 28800;
     connect_ok := true;
     file_save_ok := fun _ => true;
     insert_ok := true |}.

Definition fresh_server : server :=
  {| rows := []; sequence := 0; uploads := ∅;
     now := 1700000000 * Clock.second |}.

(** A survey form with a repeated field, one file and one empty file input. *)
Definition survey_request : request :=
  {| form := [("form_type", "survey"); ("name", "ada"); ("name", "bob");
              ("age", "36")];
     files := [("photo", {| filename := "photo.jpg"; content_length := 2048 |});
               ("scan", {| filename := ""; content_length := 0 |})];
     remote_addr := Some "192.168.150.7";
     user_agent_header := Some "Mozilla/5.0" |}.

(** The server after that request. *)
Definition after_survey : server :=
  (submit_data working survey_request fresh_server).1.2.

(** The worker started on the table the server left. *)
Definition survey_world : Sync.world :=
  Scenario.world_with (rows after_survey) Scenario.ready.

(** The submission the worker reads from that table. *)
Definition survey_submission : Sync.submission :=
  {| Sync.sub_id := 1;
     Sync.sub_timestamp := "2023-11-14 22:13:20";
     Sync.sub_form_type := Some "survey";
     Sync.sub_data := JObj [("name", JStr "ada"); ("age", JStr "36")];
     Sync.sub_files :=
       JList [JObj [("original_name", JStr "photo.jpg");
                    ("saved_name", JStr "20231115_061320_photo.jpg");
                    ("path", JStr "/home/pi/data/uploads/20231115_061320_photo.jpg");
                    ("size", JNum 2048)]];
     Sync.sub_ip_address := Some "192.168.150.7" |}.

(** The payload the worker builds for it on the host [raspberrypi]. *)
Definition survey_sync_data : jval :=
  JObj [("source", JStr "raspberry_pi");
        ("submission_id", JNum 1);
        ("timestamp", JStr "2023-11-14 22:13:20");
        ("form_type", JStr "survey");
        ("data", JObj [("name", JStr "ada"); ("age", JStr "36")]);
        ("ip_address", JStr "192.168.150.7");
        ("device_info", JObj [("hostname", JStr "raspberrypi");
                              ("platform", JStr "raspberry_pi_4b")]);
        ("files", JList [JObj [("name", JStr "photo.jpg");
                               ("size", JNum 2048);
                               ("type", JStr "jpg")]])].

(** A row whose [data] column holds text that is not JSON. *)
Definition broken_row : Store.row :=
  {| Store.id := 2;
     Store.timestamp := "2023-11-14 09:00:00";
     Store.form_type := Some "survey";
     Store.data := Store.ColInvalid;
     Store.files := Store.ColEmpty;
     Store.ip_address := Some "192.168.150.7";
     Store.user_agent := None;
     Store.synced_to_cloud := false;
     Store.sync_timestamp := None |}.

Definition broken_rows : Store.table :=
  [Scenario.fresh_row 1 "2023-11-14 10:00:00"; broken_row].

(** A survey row stored without a form type. *)
Definition untyped_row (id : Z) (timestamp : string) : Store.row :=
  {| Store.id := id;
     Store.timestamp := timestamp;
     Store.form_type := None;
     Store.data := Store.ColJson (JObj [("name", JStr "ada")]);
     Store.files := Store.ColEmpty;
     Store.ip_address := Some "192.168.150.7";
     Store.user_agent := None;
     Store.synced_to_cloud := false;
     Store.sync_timestamp := None |}.

(** A table with form types of both kinds. *)
Definition mixed_server : server :=
  {| rows := [Scenario.fresh_row 1 "2023-11-14 10:00:00";
              untyped_row 2 "2023-11-14 10:00:01"];
     sequence := 2; uploads := ∅;
     now := 1700000000 * Clock.second |}.

(** The worker started on a configuration file that holds a JSON list. *)
Definition list_in_file : Sync.world :=
  {| Sync.db := Scenario.one_row;
     Sync.config := Scenario.ready;
     Sync.config_file := Sync.FileOther;
     Sync.clock := 1700000000 * Clock.second |}.

(** The worker before its first start: no configuration file yet. *)
Definition first_start : Sync.world :=
  {| Sync.db := Scenario.one_row;
     Sync.config := Scenario.ready;
     Sync.config_file := Sync.FileAbsent;
     Sync.clock := 1700000000 * Clock.second |}.

End ServerScenario.

(* ===================================================================== *)
(** * Test vectors for the library functions *)
(* ===================================================================== *)

Example md5_empty : MD5.hexdigest [] = "d41d8cd98f00b204e9800998ecf8427e".
Proof. vm_compute. reflexivity. Qed.

Example md5_abc :
  MD5.hexdigest (Py.encode_utf8 "abc") = "900150983cd24fb0d6963f7d28e17f72".
Proof. vm_compute. reflexivity. Qed.

Example md5_two_blocks :
  MD5.hexdigest (repeat 97 100) = "36a92cc94a9e0fa21f625f8bfb007adf".
Proof. vm_compute. reflexivity. Qed.

Example dumps_sorted :
  Py.dumps (Py.JObj [("b", Py.JList [Py.JNum 1; Py.JBool true; Py.JNull]);
                     ("a", Py.JObj []); ("c", Py.JList []); ("aa", Py.JNum (-5))])
  = "{" +:+ Py.quote "a" +:+ ": {}, " +:+ Py.quote "aa" +:+ ": -5, "
        +:+ Py.quote "b" +:+ ": [1, true, null], " +:+ Py.quote "c" +:+ ": []}".
Proof. vm_compute. reflexivity. Qed.

Example dumps_escapes :
  Py.dumps (Py.JStr (String (ascii_of_N 34) (String (ascii_of_N 92)
              (String (ascii_of_N 10) (String (ascii_of_N 1)
              (String (ascii_of_N 127) (String (ascii_of_N 233) "x")))))))
  = String (ascii_of_N 34) ("\" +:+ String (ascii_of_N 34)
      ("\\\n\u0001\u007f\u00e9x" +:+ String (ascii_of_N 34) "")).
Proof. vm_compute. reflexivity. Qed.

Example clock_readings :
  Clock.current_timestamp (1700000000 * Clock.second) = "2023-11-14 22:13:20"
  /\ Clock.current_timestamp (951782400 * Clock.second) = "2000-02-29 00:00:00"
  /\ Clock.current_timestamp (4102444799 * Clock.second) = "2099-12-31 23:59:59"
  /\ Clock.isoformat_now 28800 (1700000000 * Clock.second + 45)
     = "2023-11-15T06:13:20.000045"
  /\ Clock.isoformat_now 0 0 = "1970-01-01T00:00:00".
Proof. vm_compute. repeat split. Qed.

(* ===================================================================== *)
(** * The store: ordering and marking *)
(* ===================================================================== *)

Section StoreFacts.

Import Store.

Lemma string_leb_trans (s1 s2 s3 : string) :
  String.leb s1 s2 = true -> String.leb s2 s3 = true -> String.leb s1 s3 = true.
Proof.
  unfold String.leb.
  revert s2 s3; induction s1 as [|a s1 IH]; intros [|b s2] [|c s3]; simpl;
    try congruence.
  unfold Ascii.compare.
  destruct (N.compare_spec (N_of_ascii a) (N_of_ascii b)) as [Hab|Hab|Hab];
    destruct (N.compare_spec (N_of_ascii b) (N_of_ascii c)) as [Hbc|Hbc|Hbc];
    try congruence; intros H1 H2.
  - rewrite Hab, Hbc, N.compare_refl. apply (IH s2 s3); assumption.
  - rewrite Hab. apply N.compare_lt_iff in Hbc. rewrite Hbc. reflexivity.
  - rewrite <- Hbc. apply N.compare_lt_iff in Hab. rewrite Hab. reflexivity.
  - assert (Hac : (N_of_ascii a < N_of_ascii c)%N) by lia.
    apply N.compare_lt_iff in Hac. rewrite Hac. reflexivity.
Qed.

Lemma insert_by_timestamp_In (r x : row) (l : list row) :
  In x (insert_by_timestamp r l) <-> x = r \/ In x l.
Proof.
  induction l as [|r' l IH]; simpl.
  - intuition.
  - destruct (String.leb (timestamp r) (timestamp r')); simpl.
    + intuition.
    + rewrite IH. intuition.
Qed.

Lemma order_by_timestamp_In (x : row) (l : list row) :
  In x (order_by_timestamp l) <-> In x l.
Proof.
  induction l as [|r l IH]; simpl.
  - reflexivity.
  - rewrite insert_by_timestamp_In, IH. intuition.
Qed.

Lemma insert_by_timestamp_sorted (r : row) (l : list row) :
  StronglySorted older l -> StronglySorted older (insert_by_timestamp r l).
Proof.
  induction 1 as [|r' l Hs IH Hall]; simpl.
  - constructor; constructor.
  - destruct (String.leb (timestamp r) (timestamp r')) eqn:Hle.
    + constructor.
      * constructor; assumption.
      * constructor; [exact Hle|].
        eapply List.Forall_impl; [|exact Hall].
        intros x Hx. eapply string_leb_trans; eassumption.
    + constructor; [exact IH|].
      apply List.Forall_forall. intros x Hx.
      apply insert_by_timestamp_In in Hx as [->|Hx].
      * destruct (String.leb_total (timestamp r) (timestamp r')) as [H|H];
          [congruence | exact H].
      * rewrite List.Forall_forall in Hall. apply Hall, Hx.
Qed.

Lemma order_by_timestamp_sorted (l : list row) :
  StronglySorted older (order_by_timestamp l).
Proof.
  induction l as [|r l IH]; simpl.
  - constructor.
  - apply insert_by_timestamp_sorted, IH.
Qed.

Lemma insert_by_timestamp_length (r : row) (l : list row) :
  length (insert_by_timestamp r l) = S (length l).
Proof.
  induction l as [|r' l IH]; simpl; [reflexivity|].
  destruct (String.leb _ _); simpl; congruence.
Qed.

Lemma order_by_timestamp_length (l : list row) :
  length (order_by_timestamp l) = length l.
Proof.
  induction l as [|r l IH]; simpl; [reflexivity|].
  rewrite insert_by_timestamp_length. congruence.
Qed.

Lemma firstn_In {A : Type} (n : nat) (l : list A) (x : A) :
  In x (firstn n l) -> In x l.
Proof.
  revert l; induction n as [|n IH]; intros [|y l]; simpl; try tauto.
  intros [->|H]; [left; reflexivity | right; apply IH, H].
Qed.

Lemma StronglySorted_firstn {A : Type} (R : A -> A -> Prop) (n : nat) (l : list A) :
  StronglySorted R l -> StronglySorted R (firstn n l).
Proof.
  intros Hs; revert n; induction Hs as [|x l Hs IH Hall]; intros [|n]; simpl;
    try constructor.
  - apply IH.
  - apply List.Forall_forall. intros y Hy.
    rewrite List.Forall_forall in Hall. apply Hall. eapply firstn_In, Hy.
Qed.

Lemma sql_limit_In (limit : Z) (x : row) (l : list row) :
  In x (sql_limit limit l) -> In x l.
Proof.
  unfold sql_limit. destruct (limit <? 0); [tauto|]. apply firstn_In.
Qed.

Lemma sql_limit_sorted (limit : Z) (l : list row) :
  StronglySorted older l -> StronglySorted older (sql_limit limit l).
Proof.
  unfold sql_limit. destruct (limit <? 0); [tauto|]. apply StronglySorted_firstn.
Qed.

Lemma sql_limit_length (limit : Z) (l : list row) :
  0 <= limit -> Z.of_nat (length (sql_limit limit l)) <= limit.
Proof.
  intros Hl. unfold sql_limit.
  destruct (limit <? 0) eqn:Hneg; [lia|].
  rewrite length_firstn. lia.
Qed.

Lemma select_unsynced_In (limit : Z) (t : table) (r : row) :
  In r (select_unsynced limit t) -> In r t /\ synced_to_cloud r = false.
Proof.
  unfold select_unsynced. intros H.
  apply sql_limit_In, order_by_timestamp_In, filter_In in H as [Hin Hns].
  split; [exact Hin|]. destruct (synced_to_cloud r); [discriminate|reflexivity].
Qed.

Lemma select_unsynced_sorted (limit : Z) (t : table) :
  StronglySorted older (select_unsynced limit t).
Proof. apply sql_limit_sorted, order_by_timestamp_sorted. Qed.

(** Complete when the limit allows: every unsynced row is selected. *)
Lemma select_unsynced_all (limit : Z) (t : table) (r : row) :
  Z.of_nat (unsynced_count t) <= limit ->
  In r t -> synced_to_cloud r = false -> In r (select_unsynced limit t).
Proof.
  unfold select_unsynced, sql_limit, unsynced_count. intros Hl Hin Hns.
  assert (Hr : In r (order_by_timestamp
                       (List.filter (fun r => negb (synced_to_cloud r)) t))).
  { apply order_by_timestamp_In, filter_In. rewrite Hns. auto. }
  destruct (limit <? 0); [exact Hr|].
  rewrite firstn_all2; [exact Hr|].
  rewrite order_by_timestamp_length. lia.
Qed.

Lemma insert_by_timestamp_perm (r : row) (l : list row) :
  Permutation (r :: l) (insert_by_timestamp r l).
Proof.
  induction l as [|r' l IH]; simpl; [reflexivity|].
  destruct (String.leb (timestamp r) (timestamp r')); [reflexivity|].
  rewrite perm_swap. apply perm_skip, IH.
Qed.

Lemma order_by_timestamp_perm (l : list row) :
  Permutation l (order_by_timestamp l).
Proof.
  induction l as [|r l IH]; simpl; [reflexivity|].
  rewrite <- insert_by_timestamp_perm. apply perm_skip, IH.
Qed.

Lemma NoDup_map_filter {A B : Type} (f : A -> B) (p : A -> bool) (l : list A) :
  List.NoDup (map f l) -> List.NoDup (map f (List.filter p l)).
Proof.
  induction l as [|a l IH]; simpl; intros H; [constructor|].
  inversion H as [|? ? Hnotin Hnd]; subst.
  destruct (p a); simpl; [constructor|]; auto.
  intros Hin. apply Hnotin.
  apply in_map_iff in Hin as (x & Hx & Hin). apply in_map_iff.
  exists x. split; [exact Hx|]. apply filter_In in Hin. tauto.
Qed.

Lemma NoDup_map_firstn {A B : Type} (f : A -> B) (n : nat) (l : list A) :
  List.NoDup (map f l) -> List.NoDup (map f (firstn n l)).
Proof.
  revert l; induction n as [|n IH]; intros [|a l] H; simpl; try constructor.
  - inversion H as [|? ? Hnotin Hnd]; subst.
    intros Hin. apply Hnotin.
    apply in_map_iff in Hin as (x & Hx & Hin). apply in_map_iff.
    exists x. split; [exact Hx|]. eapply firstn_In, Hin.
  - apply IH. inversion H; assumption.
Qed.

(** The primary key stays one in the selection. *)
Lemma select_unsynced_NoDup (limit : Z) (t : table) :
  List.NoDup (map id t) -> List.NoDup (map id (select_unsynced limit t)).
Proof.
  intros H. unfold select_unsynced, sql_limit.
  assert (Hs : List.NoDup (map id (order_by_timestamp
                 (List.filter (fun r => negb (synced_to_cloud r)) t)))).
  { eapply Permutation.Permutation_NoDup.
    - apply Permutation_map, order_by_timestamp_perm.
    - apply NoDup_map_filter, H. }
  destruct (limit <? 0); [exact Hs | apply NoDup_map_firstn, Hs].
Qed.

Lemma set_synced_twice (now1 now2 : string) (r : row) :
  set_synced now2 (set_synced now1 r) = set_synced now2 r.
Proof. reflexivity. Qed.

Lemma Store_update_synced_twice (now1 now2 : string) (sid : Z) (t : table) :
  update_synced now2 sid (update_synced now1 sid t) = update_synced now2 sid t.
Proof.
  unfold update_synced. rewrite map_map. apply map_ext. intros r.
  destruct (id r =? sid) eqn:Hid; simpl; rewrite Hid; reflexivity.
Qed.

End StoreFacts.

(* ===================================================================== *)
(** * Running computations *)
(* ===================================================================== *)

Section RunFacts.

Import Sync.

Context {A B : Type}.

Lemma result_bind (m : M A) (k : A -> M B) (w : world) :
  result ((m ≫= k) w) = result (k (result (m w)) (final (m w))).
Proof.
  unfold mbind, M_bind, bind, result, final.
  destruct (m w) as [[a w1] t1]; simpl.
  destruct (k a w1) as [[b w2] t2]; reflexivity.
Qed.

Lemma final_bind (m : M A) (k : A -> M B) (w : world) :
  final ((m ≫= k) w) = final (k (result (m w)) (final (m w))).
Proof.
  unfold mbind, M_bind, bind, result, final.
  destruct (m w) as [[a w1] t1]; simpl.
  destruct (k a w1) as [[b w2] t2]; reflexivity.
Qed.

Lemma events_bind (m : M A) (k : A -> M B) (w : world) :
  events ((m ≫= k) w)
  = events (m w) ++ events (k (result (m w)) (final (m w))).
Proof.
  unfold mbind, M_bind, bind, result, final, events.
  destruct (m w) as [[a w1] t1]; simpl.
  destruct (k a w1) as [[b w2] t2]; reflexivity.
Qed.

Lemma run_eta (r : A * world * list event) :
  r = (result r, final r, events r).
Proof. destruct r as [[a w] t]; reflexivity. Qed.

End RunFacts.

Create Rewrite HintDb run.

#[local] Hint Rewrite @result_bind @final_bind @events_bind : run.

(** Unfolds the primitive computations and pushes the three projections
    through sequencing. *)
Ltac run :=
  repeat (autorewrite with run;
          cbn [Sync.result Sync.final Sync.events Sync.ret Sync.gets Sync.modify
               Sync.emit Sync.log Sync.sleep mret Sync.M_ret fst snd
               Sync.db Sync.config Sync.config_file Sync.clock
               Sync.with_db Sync.with_config Sync.with_config_file
               Sync.with_clock app]).

Section SignerFacts.

Import Py Sync.

Lemma digest_length (msg : list Z) : length (MD5.digest msg) = 16%nat.
Proof.
  unfold MD5.digest, MD5.le_bytes.
  rewrite !length_app, !length_map, !length_seq. reflexivity.
Qed.

Lemma hex_byte_app_length (b : Z) (s : string) :
  String.length (MD5.hex_byte b +:+ s) = S (S (String.length s)).
Proof. reflexivity. Qed.

Lemma hex_bytes_length (d : list Z) :
  String.length (fold_right (fun b acc => MD5.hex_byte b +:+ acc) EmptyString d)
  = (2 * length d)%nat.
Proof.
  induction d as [|b d IH]; [reflexivity|].
  cbn [fold_right length]. rewrite hex_byte_app_length, IH. lia.
Qed.

Lemma hexdigest_length (msg : list Z) : String.length (MD5.hexdigest msg) = 32%nat.
Proof.
  unfold MD5.hexdigest. rewrite hex_bytes_length, digest_length. reflexivity.
Qed.

Lemma hexdigest_nonempty (msg : list Z) : String.eqb (MD5.hexdigest msg) "" = false.
Proof.
  generalize (hexdigest_length msg).
  destruct (MD5.hexdigest msg); simpl; [discriminate|reflexivity].
Qed.

Lemma truthy_get_default (config : gmap string scalar) (k : string) :
  truthy_scalar (get_default config k (SStr "")) = truthy_scalar (get config k).
Proof.
  unfold get_default, get. destruct (config !! k); reflexivity.
Qed.

Lemma no_signature_generate (config : gmap string scalar) (data : jval) (ts : Z) :
  no_signature (generate_signature config data ts)
  = negb (truthy_scalar (get config "api_secret")).
Proof.
  unfold generate_signature. rewrite truthy_get_default.
  destruct (truthy_scalar (get config "api_secret")); cbn [negb no_signature];
    [apply hexdigest_nonempty | reflexivity].
Qed.

End SignerFacts.

(* ===================================================================== *)
(** * One delivery: the retry loop and [sync_to_cloud] *)
(* ===================================================================== *)

Section DeliveryFacts.

Import Py Sync Reading.

Variable C : Settings.
Variable E : env.

Lemma same_store_refl (w : world) : same_store w w.
Proof. repeat split. Qed.

Lemma same_store_trans (w1 w2 w3 : world) :
  same_store w1 w2 -> same_store w2 w3 -> same_store w1 w3.
Proof. unfold same_store. intuition congruence. Qed.

Lemma same_store_clock (t : Z) (w : world) : same_store w (with_clock t w).
Proof. repeat split. Qed.

(** The retry loop, for the [remaining] last attempts of [max_retries]. *)
Lemma post_attempts_spec (sid : Z) (body : api_request) (remaining : nat) :
  forall (attempt : Z) (w : world),
    attempt + Z.of_nat remaining = max_retries C ->
    let run := post_attempts C E sid body remaining attempt w in
    let outs := outcomes_from E sid remaining attempt in
    result run = acknowledged outs
    /\ io_events (events run)
       = retry_trace (api_base_url C +:+ "/data/submit") body (retry_delay C) outs
    /\ same_store w (final run).
Proof.
  induction remaining as [|n IH]; intros attempt w Hleft; cbn zeta.
  - repeat split.
  - assert (Hnext : attempt + 1 + Z.of_nat n = max_retries C) by lia.
    assert (Hwait : (attempt <? max_retries C - 1)
                    = match n with O => false | S _ => true end).
    { destruct n; [apply Z.ltb_ge | apply Z.ltb_lt]; lia. }
    cbn [post_attempts outcomes_from]. unfold session_post. run.
    destruct (post E sid attempt) as [[|]|[status [[|]|v]]];
      cbn [classify status_code json];
      try destruct (status =? 200);
      try rewrite Hwait;
      try (destruct v as [| | | | |kvs]; try destruct (truthy (dict_get kvs "success")));
      try (run; repeat split; fail);
      try (destruct n as [|n']; [run; repeat split; fail|]).
    all: run; match goal with
         | |- context [post_attempts _ _ _ _ ?m _ ?w'] =>
             pose proof (IH (attempt + 1) w' Hnext) as (Hr & Hio & Hst);
             run; cbn [acknowledged retry_trace io_events List.filter is_io];
             fold (io_events (events (post_attempts C E sid body m (attempt + 1) w')));
             rewrite Hr, Hio; cbn [outcomes_from];
             split; [reflexivity|]; split; [reflexivity|];
             first [exact Hst
                   | eapply same_store_trans; [apply same_store_clock | exact Hst]]
         end.
Qed.

(** The whole loop, as [sync_to_cloud] starts it. *)
Lemma post_loop_spec (sid : Z) (body : api_request) (w : world) :
  let run := post_attempts C E sid body (Z.to_nat (max_retries C)) 0 w in
  result run = acknowledged (outcomes C E sid)
  /\ io_events (events run)
     = retry_trace (api_base_url C +:+ "/data/submit") body (retry_delay C)
         (outcomes C E sid)
  /\ same_store w (final run).
Proof.
  unfold outcomes.
  destruct (Z_lt_le_dec (max_retries C) 0) as [Hneg|Hpos].
  - replace (Z.to_nat (max_retries C)) with 0%nat by lia. repeat split.
  - apply post_attempts_spec. lia.
Qed.

(** The request [sync_to_cloud] sends for a payload, in a given state. *)
Lemma sync_to_cloud_run (s : submission) (w : world) :
  let run := sync_to_cloud C E s w in
  result run = delivers C E (config w) s /\ same_store w (final run).
Proof.
  cbn zeta. unfold sync_to_cloud, delivers. run.
  destruct (truthy_scalar (get (config w) "api_key")); cbn [negb orb andb];
    [|run; repeat split].
  destruct (truthy_scalar (get (config w) "api_secret")) eqn:Hsecret;
    cbn [negb orb andb]; [|run; repeat split].
  destruct (build_sync_data E s) as [data|]; [|run; repeat split].
  run. rewrite no_signature_generate, Hsecret. cbn [negb].
  pose proof (post_loop_spec (sub_id s)
    {| req_api_key := get (config w) "api_key";
       req_timestamp := Clock.time_time (clock w);
       req_signature :=
         default "" (generate_signature (config w) data (Clock.time_time (clock w)));
       req_data := data |} w) as (Hr & _ & Hst).
  split; [exact Hr | exact Hst].
Qed.

Lemma sync_to_cloud_result (s : submission) (w : world) :
  result (sync_to_cloud C E s w) = delivers C E (config w) s.
Proof. apply sync_to_cloud_run. Qed.

Lemma sync_to_cloud_frame (s : submission) (w : world) :
  same_store w (final (sync_to_cloud C E s w)).
Proof. apply sync_to_cloud_run. Qed.

End DeliveryFacts.

(* ===================================================================== *)
(** * The batch loop *)
(* ===================================================================== *)

(** Finds an event in a disjunction of places where it can be. *)
Ltac find_event :=
  match goal with
  | |- _ \/ _ => first [left; find_event | right; find_event]
  | |- _ = _ => reflexivity
  | |- In _ _ => solve [eauto]
  end.

Section BatchFacts.

Import Py Sync Reading.

Variable C : Settings.
Variable E : env.

Lemma touched_none (t : Store.table) : Forall2 (touched (fun _ => false)) t t.
Proof. induction t; constructor; [reflexivity | assumption]. Qed.

Lemma touched_update (now : string) (sid : Z) (t : Store.table) :
  Forall2 (touched (fun i => sid =? i)) t (Store.update_synced now sid t).
Proof.
  induction t as [|r t IH]; simpl; constructor; [|exact IH].
  unfold touched. rewrite (Z.eqb_sym sid).
  destruct (Store.id r =? sid); [exists now|]; reflexivity.
Qed.

Lemma touched_ext (a b : Z -> bool) (t t' : Store.table) :
  (forall i, a i = b i) ->
  Forall2 (touched a) t t' -> Forall2 (touched b) t t'.
Proof.
  intros Hab. induction 1 as [|r r' t t' Hr _ IH]; constructor; [|exact IH].
  unfold touched in *. rewrite <- Hab. exact Hr.
Qed.

Lemma touched_then (a b : Z -> bool) (t1 t2 t3 : Store.table) :
  Forall2 (touched a) t1 t2 -> Forall2 (touched b) t2 t3 ->
  Forall2 (touched (fun i => a i || b i)) t1 t3.
Proof.
  intros H12; revert t3.
  induction H12 as [|r1 r2 t1 t2 Hr _ IH]; intros t3 H23;
    inversion H23 as [|? r3 ? t3' Hr' Ht]; subst; constructor; [|apply IH, Ht].
  unfold touched in *.
  destruct (a (Store.id r1)); cbn [orb].
  - destruct Hr as [n1 ->]. cbn [Store.set_synced Store.id] in Hr'.
    destruct (b (Store.id r1)).
    + destruct Hr' as [n2 ->]. exists n2. reflexivity.
    + subst r3. exists n1. reflexivity.
  - subst r2. exact Hr'.
Qed.

(** Rows whose id is not marked are where they were, as they were. *)
Lemma touched_filter_other (ids : Z -> bool) (sid : Z) (t t' : Store.table) :
  ids sid = false ->
  Forall2 (touched ids) t t' ->
  List.filter (fun r => Store.id r =? sid) t'
  = List.filter (fun r => Store.id r =? sid) t.
Proof.
  intros Hsid. induction 1 as [|r r' t t' Hr _ IH]; [reflexivity|].
  unfold touched in Hr. cbn [List.filter].
  destruct (Store.id r =? sid) eqn:Hid.
  - apply Z.eqb_eq in Hid. rewrite Hid, Hsid in Hr. subst r'.
    rewrite Hid, Z.eqb_refl, IH. reflexivity.
  - assert (Hid' : Store.id r' = Store.id r).
    { destruct (ids (Store.id r)); [destruct Hr as [n ->]|subst r']; reflexivity. }
    rewrite Hid', Hid. exact IH.
Qed.

(** Rows whose id is marked are synced. *)
Lemma touched_synced (ids : Z -> bool) (t t' : Store.table) (r' : Store.row) :
  Forall2 (touched ids) t t' ->
  In r' t' -> ids (Store.id r') = true -> Store.synced_to_cloud r' = true.
Proof.
  induction 1 as [|r r0 t t' Hr _ IH]; intros Hin Hids; [destruct Hin|].
  destruct Hin as [->|Hin]; [|apply IH; assumption].
  unfold touched in Hr.
  destruct (ids (Store.id r)) eqn:Hr0.
  - destruct Hr as [n ->]. reflexivity.
  - subst r'. congruence.
Qed.

(** No row is added, dropped or moved, and only the two sync columns change. *)
Lemma touched_forget (ids : Z -> bool) (t t' : Store.table) :
  Forall2 (touched ids) t t' ->
  Forall2 (fun r r' => Store.id r' = Store.id r
                       /\ (Store.synced_to_cloud r = true ->
                           Store.synced_to_cloud r' = true)) t t'.
Proof.
  induction 1 as [|r r' t t' Hr _ IH]; constructor; [|exact IH].
  unfold touched in Hr.
  destruct (ids (Store.id r)); [destruct Hr as [n ->]|subst r']; auto.
Qed.

(** [mark_as_synced], run in a state. *)
Lemma mark_as_synced_run (sid : Z) (w : world) :
  mark_as_synced E sid w
  = if update_ok E sid then
      (tt, with_db (Store.update_synced (Clock.current_timestamp (clock w))
                      sid (db w)) w, [Update sid])
    else (tt, w, [Update sid; Log ERROR MsgMarkFailed]).
Proof.
  unfold mark_as_synced. destruct (update_ok E sid); reflexivity.
Qed.

(** What one item of the batch does: the delivery, then the mark or the
    error line. *)
Lemma item_run (s : submission) (count : Z) (w : world) :
  let r1 := sync_to_cloud C E s w in
  let w1 := final r1 in
  (ok ← sync_to_cloud C E s;
   if ok : bool then mark_as_synced E (sub_id s);; mret (count + 1)
   else log ERROR (MsgItemFailed (sub_id s));; mret count) w
  = if delivers C E (config w) s then
      if update_ok E (sub_id s) then
        (count + 1,
         with_db (Store.update_synced (Clock.current_timestamp (clock w1))
                    (sub_id s) (db w1)) w1,
         events r1 ++ [Update (sub_id s)])
      else
        (count + 1, w1, events r1 ++ [Update (sub_id s); Log ERROR MsgMarkFailed])
    else (count, w1, events r1 ++ [Log ERROR (MsgItemFailed (sub_id s))]).
Proof.
  cbn zeta. rewrite <- sync_to_cloud_result.
  unfold mbind, M_bind, bind at 1.
  destruct (sync_to_cloud C E s w) as [[ok w1] t1]; cbn [result final events fst snd].
  destruct ok.
  - unfold bind. rewrite mark_as_synced_run.
    destruct (update_ok E (sub_id s)); reflexivity.
  - reflexivity.
Qed.

(** The loop, unrolled once. *)
Lemma sync_items_cons (s : submission) (rest : list submission) (count : Z)
    (w : world) :
  let r1 :=
    (ok ← sync_to_cloud C E s;
     if ok : bool then mark_as_synced E (sub_id s);; mret (count + 1)
     else log ERROR (MsgItemFailed (sub_id s));; mret count) w in
  let r2 :=
    sync_items C E rest (result r1)
      (with_clock (clock (final r1) + 1 * Clock.second) (final r1)) in
  sync_items C E (s :: rest) count w
  = (result r2, final r2, events r1 ++ Sleep 1 :: events r2).
Proof.
  cbn zeta. cbn [sync_items].
  unfold mbind, M_bind, bind, sleep.
  destruct (sync_to_cloud C E s w) as [[ok w1] t1].
  destruct ok.
  - destruct (mark_as_synced E (sub_id s) w1) as [[u w2] t2].
    cbn [mret M_ret ret result final events fst snd].
    destruct (sync_items C E rest (count + 1) _) as [[c' w3] t3].
    cbn [result final events fst snd]. f_equal.
    cbn [app]; rewrite <- ?app_assoc, ?app_nil_r; cbn [app]; reflexivity.
  - cbn [log emit mret M_ret ret result final events fst snd].
    destruct (sync_items C E rest count _) as [[c' w3] t3].
    cbn [result final events fst snd]. f_equal.
    cbn [app]; rewrite <- ?app_assoc, ?app_nil_r; cbn [app]; reflexivity.
Qed.

Lemma marked_cons (config : gmap string scalar) (s : submission)
    (rest : list submission) (i : Z) :
  marked C E config (s :: rest) i
  = ((sub_id s =? i) && delivers C E config s && update_ok E (sub_id s))
    || marked C E config rest i.
Proof. reflexivity. Qed.

(** The batch loop: the count it returns, what it leaves of the state, and
    the lines it logs. *)
Lemma sync_items_run (subs : list submission) :
  forall (count : Z) (w : world),
    let run := sync_items C E subs count w in
    result run
    = count + Z.of_nat (length (List.filter (delivers C E (config w)) subs))
    /\ config (final run) = config w
    /\ config_file (final run) = config_file w
    /\ Forall2 (touched (marked C E (config w) subs)) (db w) (db (final run))
    /\ (forall s, In s subs -> delivers C E (config w) s = false ->
          In (Log ERROR (MsgItemFailed (sub_id s))) (events run))
    /\ (forall s, In s subs -> delivers C E (config w) s = true ->
          In (Update (sub_id s)) (events run))
    /\ (forall s, In s subs -> delivers C E (config w) s = true ->
          update_ok E (sub_id s) = false ->
          In (Log ERROR MsgMarkFailed) (events run)).
Proof.
  induction subs as [|s rest IH]; intros count w; cbn zeta.
  - cbn. repeat split; try (intros ? []); try lia. apply touched_none.
  - rewrite sync_items_cons. cbn zeta. rewrite item_run. cbn zeta.
    destruct (sync_to_cloud_frame C E s w) as (Hdb & Hcfg & Hfile).
    set (w1 := final (sync_to_cloud C E s w)) in *.
    set (t1 := events (sync_to_cloud C E s w)).
    cbn [List.filter length].
    destruct (delivers C E (config w) s) eqn:Hd;
      [destruct (update_ok E (sub_id s)) eqn:Hu|];
      cbn [result final events fst snd];
      match goal with
      | |- context [sync_items _ _ _ ?c ?w2] =>
          destruct (IH c w2) as (Hr & Hc & Hf & Ht & Hfail & Hupd & Hmark);
          cbn [config config_file db clock with_clock with_db] in *;
          rewrite Hcfg in *
      end.
    all: split; [rewrite Hr; cbn [length]; lia|].
    all: split; [exact Hc|].
    all: split; [congruence|].
    all: split;
      [|split; [|split]; intros s' [<-|Hin] Hs'; intros; try congruence;
        rewrite ?in_app_iff; cbn [In]; find_event].
    + (* delivered and marked *)
      eapply touched_ext; [|eapply touched_then; [|exact Ht]].
      2: { rewrite <- Hdb. apply touched_update. }
      intros i. rewrite marked_cons, Hd, Hu, !andb_true_r. reflexivity.
    + (* delivered, the update failed *)
      eapply touched_ext; [|rewrite <- Hdb; exact Ht].
      intros i. rewrite marked_cons, Hd, Hu, andb_false_r. reflexivity.
    + (* not delivered *)
      eapply touched_ext; [|rewrite <- Hdb; exact Ht].
      intros i. rewrite marked_cons, Hd, andb_false_r. reflexivity.
Qed.

End BatchFacts.

(* ===================================================================== *)
(** * The cycle *)
(* ===================================================================== *)

Section CycleFacts.

Import Py Sync Reading.

Variable C : Settings.
Variable E : env.

Lemma check_network_connection_run (w : world) :
  check_network_connection E w = (online E, w, [Ping]).
Proof.
  unfold check_network_connection, online. destruct (ping E); reflexivity.
Qed.

Lemma get_unsynced_submissions_frame (w : world) :
  final (get_unsynced_submissions C E w) = w.
Proof.
  unfold get_unsynced_submissions. run.
  destruct (select_ok E); run; [|reflexivity].
  destruct (collect _ _); run; reflexivity.
Qed.

Lemma get_unsynced_submissions_events (w : world) :
  Forall (fun e => is_store_write e = false /\ is_config_write e = false
                   /\ is_post e = false)
         (events (get_unsynced_submissions C E w)).
Proof.
  unfold get_unsynced_submissions. run.
  destruct (select_ok E); run; [|repeat constructor].
  destruct (collect _ _); run; repeat constructor.
Qed.

Lemma save_config_run (content : gmap string scalar) (w : world) :
  save_config E content w
  = match save_result E with
    | Saved => (tt, with_config_file (FileJson content) w, [SaveConfig content])
    | SaveRaisedEarly =>
        (tt, w, [SaveConfig content; Log ERROR MsgSaveConfigFailed])
    | SaveRaisedLate =>
        (tt, with_config_file FileCorrupt w,
         [SaveConfig content; Log ERROR MsgSaveConfigFailed])
    end.
Proof. unfold save_config. destruct (save_result E); reflexivity. Qed.

(** [sync_all_pending], branch by branch. *)
Lemma sync_all_pending_run (w : world) :
  sync_all_pending C E w
  = if negb (online E) then (false, w, [Ping; Log WARNING MsgNoNetwork])
    else if negb (sync_enabled w) then (false, w, [Ping; Log INFO MsgSyncDisabled])
    else
      let selection := get_unsynced_submissions C E w in
      match batch C E w with
      | [] =>
          (true, w,
           [Ping; Log INFO MsgStart] ++ events selection
           ++ [Log INFO MsgNothingPending])
      | _ :: _ =>
          let items := sync_items C E (batch C E w) 0 w in
          let w' := final items in
          let config' :=
            <["last_sync_time" :=
                SStr (Clock.isoformat_now (utc_offset E) (clock w'))]> (config w') in
          let save := save_config E config' (with_config config' w') in
          (result items =? total_count C E w, final save,
           [Ping; Log INFO MsgStart] ++ events selection ++ events items
           ++ [Log INFO (MsgDone (result items) (total_count C E w))]
           ++ events save)
      end.
Proof.
  unfold sync_all_pending, sync_enabled, total_count, batch.
  unfold mbind at 1, M_bind at 1, bind at 1.
  rewrite check_network_connection_run.
  destruct (online E); cbn [negb]; [|reflexivity].
  unfold mbind at 1, M_bind at 1, bind at 1. cbn [gets].
  destruct (truthy_scalar (get (config w) "sync_enabled")); cbn [negb];
    [|reflexivity].
  pose proof (get_unsynced_submissions_frame w) as Hframe.
  unfold mbind, M_bind, bind. cbn [log emit].
  destruct (get_unsynced_submissions C E w) as [[subs w0] t0].
  cbn [final result events fst snd] in *. subst w0.
  destruct subs as [|s subs]; [reflexivity|].
  destruct (sync_items C E (s :: subs) 0 w) as [[n w1] t1].
  cbn [gets modify mret M_ret ret final result events fst snd config clock
       with_config].
  destruct (save_config E _ _) as [[u w2] t2].
  cbn [final result events fst snd]. f_equal.
  cbn [app]. rewrite ?app_nil_r, <- ?app_assoc. cbn [app]. reflexivity.
Qed.

(** A cycle that gets to a non-empty batch. *)
Lemma cycle_with_batch (w : world) :
  online E = true -> sync_enabled w = true -> batch C E w <> [] ->
  let run := sync_all_pending C E w in
  let items := sync_items C E (batch C E w) 0 w in
  result run = (success_count C E w =? total_count C E w)
  /\ db (final run) = db (final items)
  /\ clock (final run) = clock (final items)
  /\ config (final run)
     = <["last_sync_time" :=
           SStr (Clock.isoformat_now (utc_offset E) (clock (final run)))]> (config w)
  /\ config_file (final run)
     = match save_result E with
       | Saved => FileJson (config (final run))
       | SaveRaisedEarly => config_file w
       | SaveRaisedLate => FileCorrupt
       end
  /\ events run
     = [Ping; Log INFO MsgStart] ++ events (get_unsynced_submissions C E w)
       ++ events items
       ++ Log INFO (MsgDone (success_count C E w) (total_count C E w))
       :: SaveConfig (config (final run))
       :: match save_result E with
          | Saved => []
          | _ => [Log ERROR MsgSaveConfigFailed]
          end.
Proof.
  intros Hon Hen Hne. cbn zeta.
  rewrite sync_all_pending_run, Hon, Hen. cbn [negb]. cbn zeta.
  destruct (batch C E w) as [|s subs] eqn:Hbatch; [congruence|].
  destruct (sync_items_run C E (s :: subs) 0 w) as (Hr & Hc & Hf & _).
  rewrite save_config_run.
  unfold success_count. rewrite Hbatch, Hr, Hc. cbn [Z.add].
  destruct (save_result E);
    cbn [result final events fst snd db clock config config_file
         with_config with_config_file];
    repeat split; try assumption.
Qed.

(** A cycle that finds nothing to send. *)
Lemma cycle_without_batch (w : world) :
  online E = true -> sync_enabled w = true -> batch C E w = [] ->
  let run := sync_all_pending C E w in
  result run = true
  /\ final run = w
  /\ events run
     = [Ping; Log INFO MsgStart] ++ events (get_unsynced_submissions C E w)
       ++ [Log INFO MsgNothingPending].
Proof.
  intros Hon Hen Hempty. cbn zeta.
  rewrite sync_all_pending_run, Hon, Hen, Hempty. repeat split.
Qed.

(** A cycle that stops at one of the two checks. *)
Lemma cycle_skipped (w : world) :
  online E = false \/ sync_enabled w = false ->
  let run := sync_all_pending C E w in
  result run = false
  /\ final run = w
  /\ (events run = [Ping; Log WARNING MsgNoNetwork]
      \/ events run = [Ping; Log INFO MsgSyncDisabled]).
Proof.
  intros Hskip. cbn zeta. rewrite sync_all_pending_run.
  destruct (online E); cbn [negb]; [|repeat split; left; reflexivity].
  destruct Hskip as [Hoff|Hdis]; [discriminate|].
  rewrite Hdis. repeat split. right. reflexivity.
Qed.

End CycleFacts.

(* ===================================================================== *)
(** * The submission store *)
(* ===================================================================== *)

Section StoreClaims.

Import Py Sync Reading Scenario.

(** C1, as stated, fails: marking an id that is already synced is not a
    no-op. The second [mark_as_synced], five seconds after the first, leaves
    another [sync_timestamp] than the first did. *)
Lemma mark_as_synced_again_overwrites_sync_timestamp :
  let w := world_with one_row ready in
  let once := mark_as_synced env_delivering 1 w in
  let later := with_clock (clock (final once) + 5 * Clock.second) (final once) in
  let twice := mark_as_synced env_delivering 1 later in
  map Store.synced_to_cloud (db (final once)) = [true]
  /\ map Store.sync_timestamp (db (final once)) = [Some "2023-11-14 22:13:20"]
  /\ map Store.sync_timestamp (db (final twice)) = [Some "2023-11-14 22:13:25"]
  /\ db (final twice) <> db (final once).
Proof.
  vm_compute. repeat split. discriminate.
Qed.

(** C1, amended: marking an id a second time is not an error and changes
    nothing but [sync_timestamp], which every application sets to the
    current time. The table after two applications is the table after one
    application made at the time of the second; the sync flags, and every
    column but [sync_timestamp], are as after the first; the two tables are
    equal when both applications read the same [CURRENT_TIMESTAMP]. When the
    UPDATE fails, both applications leave the table as it was. *)
Theorem mark_as_synced_twice (E : env) (sid : Z) (w : world) (clock2 : Z) :
  let once := mark_as_synced E sid w in
  let twice := mark_as_synced E sid (with_clock clock2 (final once)) in
  db (final twice)
  = (if update_ok E sid
     then Store.update_synced (Clock.current_timestamp clock2) sid (db w)
     else db w)
  /\ map Store.synced_to_cloud (db (final twice))
     = map Store.synced_to_cloud (db (final once))
  /\ map forget_sync_timestamp (db (final twice))
     = map forget_sync_timestamp (db (final once))
  /\ (Clock.current_timestamp clock2 = Clock.current_timestamp (clock w) ->
      db (final twice) = db (final once))
  /\ events twice = events once.
Proof.
  cbn zeta. rewrite !mark_as_synced_run.
  destruct (update_ok E sid) eqn:Hok; cbn [final events fst snd with_db with_clock db clock].
  - rewrite Store_update_synced_twice.
    split; [reflexivity|].
    split.
    { unfold Store.update_synced. rewrite !map_map. apply map_ext. intros r.
      destruct (Store.id r =? sid); reflexivity. }
    split.
    { unfold Store.update_synced. rewrite !map_map. apply map_ext. intros r.
      destruct (Store.id r =? sid); reflexivity. }
    split; [intros ->; reflexivity | reflexivity].
  - repeat split.
Qed.

Lemma collect_Forall2 {A B : Type} (f : A -> option B) (l : list A) (l' : list B) :
  collect f l = Some l' -> Forall2 (fun a b => f a = Some b) l l'.
Proof.
  revert l'; induction l as [|a l IH]; intros l' H; simpl in H.
  - injection H as <-. constructor.
  - destruct (f a) as [b|] eqn:Hb; [|discriminate].
    destruct (collect f l) as [bs|]; [|discriminate].
    injection H as <-. constructor; [exact Hb | apply IH; reflexivity].
Qed.

Lemma to_submission_fields (r : Store.row) (s : submission) :
  to_submission r = Some s ->
  sub_id s = Store.id r /\ sub_timestamp s = Store.timestamp r.
Proof.
  unfold to_submission. intros H.
  destruct (load_col (Store.data r) _); [|discriminate].
  destruct (load_col (Store.files r) _); [|discriminate].
  injection H as <-. split; reflexivity.
Qed.

(** The batch is empty, or it is the selected rows, one submission per row. *)
Lemma batch_cases (C : Settings) (E : env) (w : world) :
  batch C E w = []
  \/ Forall2 (fun r s => to_submission r = Some s)
             (Store.select_unsynced (batch_size C) (db w)) (batch C E w).
Proof.
  unfold batch, get_unsynced_submissions. run.
  destruct (select_ok E); run; [|left; reflexivity].
  destruct (collect to_submission _) as [subs|] eqn:Hc; run;
    [right; apply collect_Forall2, Hc | left; reflexivity].
Qed.

(** SQLite reads a negative limit as no limit. *)
Example negative_limit_is_no_limit :
  length (Store.select_unsynced (-1) ten_rows) = 10%nat
  /\ length (Store.select_unsynced 3 ten_rows) = 3%nat
  /\ Store.select_unsynced 0 ten_rows = [].
Proof. repeat split. Qed.

(** C7: the batch [get_unsynced_submissions] returns has at most [batch_size]
    submissions, each of them made of a row of the table whose
    [synced_to_cloud] is false, and their timestamps ascend, oldest first.
    The limit is taken non-negative: SQLite reads a negative one as no limit. *)
Theorem get_unsynced_submissions_bounded_unsynced_oldest_first
    (C : Settings) (E : env) (w : world) :
  0 <= batch_size C ->
  let selected := result (get_unsynced_submissions C E w) in
  Z.of_nat (length selected) <= batch_size C
  /\ Forall (fun s => exists r, In r (db w)
                               /\ Store.synced_to_cloud r = false
                               /\ to_submission r = Some s) selected
  /\ StronglySorted
       (fun s1 s2 => String.leb (sub_timestamp s1) (sub_timestamp s2) = true)
       selected
  /\ final (get_unsynced_submissions C E w) = w.
Proof.
  intros Hlimit. cbn zeta. fold (batch C E w).
  split; [|split; [|split]]; [| | |apply get_unsynced_submissions_frame].
  - destruct (batch_cases C E w) as [->|H]; [simpl; lia|].
    apply Forall2_length in H. rewrite <- H.
    apply sql_limit_length, Hlimit.
  - destruct (batch_cases C E w) as [->|H]; [constructor|].
    pose proof (fun r => select_unsynced_In (batch_size C) (db w) r) as Hsel.
    induction H as [|r s rows subs Hrs _ IH]; constructor.
    + exists r. destruct (Hsel r (or_introl eq_refl)). auto.
    + apply IH. intros r' Hr'. apply Hsel. right. exact Hr'.
  - destruct (batch_cases C E w) as [->|H]; [constructor|].
    pose proof (select_unsynced_sorted (batch_size C) (db w)) as Hsorted.
    induction H as [|r s rows subs Hrs Hrest IH]; [constructor|].
    inversion Hsorted as [|? ? Hs Hall]; subst.
    constructor; [apply IH, Hs|].
    clear IH Hs Hsorted.
    apply to_submission_fields in Hrs as [_ Hts].
    induction Hrest as [|r' s' rows subs Hrs' _ IH]; constructor.
    + inversion Hall; subst. apply to_submission_fields in Hrs' as [_ Hts'].
      rewrite Hts, Hts'. assumption.
    + apply IH. inversion Hall; assumption.
Qed.

(** A run of C7: ten unsynced rows and a limit of ten. *)
Lemma get_unsynced_submissions_bounded_unsynced_oldest_first_witness :
  0 <= batch_size CONFIG
  /\ let selected :=
       result (get_unsynced_submissions CONFIG env_delivering
                 (world_with ten_rows ready)) in
     Z.of_nat (length selected) <= batch_size CONFIG
     /\ Forall (fun s => exists r, In r (db (world_with ten_rows ready))
                                  /\ Store.synced_to_cloud r = false
                                  /\ to_submission r = Some s) selected
     /\ StronglySorted
          (fun s1 s2 => String.leb (sub_timestamp s1) (sub_timestamp s2) = true)
          selected
     /\ final (get_unsynced_submissions CONFIG env_delivering
                 (world_with ten_rows ready))
        = world_with ten_rows ready.
Proof.
  assert (H : 0 <= batch_size CONFIG) by (simpl; lia).
  split; [exact H|].
  apply (get_unsynced_submissions_bounded_unsynced_oldest_first
           CONFIG env_delivering (world_with ten_rows ready) H).
Defined.

End StoreClaims.

(* ===================================================================== *)
(** * The signer *)
(* ===================================================================== *)

Section SignerClaims.

Import Py Sync Reading Scenario.

(** C8: the signature is a function of the payload, the timestamp and the
    configured secret alone. Two calls that agree on these three, with a
    secret that is not empty, return the same signature, whatever else the
    two configurations hold; and they do return one, of 32 characters. *)
Theorem generate_signature_deterministic
    (config1 config2 : gmap string scalar) (data : jval) (timestamp : Z) :
  get_default config1 "api_secret" (SStr "")
  = get_default config2 "api_secret" (SStr "") ->
  truthy_scalar (get_default config1 "api_secret" (SStr "")) = true ->
  generate_signature config1 data timestamp
  = generate_signature config2 data timestamp
  /\ exists signature,
       generate_signature config1 data timestamp = Some signature
       /\ String.length signature = 32%nat.
Proof.
  intros Hsame Hset. unfold generate_signature.
  rewrite <- Hsame, Hset. cbn [negb].
  split; [reflexivity|].
  eexists. split; [reflexivity | apply hexdigest_length].
Qed.

(** A run of C8: two configurations with the secret [s3cr3t], one with sync
    enabled and one without. *)
Lemma generate_signature_deterministic_witness :
  (get_default (configured "s3cr3t" true) "api_secret" (SStr "")
   = get_default (configured "s3cr3t" false) "api_secret" (SStr "")
   /\ truthy_scalar (get_default (configured "s3cr3t" true) "api_secret" (SStr ""))
      = true)
  /\ (generate_signature (configured "s3cr3t" true) (JObj []) 1700000000
      = generate_signature (configured "s3cr3t" false) (JObj []) 1700000000
      /\ exists signature,
           generate_signature (configured "s3cr3t" true) (JObj []) 1700000000
           = Some signature
           /\ String.length signature = 32%nat).
Proof.
  assert (H1 : get_default (configured "s3cr3t" true) "api_secret" (SStr "")
               = get_default (configured "s3cr3t" false) "api_secret" (SStr ""))
    by reflexivity.
  assert (H2 : truthy_scalar
                 (get_default (configured "s3cr3t" true) "api_secret" (SStr ""))
               = true) by reflexivity.
  split; [split; [exact H1 | exact H2]|].
  apply (generate_signature_deterministic _ _ (JObj []) 1700000000 H1 H2).
Defined.

End SignerClaims.

(* ===================================================================== *)
(** * One delivery *)
(* ===================================================================== *)

Section DeliveryClaims.

Import Py Sync Reading Scenario.

Example fresh_row_submission (id : Z) (timestamp : string) :
  to_submission (fresh_row id timestamp) = Some (fresh_submission id timestamp).
Proof. reflexivity. Qed.

Lemma retry_trace_posts (url : string) (body : api_request) (delay : Z)
    (outs : list outcome) :
  (length (List.filter is_post (retry_trace url body delay outs)) <= length outs)%nat.
Proof.
  induction outs as [|o outs IH]; [apply Nat.le_refl|].
  cbn [retry_trace length]. destruct o; cbn [List.filter is_post length]; try lia.
  destruct outs; cbn [List.filter is_post length] in *; lia.
Qed.

Lemma retry_trace_all_rejected (url : string) (body : api_request) (delay : Z)
    (outs : list outcome) :
  Forall (eq Rejected) outs ->
  acknowledged outs = false
  /\ retry_trace url body delay outs = repeat (Post url body) (length outs).
Proof.
  induction 1 as [|o outs <- _ [IHa IHt]]; [split; reflexivity|].
  cbn [acknowledged retry_trace length repeat]. rewrite IHt. auto.
Qed.

Lemma filter_post_io (evs : list event) :
  List.filter is_post (io_events evs) = List.filter is_post evs.
Proof.
  unfold io_events. induction evs as [|e evs IH]; [reflexivity|].
  destruct e; cbn [List.filter is_io is_post]; rewrite ?IH; reflexivity.
Qed.

Lemma outcomes_from_length (E : env) (sid : Z) (count : nat) (attempt : Z) :
  length (outcomes_from E sid count attempt) = count.
Proof.
  revert attempt; induction count as [|n IH]; intros attempt; simpl;
    [reflexivity | rewrite IH; reflexivity].
Qed.

(** The outcome at position [k] is that of attempt number [k]. *)
Lemma outcomes_nth (C : Settings) (E : env) (sid : Z) (k : nat) :
  (k < Z.to_nat (max_retries C))%nat ->
  nth_error (outcomes C E sid) k = Some (classify (post E sid (Z.of_nat k))).
Proof.
  unfold outcomes. intros Hk.
  assert (H : forall count attempt,
             (k < count)%nat ->
             nth_error (outcomes_from E sid count attempt) k
             = Some (classify (post E sid (attempt + Z.of_nat k)))).
  { clear Hk. induction k as [|k IH]; intros [|count] attempt Hlt; try lia.
    - simpl. rewrite Z.add_0_r. reflexivity.
    - cbn [outcomes_from nth_error]. rewrite IH by lia. do 3 f_equal. lia. }
  rewrite H by exact Hk. reflexivity.
Qed.

(** Requests that fail on the network are repeated with a wait of
    [retry_delay] between them, and none after the last. *)
Example network_errors_are_retried_with_waits :
  let run := sync_to_cloud CONFIG env_unreachable
               (fresh_submission 1 "2023-11-14 10:00:00")
               (world_with one_row ready) in
  result run = false
  /\ map wait_of (io_events (events run)) = [None; Some 5; None; Some 5; None].
Proof. vm_compute. split; reflexivity. Qed.

(** A delivery acknowledged at the second of three attempts makes two
    requests, and the cycle marks the row. *)
Example delivered_on_second_attempt :
  let run := sync_all_pending CONFIG env_second_attempt (world_with one_row ready) in
  result run = true
  /\ map Store.synced_to_cloud (db (final run)) = [true]
  /\ length (List.filter is_post (events run)) = 2%nat.
Proof. vm_compute. repeat split. Qed.

(** A delivery that fails on the network at all attempts leaves the row
    unsynced: one failure out of one. *)
Example undelivered_after_all_attempts :
  let run := sync_all_pending CONFIG env_unreachable (world_with one_row ready) in
  result run = false
  /\ map Store.synced_to_cloud (db (final run)) = [false]
  /\ length (List.filter is_post (events run)) = 3%nat
  /\ In (Log INFO (MsgDone 0 1)) (events run).
Proof. vm_compute. repeat split. auto 50. Qed.

(** C2, as stated, fails. A declined delivery (status 200, [success] false)
    is posted again until [max_retries] requests are out, and nothing waits
    between these requests; the same holds for a 503 answer. *)
Lemma rejected_delivery_is_retried_without_wait :
  let w := world_with one_row ready in
  let s := fresh_submission 1 "2023-11-14 10:00:00" in
  (classify (post env_rejecting 1 0) = Rejected
   /\ result (sync_to_cloud CONFIG env_rejecting s w) = false
   /\ map is_post (io_events (events (sync_to_cloud CONFIG env_rejecting s w)))
      = [true; true; true])
  /\ (classify (post env_unavailable 1 0) = HttpFailure
      /\ map is_post (io_events (events (sync_to_cloud CONFIG env_unavailable s w)))
         = [true; true; true]).
Proof. vm_compute. repeat split. Qed.

(** C2, amended: with credentials configured and a payload that builds, the
    requests and waits of a delivery are those of [retry_trace] on the
    outcomes of the attempts, and it returns [True] exactly for an
    acknowledged sequence. So every outcome but an acknowledgment (or an
    unexpected exception) is followed by the next attempt, a declined
    delivery included; the wait of [retry_delay] follows only an attempt that
    raised a request exception and is not the last; a delivery declined at
    every attempt is posted [max_retries] times with no wait; and never more
    than [max_retries] requests are posted. *)
Theorem sync_to_cloud_retries (C : Settings) (E : env) (s : submission)
    (w : world) (sync_data : jval) :
  truthy_scalar (get (config w) "api_key") = true ->
  truthy_scalar (get (config w) "api_secret") = true ->
  build_sync_data E s = Some sync_data ->
  let run := sync_to_cloud C E s w in
  let body := api_data (config w) (clock w) sync_data in
  let outs := outcomes C E (sub_id s) in
  result run = acknowledged outs
  /\ io_events (events run) = retry_trace (submit_url C) body (retry_delay C) outs
  /\ (Forall (eq Rejected) outs ->
      result run = false
      /\ io_events (events run)
         = repeat (Post (submit_url C) body) (Z.to_nat (max_retries C)))
  /\ (length (List.filter is_post (events run)) <= Z.to_nat (max_retries C))%nat.
Proof.
  intros Hkey Hsecret Hdata. cbn zeta.
  assert (Hrun : result (sync_to_cloud C E s w)
                 = acknowledged (outcomes C E (sub_id s))
                 /\ io_events (events (sync_to_cloud C E s w))
                    = retry_trace (submit_url C)
                        (api_data (config w) (clock w) sync_data) (retry_delay C)
                        (outcomes C E (sub_id s))).
  { unfold sync_to_cloud. run. rewrite Hkey, Hsecret, Hdata. cbn [negb orb]. run.
    rewrite no_signature_generate, Hsecret. cbn [negb].
    destruct (post_loop_spec C E (sub_id s)
                (api_data (config w) (clock w) sync_data) w) as (Hr & Hio & _).
    split; [exact Hr | exact Hio]. }
  destruct Hrun as [Hr Hio].
  assert (Hlen : length (outcomes C E (sub_id s)) = Z.to_nat (max_retries C))
    by apply outcomes_from_length.
  split; [exact Hr|]. split; [exact Hio|]. split.
  - intros Hall.
    destruct (retry_trace_all_rejected (submit_url C)
                (api_data (config w) (clock w) sync_data) (retry_delay C) _ Hall)
      as [Ha Ht].
    rewrite Hr, Hio, Ha, Ht, Hlen. split; reflexivity.
  - rewrite <- filter_post_io, Hio, <- Hlen. apply retry_trace_posts.
Qed.

(** A run of C2: one submission, declined at each of the three attempts. *)
Lemma sync_to_cloud_retries_witness :
  (truthy_scalar (get (config (world_with one_row ready)) "api_key") = true
   /\ truthy_scalar (get (config (world_with one_row ready)) "api_secret") = true
   /\ build_sync_data env_rejecting (fresh_submission 1 "2023-11-14 10:00:00")
      = Some (fresh_sync_data 1 "2023-11-14 10:00:00"))
  /\ let w := world_with one_row ready in
     let s := fresh_submission 1 "2023-11-14 10:00:00" in
     let run := sync_to_cloud CONFIG env_rejecting s w in
     let body := api_data (config w) (clock w)
                   (fresh_sync_data 1 "2023-11-14 10:00:00") in
     let outs := outcomes CONFIG env_rejecting (sub_id s) in
     result run = acknowledged outs
     /\ io_events (events run)
        = retry_trace (submit_url CONFIG) body (retry_delay CONFIG) outs
     /\ (Forall (eq Rejected) outs ->
         result run = false
         /\ io_events (events run)
            = repeat (Post (submit_url CONFIG) body) (Z.to_nat (max_retries CONFIG)))
     /\ (length (List.filter is_post (events run))
         <= Z.to_nat (max_retries CONFIG))%nat.
Proof.
  assert (H1 : truthy_scalar (get (config (world_with one_row ready)) "api_key")
               = true) by reflexivity.
  assert (H2 : truthy_scalar (get (config (world_with one_row ready)) "api_secret")
               = true) by reflexivity.
  assert (H3 : build_sync_data env_rejecting
                 (fresh_submission 1 "2023-11-14 10:00:00")
               = Some (fresh_sync_data 1 "2023-11-14 10:00:00")) by reflexivity.
  split; [repeat split; assumption|].
  exact (sync_to_cloud_retries CONFIG env_rejecting
           (fresh_submission 1 "2023-11-14 10:00:00")
           (world_with one_row ready)
           (fresh_sync_data 1 "2023-11-14 10:00:00") H1 H2 H3).
Defined.

End DeliveryClaims.

(* ===================================================================== *)
(** * The sync cycle *)
(* ===================================================================== *)

Section CycleClaims.

Import Py Sync Reading Scenario.

Variable C : Settings.
Variable E : env.

Lemma existsb_false_Forall {A : Type} (p : A -> bool) (l : list A) :
  Forall (fun a => p a = false) l -> existsb p l = false.
Proof.
  induction 1 as [|a l Ha _ IH]; [reflexivity|]. simpl. rewrite Ha, IH. reflexivity.
Qed.

Lemma selection_quiet (w : world) :
  existsb is_store_write (events (get_unsynced_submissions C E w)) = false
  /\ existsb is_config_write (events (get_unsynced_submissions C E w)) = false
  /\ existsb is_post (events (get_unsynced_submissions C E w)) = false.
Proof.
  pose proof (get_unsynced_submissions_events C E w) as H.
  repeat split; apply existsb_false_Forall;
    (eapply List.Forall_impl; [|exact H]); cbn beta; tauto.
Qed.





(** C3, amended: a cycle that passes both checks and selects at least one
    submission ends with [last_sync_time] set to the time on the clock when
    the batch is through, whatever the items did, and hands that
    configuration to [save_config], which stores it unless the write fails.
    A cycle that selects nothing returns before that and leaves the state,
    [last_sync_time] included, as it was. *)
Theorem last_sync_time_after_a_batch (w : world) :
  online E = true -> sync_enabled w = true ->
  let run := sync_all_pending C E w in
  match batch C E w with
  | [] =>
      result run = true /\ final run = w
      /\ existsb is_config_write (events run) = false
  | _ :: _ =>
      config (final run)
      = <["last_sync_time" :=
            SStr (Clock.isoformat_now (utc_offset E) (clock (final run)))]> (config w)
      /\ get (config (final run)) "last_sync_time"
         = SStr (Clock.isoformat_now (utc_offset E) (clock (final run)))
      /\ In (SaveConfig (config (final run))) (events run)
      /\ (save_result E = Saved ->
          config_file (final run) = FileJson (config (final run)))
  end.
Proof.
  intros Hon Hen. cbn zeta.
  destruct (batch C E w) as [|s subs] eqn:Hbatch.
  - destruct (cycle_without_batch C E w Hon Hen Hbatch) as (Hr & Hf & Hev).
    split; [exact Hr|]. split; [exact Hf|].
    rewrite Hev, !existsb_app. destruct (selection_quiet w) as (_ & -> & _).
    reflexivity.
  - assert (Hne : batch C E w <> []) by (rewrite Hbatch; discriminate).
    destruct (cycle_with_batch C E w Hon Hen Hne) as (_ & _ & _ & Hc & Hfile & Hev).
    split; [exact Hc|]. split.
    { rewrite Hc at 1. unfold get. rewrite lookup_insert_eq. reflexivity. }
    split.
    { rewrite Hev, !in_app_iff. cbn [In]. find_event. }
    intros Hsaved. rewrite Hfile, Hsaved. reflexivity.
Qed.

(** C4: when the connectivity check fails or [sync_enabled] is not set, the
    cycle returns [False] and the state after it is the state before it: the
    table, [self.config] with its [last_sync_time], and the configuration
    file. It reads no row and writes neither a row nor the configuration. *)
Theorem skipped_cycle_changes_nothing (w : world) :
  online E = false \/ sync_enabled w = false ->
  let run := sync_all_pending C E w in
  result run = false
  /\ final run = w
  /\ existsb is_store_access (events run) = false
  /\ existsb is_config_write (events run) = false
  /\ existsb is_post (events run) = false.
Proof.
  intros Hskip. cbn zeta.
  destruct (cycle_skipped C E w Hskip) as (Hr & Hf & [Hev|Hev]);
    rewrite Hr, Hf, Hev; repeat split.
Qed.




(** C9, amended: the cycle returns a truth value, not the two counts. For a
    non-empty batch it returns whether the number of acknowledged items
    equals the number of selected items, and the pair itself goes to the log;
    for an empty batch it returns [True]. *)
Theorem cycle_returns_whether_all_succeeded (w : world) :
  online E = true -> sync_enabled w = true ->
  let run := sync_all_pending C E w in
  match batch C E w with
  | [] => result run = true
  | _ :: _ =>
      result run = (success_count C E w =? total_count C E w)
      /\ In (Log INFO (MsgDone (success_count C E w) (total_count C E w)))
            (events run)
  end.
Proof.
  intros Hon Hen. cbn zeta.
  destruct (batch C E w) as [|s subs] eqn:Hbatch.
  - apply (cycle_without_batch C E w Hon Hen Hbatch).
  - assert (Hne : batch C E w <> []) by (rewrite Hbatch; discriminate).
    destruct (cycle_with_batch C E w Hon Hen Hne) as (Hr & _ & _ & _ & _ & Hev).
    split; [exact Hr|].
    rewrite Hev, !in_app_iff. cbn [In]. find_event.
Qed.

(** Every submission of the batch is made of an unsynced row of the table. *)
Lemma batch_row (w : world) (s : submission) :
  In s (batch C E w) ->
  exists r, In r (db w) /\ Store.synced_to_cloud r = false
            /\ Store.id r = sub_id s /\ to_submission r = Some s.
Proof.
  destruct (batch_cases C E w) as [->|H]; [intros []|].
  pose proof (fun r => select_unsynced_In (batch_size C) (db w) r) as Hsel.
  induction H as [|r s0 rows subs Hrs _ IH]; intros Hin; [destruct Hin|].
  destruct Hin as [<-|Hin].
  - exists r. destruct (Hsel r (or_introl eq_refl)) as [Hr Hns].
    apply to_submission_fields in Hrs as Hf. destruct Hf as [Hid _]. auto.
  - apply IH; [|exact Hin]. intros r' Hr'. apply Hsel. right. exact Hr'.
Qed.

(** The primary key of the table makes the ids of a batch distinct. *)
Lemma batch_ids_distinct (w : world) :
  List.NoDup (map Store.id (db w)) -> List.NoDup (map sub_id (batch C E w)).
Proof.
  intros Hkey. destruct (batch_cases C E w) as [->|H]; [constructor|].
  assert (Hids : map sub_id (batch C E w)
                 = map Store.id (Store.select_unsynced (batch_size C) (db w))).
  { induction H as [|r s rows subs Hrs _ IH]; [reflexivity|].
    apply to_submission_fields in Hrs as [Hid _]. simpl. congruence. }
  rewrite Hids. apply select_unsynced_NoDup, Hkey.
Qed.

Lemma same_id_same_item (l : list submission) (s s' : submission) :
  List.NoDup (map sub_id l) -> In s l -> In s' l -> sub_id s = sub_id s' -> s = s'.
Proof.
  induction l as [|x l IH]; intros Hnd Hs Hs' Hid; [destruct Hs|].
  inversion Hnd as [|? ? Hnotin Hnd']; subst.
  destruct Hs as [->|Hs], Hs' as [->|Hs']; auto.
  - exfalso. apply Hnotin. rewrite Hid. apply in_map, Hs'.
  - exfalso. apply Hnotin. rewrite <- Hid. apply in_map, Hs.
Qed.

Lemma marked_iff (config : gmap string scalar) (l : list submission) (i : Z) :
  marked C E config l i = true
  <-> exists s, In s l /\ sub_id s = i /\ delivers C E config s = true
                /\ update_ok E (sub_id s) = true.
Proof.
  unfold marked. rewrite existsb_exists. split.
  - intros (s & Hin & H). apply andb_prop in H as [H Hu].
    apply andb_prop in H as [Hid Hd]. apply Z.eqb_eq in Hid. eauto.
  - intros (s & Hin & Hid & Hd & Hu). exists s. split; [exact Hin|].
    rewrite Hd, Hu. apply Z.eqb_eq in Hid. rewrite Hid. reflexivity.
Qed.

Lemma not_marked (config : gmap string scalar) (l : list submission) (i : Z) :
  (forall s, In s l -> sub_id s = i ->
             delivers C E config s = false \/ update_ok E (sub_id s) = false) ->
  marked C E config l i = false.
Proof.
  intros H. destruct (marked C E config l i) eqn:Hm; [|reflexivity].
  apply marked_iff in Hm as (s & Hin & Hid & Hd & Hu).
  destruct (H s Hin Hid); congruence.
Qed.

Lemma filter_all {A : Type} (f : A -> bool) (l : list A) :
  Forall (fun a => f a = true) l -> List.filter f l = l.
Proof.
  induction 1 as [|x l Hx _ IH]; [reflexivity|]. simpl. rewrite Hx, IH. reflexivity.
Qed.

Lemma filter_length_lt {A : Type} (f : A -> bool) (l : list A) (a : A) :
  In a l -> f a = false -> (length (List.filter f l) < length l)%nat.
Proof.
  induction l as [|x l IH]; intros Hin Hf; [destruct Hin|].
  pose proof (filter_length_le f l) as Hle. simpl.
  destruct Hin as [->|Hin].
  - rewrite Hf. lia.
  - specialize (IH Hin Hf). destruct (f x); simpl; lia.
Qed.

(** A row that is in the table under an id the batch does not mark is still
    there after the cycle. *)
Lemma unmarked_row_kept (w : world) (r : Store.row) :
  online E = true -> sync_enabled w = true -> batch C E w <> [] ->
  marked C E (config w) (batch C E w) (Store.id r) = false ->
  List.filter (fun r' => Store.id r' =? Store.id r)
              (db (final (sync_all_pending C E w)))
  = List.filter (fun r' => Store.id r' =? Store.id r) (db w).
Proof.
  intros Hon Hen Hne Hm.
  destruct (cycle_with_batch C E w Hon Hen Hne) as (_ & Hdb & _).
  destruct (sync_items_run C E (batch C E w) 0 w) as (_ & _ & _ & Ht & _).
  rewrite Hdb. eapply touched_filter_other; eassumption.
Qed.

(** C6: in a cycle that passes both checks, an item whose delivery fails
    (declined, retries used up, or any other way [sync_to_cloud] returns
    [False]) keeps its row as it was, unsynced; the failure is logged and
    keeps the success count below the total; and the batch goes on: every
    other item that is acknowledged gets its UPDATE and ends synced, and the
    cycle reaches its last step, the write of the configuration. The table
    is taken with distinct ids, as its primary key makes them. *)
Theorem failed_item_stays_unsynced_and_batch_goes_on (w : world) (s : submission) :
  online E = true -> sync_enabled w = true ->
  List.NoDup (map Store.id (db w)) ->
  In s (batch C E w) -> delivers C E (config w) s = false ->
  let run := sync_all_pending C E w in
  List.filter (fun r => Store.id r =? sub_id s) (db (final run))
  = List.filter (fun r => Store.id r =? sub_id s) (db w)
  /\ (exists r, In r (db (final run)) /\ Store.id r = sub_id s
                /\ Store.synced_to_cloud r = false)
  /\ In (Log ERROR (MsgItemFailed (sub_id s))) (events run)
  /\ success_count C E w < total_count C E w
  /\ In (Log INFO (MsgDone (success_count C E w) (total_count C E w))) (events run)
  /\ (forall s', In s' (batch C E w) -> delivers C E (config w) s' = true ->
        update_ok E (sub_id s') = true ->
        In (Update (sub_id s')) (events run)
        /\ forall r, In r (db (final run)) -> Store.id r = sub_id s' ->
                     Store.synced_to_cloud r = true)
  /\ In (SaveConfig (config (final run))) (events run).
Proof.
  intros Hon Hen Hkey Hin Hfail. cbn zeta.
  assert (Hne : batch C E w <> []) by (intros Hb; rewrite Hb in Hin; destruct Hin).
  destruct (cycle_with_batch C E w Hon Hen Hne) as (_ & Hdb & _ & _ & _ & Hev).
  destruct (sync_items_run C E (batch C E w) 0 w)
    as (_ & _ & _ & Ht & Hlogged & Hupd & _).
  destruct (batch_row w s Hin) as (r & Hr & Hns & Hid & _).
  assert (Hm : marked C E (config w) (batch C E w) (Store.id r) = false).
  { apply not_marked. intros s' Hs' Hid'. left.
    rewrite (same_id_same_item _ s' s (batch_ids_distinct w Hkey) Hs' Hin);
      [exact Hfail | congruence]. }
  pose proof (unmarked_row_kept w r Hon Hen Hne Hm) as Hkept.
  rewrite Hid in Hkept.
  split; [exact Hkept|]. split.
  { exists r. split; [|split; assumption].
    assert (Hf : In r (List.filter (fun r' => Store.id r' =? sub_id s) (db w))).
    { apply filter_In. split; [exact Hr|]. apply Z.eqb_eq, Hid. }
    rewrite <- Hkept in Hf. apply filter_In in Hf. tauto. }
  split.
  { rewrite Hev, !in_app_iff. right. right. left. apply Hlogged; assumption. }
  split.
  { unfold success_count, total_count.
    apply inj_lt. eapply filter_length_lt; eassumption. }
  split.
  { rewrite Hev, !in_app_iff. cbn [In]. find_event. }
  split.
  { intros s' Hs' Hd' Hu'. split.
    - rewrite Hev, !in_app_iff. right. right. left. apply Hupd; assumption.
    - intros r' Hr' Hid'. rewrite Hdb in Hr'.
      eapply touched_synced; [exact Ht | exact Hr' |].
      apply marked_iff. exists s'. rewrite Hid'. auto. }
  rewrite Hev, !in_app_iff. cbn [In]. find_event.
Qed.

(** C10: when an item is acknowledged and the UPDATE that marks it raises,
    the error is logged and nothing else happens about it: the row stays as
    it was, unsynced, and a later selection with room for it returns it
    again; the item is among those the success count counts, and a cycle
    whose items are all acknowledged returns [True] all the same. *)
Theorem failed_mark_is_logged_and_counted_as_success (w : world) (s : submission) :
  online E = true -> sync_enabled w = true ->
  In s (batch C E w) -> delivers C E (config w) s = true ->
  update_ok E (sub_id s) = false ->
  let run := sync_all_pending C E w in
  In (Update (sub_id s)) (events run)
  /\ In (Log ERROR MsgMarkFailed) (events run)
  /\ List.filter (fun r => Store.id r =? sub_id s) (db (final run))
     = List.filter (fun r => Store.id r =? sub_id s) (db w)
  /\ (exists r, In r (db (final run)) /\ Store.id r = sub_id s
                /\ Store.synced_to_cloud r = false
                /\ (Z.of_nat (Store.unsynced_count (db (final run))) <= batch_size C ->
                    In r (Store.select_unsynced (batch_size C) (db (final run)))))
  /\ In s (List.filter (delivers C E (config w)) (batch C E w))
  /\ In (Log INFO (MsgDone (success_count C E w) (total_count C E w))) (events run)
  /\ (Forall (fun s' => delivers C E (config w) s' = true) (batch C E w) ->
      result run = true).
Proof.
  intros Hon Hen Hin Hd Hu. cbn zeta.
  assert (Hne : batch C E w <> []) by (intros Hb; rewrite Hb in Hin; destruct Hin).
  destruct (cycle_with_batch C E w Hon Hen Hne) as (Hres & Hdb & _ & _ & _ & Hev).
  destruct (sync_items_run C E (batch C E w) 0 w)
    as (_ & _ & _ & Ht & _ & Hupd & Hmark).
  destruct (batch_row w s Hin) as (r & Hr & Hns & Hid & _).
  assert (Hm : marked C E (config w) (batch C E w) (Store.id r) = false).
  { apply not_marked. intros s' Hs' Hid'. right. congruence. }
  pose proof (unmarked_row_kept w r Hon Hen Hne Hm) as Hkept.
  rewrite Hid in Hkept.
  split.
  { rewrite Hev, !in_app_iff. right. right. left. apply Hupd; assumption. }
  split.
  { rewrite Hev, !in_app_iff. right. right. left. eapply Hmark; eassumption. }
  split; [exact Hkept|]. split.
  { exists r.
    assert (Hf : In r (List.filter (fun r' => Store.id r' =? sub_id s) (db w))).
    { apply filter_In. split; [exact Hr|]. apply Z.eqb_eq, Hid. }
    rewrite <- Hkept in Hf. apply filter_In in Hf as [Hf _].
    repeat split; try assumption.
    intros Hroom. apply select_unsynced_all; assumption. }
  split; [apply filter_In; auto|]. split.
  { rewrite Hev, !in_app_iff. cbn [In]. find_event. }
  intros Hall. rewrite Hres. apply Z.eqb_eq.
  unfold success_count, total_count. rewrite (filter_all _ _ Hall). reflexivity.
Qed.

End CycleClaims.

(* ===================================================================== *)
(** * Runs of the cycle *)
(* ===================================================================== *)

Section CycleRuns.

Import Py Sync Reading Scenario.

(** C3, as stated, fails for a cycle that selects nothing: with the only row
    already synced the cycle passes both checks, returns [True], and neither
    sets [last_sync_time] nor writes the configuration. *)
Lemma empty_batch_leaves_last_sync_time :
  let w := world_with synced_rows ready in
  let run := sync_all_pending CONFIG env_delivering w in
  online env_delivering = true
  /\ sync_enabled w = true
  /\ batch CONFIG env_delivering w = []
  /\ result run = true
  /\ get (config (final run)) "last_sync_time" = SNone
  /\ existsb is_config_write (events run) = false
  /\ final run = w.
Proof. vm_compute. repeat split. Qed.

(** A run of C3: the only item is declined three times, and
    [last_sync_time] is set all the same. *)
Lemma last_sync_time_after_a_batch_witness :
  (online env_rejecting = true /\ sync_enabled (world_with one_row ready) = true)
  /\ let w := world_with one_row ready in
     let run := sync_all_pending CONFIG env_rejecting w in
     match batch CONFIG env_rejecting w with
     | [] =>
         result run = true /\ final run = w
         /\ existsb is_config_write (events run) = false
     | _ :: _ =>
         config (final run)
         = <["last_sync_time" :=
               SStr (Clock.isoformat_now (utc_offset env_rejecting)
                       (clock (final run)))]> (config w)
         /\ get (config (final run)) "last_sync_time"
            = SStr (Clock.isoformat_now (utc_offset env_rejecting)
                      (clock (final run)))
         /\ In (SaveConfig (config (final run))) (events run)
         /\ (save_result env_rejecting = Saved ->
             config_file (final run) = FileJson (config (final run)))
     end.
Proof.
  assert (H1 : online env_rejecting = true) by reflexivity.
  assert (H2 : sync_enabled (world_with one_row ready) = true) by reflexivity.
  split; [split; assumption|].
  exact (last_sync_time_after_a_batch CONFIG env_rejecting
           (world_with one_row ready) H1 H2).
Defined.

Example last_sync_time_after_a_declined_batch :
  let run := sync_all_pending CONFIG env_rejecting (world_with one_row ready) in
  result run = false
  /\ map Store.synced_to_cloud (db (final run)) = [false]
  /\ get (config (final run)) "last_sync_time" = SStr "2023-11-15T06:13:21".
Proof. vm_compute. repeat split. Qed.

(** A run of C4: sync is disabled. *)
Lemma skipped_cycle_changes_nothing_witness :
  (online env_delivering = false
   \/ sync_enabled (world_with one_row (configured "s3cr3t" false)) = false)
  /\ let w := world_with one_row (configured "s3cr3t" false) in
     let run := sync_all_pending CONFIG env_delivering w in
     result run = false
     /\ final run = w
     /\ existsb is_store_access (events run) = false
     /\ existsb is_config_write (events run) = false
     /\ existsb is_post (events run) = false.
Proof.
  assert (H : online env_delivering = false
              \/ sync_enabled (world_with one_row (configured "s3cr3t" false)) = false)
    by (right; reflexivity).
  split; [exact H|].
  exact (skipped_cycle_changes_nothing CONFIG env_delivering
           (world_with one_row (configured "s3cr3t" false)) H).
Defined.



(** C9, as stated, fails: the value the cycle returns does not carry the
    two counts. A cycle over one row and a cycle over two rows, all
    delivered, return the same value for the counts (1, 1) and (2, 2), so no
    reading of the returned value gives the pair. *)
Lemma returned_value_does_not_carry_the_counts :
  let w1 := world_with one_row ready in
  let w2 := world_with two_rows ready in
  (result (sync_all_pending CONFIG env_delivering w1) = true
   /\ success_count CONFIG env_delivering w1 = 1
   /\ total_count CONFIG env_delivering w1 = 1)
  /\ (result (sync_all_pending CONFIG env_delivering w2) = true
      /\ success_count CONFIG env_delivering w2 = 2
      /\ total_count CONFIG env_delivering w2 = 2)
  /\ ~ (exists counts_of : bool -> Z * Z,
          counts_of (result (sync_all_pending CONFIG env_delivering w1))
          = (success_count CONFIG env_delivering w1,
             total_count CONFIG env_delivering w1)
          /\ counts_of (result (sync_all_pending CONFIG env_delivering w2))
             = (success_count CONFIG env_delivering w2,
                total_count CONFIG env_delivering w2)).
Proof.
  cbn zeta.
  assert (H1 : result (sync_all_pending CONFIG env_delivering
                         (world_with one_row ready)) = true)
    by (vm_compute; reflexivity).
  assert (H2 : result (sync_all_pending CONFIG env_delivering
                         (world_with two_rows ready)) = true)
    by (vm_compute; reflexivity).
  assert (S1 : success_count CONFIG env_delivering (world_with one_row ready) = 1)
    by (vm_compute; reflexivity).
  assert (S2 : success_count CONFIG env_delivering (world_with two_rows ready) = 2)
    by (vm_compute; reflexivity).
  assert (T1 : total_count CONFIG env_delivering (world_with one_row ready) = 1)
    by (vm_compute; reflexivity).
  assert (T2 : total_count CONFIG env_delivering (world_with two_rows ready) = 2)
    by (vm_compute; reflexivity).
  repeat split; try assumption.
  intros (f & Hf1 & Hf2). rewrite H1, S1, T1 in Hf1. rewrite H2, S2, T2 in Hf2.
  congruence.
Qed.

(** A run of C9: two rows, both delivered. *)
Lemma cycle_returns_whether_all_succeeded_witness :
  (online env_delivering = true /\ sync_enabled (world_with two_rows ready) = true)
  /\ let w := world_with two_rows ready in
     let run := sync_all_pending CONFIG env_delivering w in
     match batch CONFIG env_delivering w with
     | [] => result run = true
     | _ :: _ =>
         result run
         = (success_count CONFIG env_delivering w
            =? total_count CONFIG env_delivering w)
         /\ In (Log INFO (MsgDone (success_count CONFIG env_delivering w)
                                  (total_count CONFIG env_delivering w)))
               (events run)
     end.
Proof.
  assert (H1 : online env_delivering = true) by reflexivity.
  assert (H2 : sync_enabled (world_with two_rows ready) = true) by reflexivity.
  split; [split; assumption|].
  exact (cycle_returns_whether_all_succeeded CONFIG env_delivering
           (world_with two_rows ready) H1 H2).
Defined.

Lemma ten_rows_distinct_ids : List.NoDup (map Store.id ten_rows).
Proof.
  repeat (constructor; [cbn; intuition discriminate|]). constructor.
Defined.

Lemma ten_rows_batch :
  batch CONFIG env_rejecting_4 (world_with ten_rows ready)
  = map (fun r => fresh_submission (Store.id r) (Store.timestamp r)) ten_rows.
Proof. reflexivity. Defined.

(** The scenario of the specification: a batch of ten, the fourth declined
    and the nine others delivered, ends with nine rows synced and one not,
    and the cycle runs to its end. *)
Example batch_of_ten_with_one_declined :
  let run := sync_all_pending CONFIG env_rejecting_4 (world_with ten_rows ready) in
  map Store.synced_to_cloud (db (final run))
  = [true; true; true; false; true; true; true; true; true; true]
  /\ In (Log INFO (MsgDone 9 10)) (events run)
  /\ result run = false
  /\ get (config (final run)) "last_sync_time" = SStr "2023-11-15T06:13:30".
Proof. vm_compute. repeat split. auto 200. Qed.

(** A run of C6: that batch. *)
Lemma failed_item_stays_unsynced_and_batch_goes_on_witness :
  (online env_rejecting_4 = true
   /\ sync_enabled (world_with ten_rows ready) = true
   /\ List.NoDup (map Store.id (db (world_with ten_rows ready)))
   /\ In (fresh_submission 4 "2023-11-14 10:00:03")
         (batch CONFIG env_rejecting_4 (world_with ten_rows ready))
   /\ delivers CONFIG env_rejecting_4 (config (world_with ten_rows ready))
        (fresh_submission 4 "2023-11-14 10:00:03") = false)
  /\ let w := world_with ten_rows ready in
     let s := fresh_submission 4 "2023-11-14 10:00:03" in
     let run := sync_all_pending CONFIG env_rejecting_4 w in
     List.filter (fun r => Store.id r =? sub_id s) (db (final run))
     = List.filter (fun r => Store.id r =? sub_id s) (db w)
     /\ (exists r, In r (db (final run)) /\ Store.id r = sub_id s
                   /\ Store.synced_to_cloud r = false)
     /\ In (Log ERROR (MsgItemFailed (sub_id s))) (events run)
     /\ success_count CONFIG env_rejecting_4 w < total_count CONFIG env_rejecting_4 w
     /\ In (Log INFO (MsgDone (success_count CONFIG env_rejecting_4 w)
                              (total_count CONFIG env_rejecting_4 w))) (events run)
     /\ (forall s', In s' (batch CONFIG env_rejecting_4 w) ->
           delivers CONFIG env_rejecting_4 (config w) s' = true ->
           update_ok env_rejecting_4 (sub_id s') = true ->
           In (Update (sub_id s')) (events run)
           /\ forall r, In r (db (final run)) -> Store.id r = sub_id s' ->
                        Store.synced_to_cloud r = true)
     /\ In (SaveConfig (config (final run))) (events run).
Proof.
  assert (H1 : online env_rejecting_4 = true) by reflexivity.
  assert (H2 : sync_enabled (world_with ten_rows ready) = true) by reflexivity.
  assert (H3 : List.NoDup (map Store.id (db (world_with ten_rows ready))))
    by exact ten_rows_distinct_ids.
  assert (H4 : In (fresh_submission 4 "2023-11-14 10:00:03")
                  (batch CONFIG env_rejecting_4 (world_with ten_rows ready))).
  { rewrite ten_rows_batch. cbn. auto 10. }
  assert (H5 : delivers CONFIG env_rejecting_4 (config (world_with ten_rows ready))
                 (fresh_submission 4 "2023-11-14 10:00:03") = false)
    by reflexivity.
  split; [repeat split; assumption|].
  exact (failed_item_stays_unsynced_and_batch_goes_on CONFIG env_rejecting_4
           (world_with ten_rows ready)
           (fresh_submission 4 "2023-11-14 10:00:03") H1 H2 H3 H4 H5).
Defined.

(** A run of C10: two rows, both acknowledged, the UPDATE for id 2 raising. *)
Lemma failed_mark_is_logged_and_counted_as_success_witness :
  (online env_update_fails_2 = true
   /\ sync_enabled (world_with two_rows ready) = true
   /\ In (fresh_submission 2 "2023-11-14 09:00:00")
         (batch CONFIG env_update_fails_2 (world_with two_rows ready))
   /\ delivers CONFIG env_update_fails_2 (config (world_with two_rows ready))
        (fresh_submission 2 "2023-11-14 09:00:00") = true
   /\ update_ok env_update_fails_2 (sub_id (fresh_submission 2 "2023-11-14 09:00:00"))
      = false)
  /\ let w := world_with two_rows ready in
     let s := fresh_submission 2 "2023-11-14 09:00:00" in
     let run := sync_all_pending CONFIG env_update_fails_2 w in
     In (Update (sub_id s)) (events run)
     /\ In (Log ERROR MsgMarkFailed) (events run)
     /\ List.filter (fun r => Store.id r =? sub_id s) (db (final run))
        = List.filter (fun r => Store.id r =? sub_id s) (db w)
     /\ (exists r, In r (db (final run)) /\ Store.id r = sub_id s
                   /\ Store.synced_to_cloud r = false
                   /\ (Z.of_nat (Store.unsynced_count (db (final run)))
                       <= batch_size CONFIG ->
                       In r (Store.select_unsynced (batch_size CONFIG)
                               (db (final run)))))
     /\ In s (List.filter (delivers CONFIG env_update_fails_2 (config w))
                          (batch CONFIG env_update_fails_2 w))
     /\ In (Log INFO (MsgDone (success_count CONFIG env_update_fails_2 w)
                              (total_count CONFIG env_update_fails_2 w)))
           (events run)
     /\ (Forall (fun s' => delivers CONFIG env_update_fails_2 (config w) s' = true)
                (batch CONFIG env_update_fails_2 w) ->
         result run = true).
Proof.
  assert (H1 : online env_update_fails_2 = true) by reflexivity.
  assert (H2 : sync_enabled (world_with two_rows ready) = true) by reflexivity.
  assert (H3 : In (fresh_submission 2 "2023-11-14 09:00:00")
                  (batch CONFIG env_update_fails_2 (world_with two_rows ready)))
    by (left; reflexivity).
  assert (H4 : delivers CONFIG env_update_fails_2 (config (world_with two_rows ready))
                 (fresh_submission 2 "2023-11-14 09:00:00") = true)
    by reflexivity.
  assert (H5 : update_ok env_update_fails_2
                 (sub_id (fresh_submission 2 "2023-11-14 09:00:00")) = false)
    by reflexivity.
  split; [repeat split; assumption|].
  exact (failed_mark_is_logged_and_counted_as_success CONFIG env_update_fails_2
           (world_with two_rows ready)
           (fresh_submission 2 "2023-11-14 09:00:00") H1 H2 H3 H4 H5).
Defined.

Example failed_mark_run :
  let run := sync_all_pending CONFIG env_update_fails_2 (world_with two_rows ready) in
  result run = true
  /\ map Store.synced_to_cloud (db (final run)) = [true; false]
  /\ In (Log INFO (MsgDone 2 2)) (events run).
Proof. vm_compute. repeat split. auto 50. Qed.

(** [main] on a device that was never configured: the default
    configuration is written, and nothing is probed or read. *)
Example main_without_configuration :
  let w := {| db := one_row; config := ∅; config_file := FileAbsent;
              clock := 1700000000 * Clock.second |} in
  let run := main CONFIG env_delivering w in
  events run
  = [Log INFO MsgServiceStart; SaveConfig default_config; Log WARNING MsgNoApiKey]
  /\ result run = Returns
  /\ config_file (final run) = FileJson default_config
  /\ db (final run) = db w.
Proof. vm_compute. repeat split. Qed.

(** [main] with an API key and no secret goes into the cycle. *)
Example main_with_key_without_secret :
  let w := {| db := one_row; config := ∅;
              config_file := FileJson (configured "" true);
              clock := 1700000000 * Clock.second |} in
  let run := main CONFIG env_delivering w in
  existsb is_store_access (events run) = true
  /\ existsb is_post (events run) = false
  /\ map Store.synced_to_cloud (db (final run)) = [false].
Proof. vm_compute. repeat split. Qed.

End CycleRuns.

(* ===================================================================== *)
(** * Further properties: one delivery *)
(* ===================================================================== *)

Section DeliveryExtras.

Import Py Sync Reading Scenario Observing.

Variable C : Settings.
Variable E : env.

Lemma slept_app (l1 l2 : list event) : slept (l1 ++ l2) = slept l1 + slept l2.
Proof.
  induction l1 as [|e l1 IH]; [reflexivity|].
  cbn [app slept fold_right]. fold (slept (l1 ++ l2)). fold (slept l1).
  rewrite IH. destruct e; lia.
Qed.

(** The retry loop makes requests, waits and logs, and nothing else. *)
Lemma post_attempts_effects (sid : Z) (body : api_request) (remaining : nat) :
  forall (attempt : Z) (w : world),
    Forall (fun e => is_quiet e = true)
           (events (post_attempts C E sid body remaining attempt w)).
Proof.
  induction remaining as [|n IH]; intros attempt w.
  - constructor.
  - cbn [post_attempts]. unfold session_post. run.
    destruct (post E sid attempt) as [[|]|[status [[|]|v]]];
      cbn [status_code json];
      try destruct (status =? 200);
      try destruct (attempt <? max_retries C - 1);
      try (destruct v as [| | | | |kvs]; try destruct (truthy (dict_get kvs "success")));
      run;
      try (repeat constructor; fail).
    all: repeat (constructor; [reflexivity|]); apply IH.
Qed.

Lemma retry_trace_In (url : string) (body : api_request) (delay : Z)
    (outs : list outcome) (e : event) :
  In e (retry_trace url body delay outs) -> e = Post url body \/ e = Sleep delay.
Proof.
  induction outs as [|o outs IH]; [intros []|].
  cbn [retry_trace]. intros [<-|Hin]; [left; reflexivity|].
  destruct o; try (destruct Hin; fail); try (apply IH, Hin).
  destruct outs as [|o' outs']; [destruct Hin|].
  destruct Hin as [<-|Hin]; [right; reflexivity | apply IH, Hin].
Qed.

(** [sync_to_cloud], run in a state with credentials and a payload that
    builds: the events are those of the retry loop. *)
Lemma sync_to_cloud_with_payload (s : submission) (w : world) (sync_data : jval) :
  truthy_scalar (get (config w) "api_key") = true ->
  truthy_scalar (get (config w) "api_secret") = true ->
  build_sync_data E s = Some sync_data ->
  sync_to_cloud C E s w
  = (let run := post_attempts C E (sub_id s)
                  (api_data (config w) (clock w) sync_data)
                  (Z.to_nat (max_retries C)) 0 w in
     (result run, final run, events run)).
Proof.
  intros Hkey Hsecret Hdata. cbn zeta. unfold sync_to_cloud.
  unfold mbind at 1, M_bind at 1, bind at 1. cbn [gets].
  rewrite Hkey, Hsecret, Hdata. cbn [negb orb].
  unfold mbind at 1, M_bind at 1, bind at 1. cbn [gets].
  rewrite no_signature_generate, Hsecret. cbn [negb].
  fold (api_data (config w) (clock w) sync_data).
  destruct (post_attempts C E (sub_id s) _ _ 0 w) as [[b w'] t].
  reflexivity.
Qed.

(** [sync_to_cloud] without credentials or without a payload. *)
Lemma sync_to_cloud_without_payload (s : submission) (w : world) :
  truthy_scalar (get (config w) "api_key") = false
  \/ truthy_scalar (get (config w) "api_secret") = false
  \/ build_sync_data E s = None ->
  exists line, sync_to_cloud C E s w = (false, w, [Log line.1 line.2]).
Proof.
  intros H. unfold sync_to_cloud.
  unfold mbind at 1, M_bind at 1, bind at 1. cbn [gets].
  destruct (truthy_scalar (get (config w) "api_key")) eqn:Hkey; cbn [negb orb];
    [|exists (WARNING, MsgNoCredentials); reflexivity].
  destruct (truthy_scalar (get (config w) "api_secret")) eqn:Hsecret; cbn [negb orb];
    [|exists (WARNING, MsgNoCredentials); reflexivity].
  destruct (build_sync_data E s) eqn:Hdata;
    [|exists (ERROR, MsgSyncException); reflexivity].
  destruct H as [H|[H|H]]; discriminate.
Qed.

(** X1: every request a delivery posts goes to the submit address and carries
    the configured API key, the clock reading taken once before the first
    attempt, the payload built from the submission, and the signature
    [generate_signature] gives for exactly that payload and timestamp. All
    attempts of one delivery therefore post one and the same signed body. *)
Theorem sync_to_cloud_posts_one_signed_request (s : submission) (w : world) :
  Forall (fun e =>
            is_post e = true ->
            exists sync_data signature,
              build_sync_data E s = Some sync_data
              /\ generate_signature (config w) sync_data (Clock.time_time (clock w))
                 = Some signature
              /\ e = Post (submit_url C)
                       {| req_api_key := get (config w) "api_key";
                          req_timestamp := Clock.time_time (clock w);
                          req_signature := signature;
                          req_data := sync_data |})
         (events (sync_to_cloud C E s w)).
Proof.
  apply List.Forall_forall. intros e Hin Hpost.
  destruct (truthy_scalar (get (config w) "api_key")) eqn:Hkey;
    [destruct (truthy_scalar (get (config w) "api_secret")) eqn:Hsecret;
     [destruct (build_sync_data E s) as [sync_data|] eqn:Hdata|]|].
  - rewrite (sync_to_cloud_with_payload s w sync_data Hkey Hsecret Hdata) in Hin.
    cbn zeta in Hin. cbn [events snd] in Hin.
    destruct (post_loop_spec C E (sub_id s)
                (api_data (config w) (clock w) sync_data) w) as (_ & Hio & _).
    assert (Hio' : In e (io_events (events
               (post_attempts C E (sub_id s)
                  (api_data (config w) (clock w) sync_data)
                  (Z.to_nat (max_retries C)) 0 w)))).
    { apply filter_In. split; [exact Hin|]. destruct e; try discriminate; reflexivity. }
    rewrite Hio in Hio'. apply retry_trace_In in Hio' as [->| ->]; [|discriminate].
    exists sync_data.
    exists (MD5.hexdigest (encode_utf8
              (dumps sync_data +:+ pretty (Clock.time_time (clock w))
               +:+ str (get_default (config w) "api_secret" (SStr ""))))).
    assert (Hsig : generate_signature (config w) sync_data (Clock.time_time (clock w))
                   = Some (MD5.hexdigest (encode_utf8
                       (dumps sync_data +:+ pretty (Clock.time_time (clock w))
                        +:+ str (get_default (config w) "api_secret" (SStr "")))))).
    { unfold generate_signature. rewrite truthy_get_default, Hsecret. reflexivity. }
    split; [reflexivity|]. split; [exact Hsig|].
    unfold api_data, submit_url. rewrite Hsig. reflexivity.
  - destruct (sync_to_cloud_without_payload s w (or_intror (or_intror Hdata)))
      as [line Hrun].
    rewrite Hrun in Hin. destruct Hin as [<-|[]]. discriminate.
  - destruct (sync_to_cloud_without_payload s w (or_intror (or_introl Hsecret)))
      as [line Hrun].
    rewrite Hrun in Hin. destruct Hin as [<-|[]]. discriminate.
  - destruct (sync_to_cloud_without_payload s w (or_introl Hkey)) as [line Hrun].
    rewrite Hrun in Hin. destruct Hin as [<-|[]]. discriminate.
Qed.

(** The events of a delivery: requests, waits and log lines. *)
Lemma sync_to_cloud_effects (s : submission) (w : world) :
  Forall (fun e => is_quiet e = true) (events (sync_to_cloud C E s w)).
Proof.
  assert (Hcases :
    (exists line, sync_to_cloud C E s w = (false, w, [Log line.1 line.2]))
    \/ exists body, sync_to_cloud C E s w
          = (let run := post_attempts C E (sub_id s) body
                          (Z.to_nat (max_retries C)) 0 w in
             (result run, final run, events run))).
  { destruct (truthy_scalar (get (config w) "api_key")) eqn:Hkey;
      [destruct (truthy_scalar (get (config w) "api_secret")) eqn:Hsecret;
       [destruct (build_sync_data E s) as [sync_data|] eqn:Hdata|]|].
    - right. eexists. apply (sync_to_cloud_with_payload s w sync_data); assumption.
    - left. apply sync_to_cloud_without_payload. auto.
    - left. apply sync_to_cloud_without_payload. auto.
    - left. apply sync_to_cloud_without_payload. auto. }
  destruct Hcases as [[line ->]|[body ->]]; cbn zeta; cbn [events final fst snd].
  - repeat constructor.
  - apply post_attempts_effects.
Qed.

(** X2: a delivery leaves the store and the configuration alone. The table,
    [self.config] and the configuration file are as before, and all it does
    is post requests, wait and write log lines: no SELECT, no UPDATE, no
    connectivity probe, no write of the configuration. When a credential is
    missing or the payload does not build, it returns [False] after one log
    line, with no request and no wait. *)
Theorem sync_to_cloud_only_talks_and_waits (s : submission) (w : world) :
  let run := sync_to_cloud C E s w in
  same_store w (final run)
  /\ Forall (fun e => is_quiet e = true) (events run)
  /\ (truthy_scalar (get (config w) "api_key") = false
      \/ truthy_scalar (get (config w) "api_secret") = false
      \/ build_sync_data E s = None ->
      result run = false
      /\ existsb is_post (events run) = false
      /\ exists lvl msg, events run = [Log lvl msg]).
Proof.
  cbn zeta. split; [apply sync_to_cloud_frame|].
  split; [apply sync_to_cloud_effects|].
  intros H. destruct (sync_to_cloud_without_payload s w H) as [line ->].
  split; [reflexivity|]. split; [reflexivity|].
  exists line.1, line.2. reflexivity.
Qed.

End DeliveryExtras.

(* ===================================================================== *)
(** * Further properties: the store across a cycle *)
(* ===================================================================== *)

Section CycleExtras.

Import Py Sync Reading Scenario Observing.

Variable C : Settings.
Variable E : env.

Lemma touched_as_inserted (ids : Z -> bool) (t t' : Store.table) :
  Forall2 (touched ids) t t' ->
  Forall2 (fun r r' => as_inserted r' = as_inserted r
                       /\ (Store.synced_to_cloud r = true ->
                           Store.synced_to_cloud r' = true)) t t'.
Proof.
  induction 1 as [|r r' t t' Hr _ IH]; constructor; [|exact IH].
  unfold touched in Hr.
  destruct (ids (Store.id r)); [destruct Hr as [n ->]|subst r']; auto.
Qed.

(** The table after a cycle, against the table before it. *)
Lemma cycle_touches (w : world) :
  exists ids, Forall2 (touched ids) (db w) (db (final (sync_all_pending C E w)))
              /\ forall i, ids i = true ->
                           online E = true /\ sync_enabled w = true
                           /\ marked C E (config w) (batch C E w) i = true.
Proof.
  destruct (online E) eqn:Hon;
    [destruct (sync_enabled w) eqn:Hen;
     [destruct (batch C E w) as [|s subs] eqn:Hbatch|]|].
  - exists (fun _ => false). split; [|discriminate].
    destruct (cycle_without_batch C E w Hon Hen Hbatch) as (_ & -> & _).
    apply touched_none.
  - assert (Hne : batch C E w <> []) by (rewrite Hbatch; discriminate).
    destruct (cycle_with_batch C E w Hon Hen Hne) as (_ & Hdb & _).
    destruct (sync_items_run C E (batch C E w) 0 w) as (_ & _ & _ & Ht & _).
    exists (marked C E (config w) (batch C E w)).
    rewrite Hdb, <- Hbatch. auto.
  - exists (fun _ => false). split; [|discriminate].
    destruct (cycle_skipped C E w (or_intror Hen)) as (_ & -> & _).
    apply touched_none.
  - exists (fun _ => false). split; [|discriminate].
    destruct (cycle_skipped C E w (or_introl Hon)) as (_ & -> & _).
    apply touched_none.
Qed.

(** X3: whatever the environment does, a cycle neither adds, drops nor
    reorders rows, changes no column but [synced_to_cloud] and
    [sync_timestamp], and never takes a row back from synced to unsynced. *)
Theorem cycle_keeps_rows_and_never_unsyncs (w : world) :
  Forall2 (fun r r' => as_inserted r' = as_inserted r
                       /\ (Store.synced_to_cloud r = true ->
                           Store.synced_to_cloud r' = true))
          (db w) (db (final (sync_all_pending C E w))).
Proof.
  destruct (cycle_touches w) as (ids & Ht & _).
  eapply touched_as_inserted, Ht.
Qed.

(** X4: a submission that a cycle delivered and marked is not selected
    again: no later selection on the table the cycle left, under whatever
    settings and environment, contains its id. *)
Theorem delivered_item_is_not_selected_again (w : world) (s : submission)
    (C' : Settings) (E' : env) (w' : world) :
  online E = true -> sync_enabled w = true ->
  In s (batch C E w) -> delivers C E (config w) s = true ->
  update_ok E (sub_id s) = true ->
  db w' = db (final (sync_all_pending C E w)) ->
  Forall (fun s' => sub_id s' <> sub_id s) (batch C' E' w').
Proof.
  intros Hon Hen Hin Hd Hu Hdb.
  assert (Hne : batch C E w <> []) by (intros Hb; rewrite Hb in Hin; destruct Hin).
  destruct (cycle_with_batch C E w Hon Hen Hne) as (_ & Hfinal & _).
  destruct (sync_items_run C E (batch C E w) 0 w) as (_ & _ & _ & Ht & _).
  apply List.Forall_forall. intros s' Hs' Hid.
  destruct (batch_row C' E' w' s' Hs') as (r & Hr & Hns & Hrid & _).
  rewrite Hdb, Hfinal in Hr.
  assert (Hsynced : Store.synced_to_cloud r = true).
  { eapply touched_synced; [exact Ht | exact Hr |].
    apply marked_iff. exists s. rewrite Hrid, Hid. auto. }
  congruence.
Qed.

Lemma touched_unsynced_count (ids : Z -> bool) (t t' : Store.table) :
  Forall2 (touched ids) t t' ->
  Store.unsynced_count t'
  = length (List.filter
              (fun r => negb (Store.synced_to_cloud r) && negb (ids (Store.id r))) t).
Proof.
  unfold Store.unsynced_count.
  induction 1 as [|r r' t t' Hr _ IH]; [reflexivity|].
  unfold touched in Hr. cbn [List.filter].
  destruct (ids (Store.id r)).
  - destruct Hr as [n ->]. cbn [Store.set_synced Store.synced_to_cloud negb].
    rewrite andb_false_r. exact IH.
  - subst r'. rewrite andb_true_r.
    destruct (negb (Store.synced_to_cloud r)); cbn [length]; rewrite IH; reflexivity.
Qed.

Lemma filter_split_length {A : Type} (p q : A -> bool) (l : list A) :
  length (List.filter p l)
  = (length (List.filter (fun a => p a && q a) l)
     + length (List.filter (fun a => p a && negb (q a)) l))%nat.
Proof.
  induction l as [|a l IH]; [reflexivity|].
  cbn [List.filter]. destruct (p a), (q a); cbn [andb negb length]; lia.
Qed.

Lemma same_id_same_row (t : Store.table) (r r' : Store.row) :
  List.NoDup (map Store.id t) -> In r t -> In r' t ->
  Store.id r = Store.id r' -> r = r'.
Proof.
  induction t as [|x t IH]; intros Hnd Hr Hr' Hid; [destruct Hr|].
  inversion Hnd as [|? ? Hnotin Hnd']; subst.
  destruct Hr as [->|Hr], Hr' as [->|Hr']; auto.
  - exfalso. apply Hnotin. rewrite Hid. apply in_map, Hr'.
  - exfalso. apply Hnotin. rewrite <- Hid. apply in_map, Hr.
Qed.

Lemma NoDup_map_inv {A B : Type} (f : A -> B) (l : list A) :
  List.NoDup (map f l) -> List.NoDup l.
Proof.
  induction l as [|a l IH]; intros H; [constructor|].
  inversion H as [|? ? Hnotin Hnd]; subst.
  constructor; [|apply IH, Hnd].
  intros Hin. apply Hnotin, in_map, Hin.
Qed.

(** The rows a batch marks are as many as its items that are delivered and
    whose UPDATE goes through. *)
Lemma marked_rows_count (w : world) :
  List.NoDup (map Store.id (db w)) ->
  length (List.filter
            (fun r => negb (Store.synced_to_cloud r)
                      && marked C E (config w) (batch C E w) (Store.id r)) (db w))
  = length (List.filter
              (fun s => delivers C E (config w) s && update_ok E (sub_id s))
              (batch C E w)).
Proof.
  intros Hkey.
  set (good := fun s => delivers C E (config w) s && update_ok E (sub_id s)).
  set (hit := fun r => negb (Store.synced_to_cloud r)
                       && marked C E (config w) (batch C E w) (Store.id r)).
  rewrite <- (length_map Store.id (List.filter hit (db w))).
  rewrite <- (length_map sub_id (List.filter good (batch C E w))).
  apply Permutation_length, Permutation.NoDup_Permutation.
  - apply NoDup_map_filter, Hkey.
  - apply NoDup_map_filter, batch_ids_distinct, Hkey.
  - intros i. rewrite !in_map_iff. split.
    + intros (r & <- & Hr). apply filter_In in Hr as [Hr Hhit].
      apply andb_prop in Hhit as [_ Hm].
      apply marked_iff in Hm as (s & Hs & Hid & Hd & Hu).
      exists s. split; [exact Hid|]. apply filter_In. split; [exact Hs|].
      unfold good. rewrite Hd, Hu. reflexivity.
    + intros (s & <- & Hs). apply filter_In in Hs as [Hs Hgood].
      apply andb_prop in Hgood as [Hd Hu].
      destruct (batch_row C E w s Hs) as (r & Hr & Hns & Hid & _).
      exists r. split; [exact Hid|]. apply filter_In. split; [exact Hr|].
      unfold hit. rewrite Hns. cbn [negb andb].
      apply marked_iff. exists s. auto.
Qed.

(** X5: over a table with distinct ids, a cycle lowers the number of
    unsynced rows by exactly the number of batch items that were
    acknowledged and whose UPDATE went through, and by nothing when it is
    skipped or selects nothing. In particular a batch delivered and marked in
    full lowers it by the size of the batch. *)
Theorem cycle_lowers_unsynced_count (w : world) :
  List.NoDup (map Store.id (db w)) ->
  let run := sync_all_pending C E w in
  let marked_items :=
    if online E && sync_enabled w
    then List.filter (fun s => delivers C E (config w) s && update_ok E (sub_id s))
                     (batch C E w)
    else [] in
  (Store.unsynced_count (db (final run)) + length marked_items)%nat
  = Store.unsynced_count (db w)
  /\ (online E = true -> sync_enabled w = true ->
      Forall (fun s => delivers C E (config w) s = true
                       /\ update_ok E (sub_id s) = true) (batch C E w) ->
      (Store.unsynced_count (db (final run)) + length (batch C E w))%nat
      = Store.unsynced_count (db w)).
Proof.
  intros Hkey. cbn zeta.
  assert (Hmain :
    (Store.unsynced_count (db (final (sync_all_pending C E w)))
     + length (if online E && sync_enabled w
               then List.filter (fun s => delivers C E (config w) s
                                          && update_ok E (sub_id s)) (batch C E w)
               else []))%nat
    = Store.unsynced_count (db w)).
  { destruct (online E) eqn:Hon;
      [destruct (sync_enabled w) eqn:Hen;
       [destruct (batch C E w) as [|s subs] eqn:Hbatch|]|]; cbn [andb].
    - destruct (cycle_without_batch C E w Hon Hen Hbatch) as (_ & -> & _).
      cbn. lia.
    - assert (Hne : batch C E w <> []) by (rewrite Hbatch; discriminate).
      destruct (cycle_with_batch C E w Hon Hen Hne) as (_ & Hdb & _).
      destruct (sync_items_run C E (batch C E w) 0 w) as (_ & _ & _ & Ht & _).
      rewrite Hdb, <- Hbatch, (touched_unsynced_count _ _ _ Ht).
      rewrite <- (marked_rows_count w Hkey).
      unfold Store.unsynced_count.
      rewrite (filter_split_length (fun r => negb (Store.synced_to_cloud r))
                 (fun r => marked C E (config w) (batch C E w) (Store.id r)) (db w)).
      lia.
    - destruct (cycle_skipped C E w (or_intror Hen)) as (_ & -> & _). cbn. lia.
    - destruct (cycle_skipped C E w (or_introl Hon)) as (_ & -> & _). cbn. lia. }
  split; [exact Hmain|].
  intros Hon Hen Hall. rewrite Hon, Hen in Hmain. cbn [andb] in Hmain.
  rewrite filter_all in Hmain; [exact Hmain|].
  eapply List.Forall_impl; [|exact Hall].
  intros s [-> ->]. reflexivity.
Qed.

Lemma slept_io (evs : list event) : slept (io_events evs) = slept evs.
Proof.
  unfold io_events. induction evs as [|e evs IH]; [reflexivity|].
  destruct e; cbn [List.filter is_io slept fold_right] in *;
    fold (slept evs) in *; fold (slept (List.filter is_io evs)) in *; lia.
Qed.

Lemma retry_trace_slept (url : string) (body : api_request) (delay : Z)
    (outs : list outcome) :
  0 <= delay ->
  0 <= slept (retry_trace url body delay outs)
       <= Z.of_nat (pred (length outs)) * delay.
Proof.
  intros Hdelay. induction outs as [|o outs IH]; [cbn; lia|].
  assert (Hstep : Z.of_nat (pred (length outs)) * delay
                  <= Z.of_nat (pred (length (o :: outs))) * delay).
  { apply Z.mul_le_mono_nonneg_r; [exact Hdelay|]. cbn [length]. lia. }
  cbn [retry_trace slept fold_right].
  destruct o; cbn [slept fold_right];
    try fold (slept (retry_trace url body delay outs)); try lia.
  destruct outs as [|o' outs']; [cbn; lia|].
  cbn [slept fold_right].
  fold (slept (retry_trace url body delay (o' :: outs'))).
  cbn [length pred] in *. nia.
Qed.

(** The waits of one delivery. *)
Lemma sync_to_cloud_slept (s : submission) (w : world) :
  0 <= retry_delay C ->
  0 <= slept (events (sync_to_cloud C E s w))
       <= Z.of_nat (pred (Z.to_nat (max_retries C))) * retry_delay C.
Proof.
  intros Hdelay.
  assert (Hzero : 0 <= Z.of_nat (pred (Z.to_nat (max_retries C))) * retry_delay C)
    by (apply Z.mul_nonneg_nonneg; lia).
  destruct (truthy_scalar (get (config w) "api_key")) eqn:Hkey;
    [destruct (truthy_scalar (get (config w) "api_secret")) eqn:Hsecret;
     [destruct (build_sync_data E s) as [sync_data|] eqn:Hdata|]|].
  - rewrite (sync_to_cloud_with_payload C E s w sync_data Hkey Hsecret Hdata).
    cbn zeta. cbn [events snd].
    destruct (post_loop_spec C E (sub_id s)
                (api_data (config w) (clock w) sync_data) w) as (_ & Hio & _).
    rewrite <- slept_io, Hio.
    pose proof (retry_trace_slept (api_base_url C +:+ "/data/submit")
                  (api_data (config w) (clock w) sync_data) (retry_delay C)
                  (outcomes C E (sub_id s)) Hdelay) as Hb.
    assert (Hlen : length (outcomes C E (sub_id s)) = Z.to_nat (max_retries C))
      by apply outcomes_from_length.
    rewrite Hlen in Hb. exact Hb.
  - destruct (sync_to_cloud_without_payload C E s w
                (or_intror (or_intror Hdata))) as [line ->]. cbn. lia.
  - destruct (sync_to_cloud_without_payload C E s w
                (or_intror (or_introl Hsecret))) as [line ->]. cbn. lia.
  - destruct (sync_to_cloud_without_payload C E s w (or_introl Hkey))
      as [line ->]. cbn. lia.
Qed.

(** The waits of the batch loop. *)
Lemma sync_items_slept (subs : list submission) :
  forall (count : Z) (w : world),
    0 <= retry_delay C ->
    let run := sync_items C E subs count w in
    Z.of_nat (length subs) <= slept (events run)
    <= Z.of_nat (length subs)
       * (1 + Z.of_nat (pred (Z.to_nat (max_retries C))) * retry_delay C).
Proof.
  induction subs as [|s rest IH]; intros count w Hdelay; cbn zeta.
  - cbn. lia.
  - rewrite sync_items_cons. cbn zeta. rewrite item_run. cbn zeta.
    pose proof (sync_to_cloud_slept s w Hdelay) as Hs.
    set (w1 := final (sync_to_cloud C E s w)) in *.
    set (t1 := events (sync_to_cloud C E s w)) in *.
    destruct (delivers C E (config w) s);
      [destruct (update_ok E (sub_id s))|];
      cbn [result final events fst snd];
      match goal with
      | |- context [sync_items _ _ _ ?c ?w2] =>
          pose proof (IH c w2 Hdelay) as Hb; cbn zeta in Hb;
          set (r2 := sync_items C E rest c w2) in *
      end;
      rewrite !slept_app;
      cbn [slept fold_right length]; fold (slept (events r2)); nia.
Qed.

(** X6: how long a cycle waits in [time.sleep]. With a non-negative
    [retry_delay], a cycle that processes a batch of [n] items sleeps at
    least [n] seconds (one per item) and at most
    [n * (1 + (max_retries - 1) * retry_delay)]; a cycle that is skipped or
    selects nothing does not sleep. *)
Theorem cycle_sleeps_within_bounds (w : world) :
  0 <= retry_delay C ->
  let run := sync_all_pending C E w in
  let n := if online E && sync_enabled w then length (batch C E w) else 0%nat in
  Z.of_nat n <= slept (events run)
  <= Z.of_nat n * (1 + Z.of_nat (pred (Z.to_nat (max_retries C))) * retry_delay C).
Proof.
  intros Hdelay. cbn zeta.
  assert (Hsel : slept (events (get_unsynced_submissions C E w)) = 0).
  { unfold get_unsynced_submissions. run.
    destruct (select_ok E); run; [|reflexivity].
    destruct (collect _ _); run; reflexivity. }
  destruct (online E) eqn:Hon;
    [destruct (sync_enabled w) eqn:Hen;
     [destruct (batch C E w) as [|s subs] eqn:Hbatch|]|]; cbn [andb].
  - destruct (cycle_without_batch C E w Hon Hen Hbatch) as (_ & _ & ->).
    rewrite !slept_app, Hsel. cbn. lia.
  - assert (Hne : batch C E w <> []) by (rewrite Hbatch; discriminate).
    destruct (cycle_with_batch C E w Hon Hen Hne) as (_ & _ & _ & _ & _ & Hev).
    pose proof (sync_items_slept (batch C E w) 0 w Hdelay) as Hb. cbn zeta in Hb.
    rewrite Hev, !slept_app, Hsel, <- Hbatch.
    set (t := events (sync_items C E (batch C E w) 0 w)) in *.
    assert (Htail : forall a b l, slept (Log INFO a :: SaveConfig b :: l) = slept l)
      by reflexivity.
    rewrite Htail.
    assert (Hsave : slept match save_result E with
                          | Saved => []
                          | _ => [Log ERROR MsgSaveConfigFailed]
                          end = 0) by (destruct (save_result E); reflexivity).
    rewrite Hsave. cbn [slept fold_right]. lia.
  - destruct (cycle_skipped C E w (or_intror Hen)) as (_ & _ & [->| ->]); cbn; lia.
  - destruct (cycle_skipped C E w (or_introl Hon)) as (_ & _ & [->| ->]); cbn; lia.
Qed.

End CycleExtras.

(* ===================================================================== *)
(** * Further properties: selecting the batch *)
(* ===================================================================== *)

Section SelectionExtras.

Import Py Sync Reading Scenario Observing.

Lemma StronglySorted_app_le {A : Type} (R : A -> A -> Prop) (l1 l2 : list A) :
  StronglySorted R (l1 ++ l2) -> forall x y, In x l1 -> In y l2 -> R x y.
Proof.
  induction l1 as [|a l1 IH]; intros Hs x y Hx Hy; [destruct Hx|].
  cbn [app] in Hs. inversion Hs as [|? ? Hs' Hall]; subst.
  destruct Hx as [->|Hx]; [|apply IH; assumption].
  rewrite List.Forall_forall in Hall. apply Hall, in_or_app. right. exact Hy.
Qed.

(** X7: [ORDER BY timestamp ASC LIMIT ?] keeps the oldest: an unsynced row
    that the selection leaves out is not older than any row it returns. *)
Theorem select_unsynced_leaves_out_only_younger_rows
    (limit : Z) (t : Store.table) (r r' : Store.row) :
  In r (Store.select_unsynced limit t) ->
  In r' t -> Store.synced_to_cloud r' = false ->
  ~ In r' (Store.select_unsynced limit t) ->
  Store.older r r'.
Proof.
  unfold Store.select_unsynced, Store.sql_limit. intros Hr Hr' Hns Hout.
  set (sorted := Store.order_by_timestamp
                   (List.filter (fun r => negb (Store.synced_to_cloud r)) t)) in *.
  assert (Hin : In r' sorted).
  { apply order_by_timestamp_In, filter_In. rewrite Hns. auto. }
  destruct (limit <? 0); [contradiction|].
  pose proof (order_by_timestamp_sorted
                (List.filter (fun r => negb (Store.synced_to_cloud r)) t)) as Hs.
  fold sorted in Hs.
  rewrite <- (firstn_skipn (Z.to_nat limit) sorted) in Hs, Hin.
  apply in_app_or in Hin as [Hin|Hin]; [contradiction|].
  eapply StronglySorted_app_le; eassumption.
Qed.

Lemma to_submission_valid (r : Store.row) :
  to_submission r = None <-> json_valid r = false.
Proof.
  unfold to_submission, json_valid, load_col.
  destruct (Store.data r), (Store.files r); split; intros H;
    try reflexivity; try discriminate.
Qed.

Lemma collect_None {A B : Type} (f : A -> option B) (l : list A) (a : A) :
  In a l -> f a = None -> collect f l = None.
Proof.
  induction l as [|x l IH]; intros Hin Hf; [destruct Hin|].
  cbn [collect]. destruct Hin as [->|Hin].
  - rewrite Hf. reflexivity.
  - destruct (f x); [|reflexivity]. rewrite (IH Hin Hf). reflexivity.
Qed.

Lemma collect_Some {A B : Type} (f : A -> option B) (l : list A) :
  Forall (fun a => f a <> None) l -> exists l', collect f l = Some l'.
Proof.
  induction 1 as [|x l Hx _ [l' IH]]; [exists []; reflexivity|].
  cbn [collect]. destruct (f x) as [b|]; [|congruence].
  rewrite IH. eauto.
Qed.

Variable C : Settings.
Variable E : env.

(** X8: one selected row whose [data] or [files] text is not valid JSON
    empties the whole batch: [get_unsynced_submissions] logs the error and
    returns no submission, and a cycle that passes both checks then returns
    [True], posts nothing and leaves the state as it was, the rows of that
    selection still unsynced. *)
Theorem one_invalid_row_empties_the_batch (w : world) (r : Store.row) :
  In r (Store.select_unsynced (batch_size C) (db w)) ->
  json_valid r = false ->
  batch C E w = []
  /\ In (Log ERROR MsgSelectFailed) (events (get_unsynced_submissions C E w))
  /\ (online E = true -> sync_enabled w = true ->
      let run := sync_all_pending C E w in
      result run = true /\ final run = w
      /\ existsb is_post (events run) = false).
Proof.
  intros Hin Hbad.
  assert (Hget : batch C E w = []
                 /\ In (Log ERROR MsgSelectFailed)
                       (events (get_unsynced_submissions C E w))).
  { unfold batch, get_unsynced_submissions. run.
    destruct (select_ok E); run; [|split; [reflexivity | right; left; reflexivity]].
    rewrite (collect_None to_submission _ r Hin)
      by (apply to_submission_valid, Hbad).
    run. split; [reflexivity | right; left; reflexivity]. }
  destruct Hget as [Hbatch Hlog].
  split; [exact Hbatch|]. split; [exact Hlog|].
  intros Hon Hen. cbn zeta.
  destruct (cycle_without_batch C E w Hon Hen Hbatch) as (Hr & Hf & Hev).
  split; [exact Hr|]. split; [exact Hf|].
  rewrite Hev, !existsb_app.
  destruct (selection_quiet C E w) as (_ & _ & ->). reflexivity.
Qed.

(** With a working SELECT and valid JSON in the selected rows, the batch is
    the selection, one submission per row. *)
Lemma batch_of_valid_selection (w : world) :
  select_ok E = true ->
  Forall (fun r => json_valid r = true)
         (Store.select_unsynced (batch_size C) (db w)) ->
  Forall2 (fun r s => to_submission r = Some s)
          (Store.select_unsynced (batch_size C) (db w)) (batch C E w).
Proof.
  intros Hok Hvalid.
  assert (Hsome : exists subs,
             collect to_submission (Store.select_unsynced (batch_size C) (db w))
             = Some subs).
  { apply collect_Some. eapply List.Forall_impl; [|exact Hvalid].
    intros r Hr Hnone. apply to_submission_valid in Hnone. congruence. }
  destruct Hsome as [subs Hsubs].
  assert (Hbatch : batch C E w = subs).
  { unfold batch, get_unsynced_submissions. run. rewrite Hok. run.
    rewrite Hsubs. run. reflexivity. }
  rewrite Hbatch. apply collect_Forall2, Hsubs.
Qed.

(** Every unsynced row is in such a batch when the limit leaves room. *)
Lemma batch_holds_every_unsynced_row (w : world) (r : Store.row) :
  select_ok E = true ->
  Forall (fun r => json_valid r = true)
         (Store.select_unsynced (batch_size C) (db w)) ->
  Z.of_nat (Store.unsynced_count (db w)) <= batch_size C ->
  In r (db w) -> Store.synced_to_cloud r = false ->
  exists s, In s (batch C E w) /\ to_submission r = Some s.
Proof.
  intros Hok Hvalid Hroom Hr Hns.
  pose proof (batch_of_valid_selection w Hok Hvalid) as Hsubs.
  pose proof (select_unsynced_all (batch_size C) (db w) r Hroom Hr Hns) as Hsel.
  clear Hvalid.
  induction Hsubs as [|r0 s rows subs Hrs _ IH]; [destruct Hsel|].
  destruct Hsel as [->|Hsel].
  - exists s. split; [left; reflexivity | exact Hrs].
  - destruct IH as (s' & Hs' & Hrs'); [exact Hsel|].
    exists s'. split; [right|]; assumption.
Qed.

(** X9: when the SELECT works and the selected rows hold valid JSON, the
    batch is the selection, row by row: its ids are those of the selected
    rows in their order, and it has [min batch_size n] submissions for [n]
    unsynced rows (a non-negative [batch_size]); so every unsynced row is in
    the batch when the limit leaves room for all. *)
Theorem batch_is_the_selection (w : world) :
  select_ok E = true ->
  Forall (fun r => json_valid r = true)
         (Store.select_unsynced (batch_size C) (db w)) ->
  0 <= batch_size C ->
  map sub_id (batch C E w)
  = map Store.id (Store.select_unsynced (batch_size C) (db w))
  /\ length (batch C E w)
     = Nat.min (Z.to_nat (batch_size C)) (Store.unsynced_count (db w))
  /\ (Z.of_nat (Store.unsynced_count (db w)) <= batch_size C ->
      forall r, In r (db w) -> Store.synced_to_cloud r = false ->
                exists s, In s (batch C E w) /\ to_submission r = Some s).
Proof.
  intros Hok Hvalid Hlimit.
  pose proof (batch_of_valid_selection w Hok Hvalid) as Hsubs.
  assert (Hids : map sub_id (batch C E w)
                 = map Store.id (Store.select_unsynced (batch_size C) (db w))).
  { clear Hvalid.
    induction Hsubs as [|r s rows subs Hrs _ IH]; [reflexivity|].
    apply to_submission_fields in Hrs as [Hid _]. simpl. congruence. }
  split; [exact Hids|]. split.
  - rewrite <- (length_map sub_id), Hids, length_map.
    unfold Store.select_unsynced, Store.sql_limit, Store.unsynced_count.
    destruct (batch_size C <? 0) eqn:Hneg; [lia|].
    rewrite length_firstn, order_by_timestamp_length. reflexivity.
  - intros Hroom r Hr Hns.
    apply batch_holds_every_unsynced_row; assumption.
Qed.

End SelectionExtras.

(* ===================================================================== *)
(** * Further properties: the signature and the payload *)
(* ===================================================================== *)

Section SignerExtras.

Import Py Sync Reading Scenario Observing.

Lemma insert_by_key_swap (x y : string * string) (l : list (string * string)) :
  fst x <> fst y ->
  insert_by_key x (insert_by_key y l) = insert_by_key y (insert_by_key x l).
Proof.
  intros Hne.
  assert (Hxy : String.leb (fst x) (fst y) = true -> String.leb (fst y) (fst x) = false).
  { intros H. destruct (String.leb (fst y) (fst x)) eqn:H'; [|reflexivity].
    exfalso. apply Hne, String.leb_antisym; assumption. }
  assert (Htot : String.leb (fst x) (fst y) = false -> String.leb (fst y) (fst x) = true).
  { intros H. destruct (String.leb_total (fst x) (fst y)); congruence. }
  induction l as [|z l IH]; cbn [insert_by_key].
  - destruct (String.leb (fst x) (fst y)) eqn:H1.
    + rewrite (Hxy eq_refl). reflexivity.
    + rewrite (Htot eq_refl). reflexivity.
  - destruct (String.leb (fst y) (fst z)) eqn:Hyz;
      destruct (String.leb (fst x) (fst z)) eqn:Hxz; cbn [insert_by_key].
    + destruct (String.leb (fst x) (fst y)) eqn:H1.
      * rewrite (Hxy eq_refl), Hyz. reflexivity.
      * rewrite (Htot eq_refl), Hxz. reflexivity.
    + assert (H1 : String.leb (fst x) (fst y) = false).
      { destruct (String.leb (fst x) (fst y)) eqn:H; [|reflexivity].
        rewrite (string_leb_trans _ _ _ H Hyz) in Hxz. discriminate. }
      rewrite H1, Hyz, Hxz. reflexivity.
    + assert (H1 : String.leb (fst y) (fst x) = false).
      { destruct (String.leb (fst y) (fst x)) eqn:H; [|reflexivity].
        rewrite (string_leb_trans _ _ _ H Hxz) in Hyz. discriminate. }
      rewrite Hxz, H1, Hyz. reflexivity.
    + rewrite Hxz, Hyz, IH. reflexivity.
Qed.

Lemma sort_by_key_perm (l l' : list (string * string)) :
  Permutation l l' -> List.NoDup (map fst l) -> sort_by_key l = sort_by_key l'.
Proof.
  induction 1 as [|x l l' Hp IH|x y l|l l' l'' Hp1 IH1 Hp2 IH2]; intros Hnd.
  - reflexivity.
  - cbn [sort_by_key foldr]. fold (sort_by_key l). fold (sort_by_key l').
    rewrite IH; [reflexivity|]. inversion Hnd; assumption.
  - cbn [sort_by_key foldr]. fold (sort_by_key l).
    apply insert_by_key_swap.
    inversion Hnd as [|? ? Hnotin _]; subst. intros Heq. apply Hnotin.
    left. symmetry. exact Heq.
  - rewrite IH1 by exact Hnd. apply IH2.
    eapply Permutation.Permutation_NoDup; [|exact Hnd].
    apply Permutation_map, Hp1.
Qed.

(** The items of an object, each value rendered. *)
Lemma dumps_object (kvs : list (string * jval)) :
  dumps (JObj kvs)
  = "{" +:+ join ", " (map (fun kv => quote (fst kv) +:+ ": " +:+ snd kv)
                          (sort_by_key (map (fun kv => (fst kv, dumps (snd kv))) kvs)))
        +:+ "}".
Proof.
  assert (H : forall l,
             (fix items (l : list (string * jval)) : list (string * string) :=
                match l with
                | [] => []
                | (k, x) :: rest => (k, dumps x) :: items rest
                end) l
             = map (fun kv => (fst kv, dumps (snd kv))) l).
  { induction l as [|[k x] l IH]; [reflexivity|].
    cbn [map fst snd]. rewrite <- IH. reflexivity. }
  cbn [dumps]. rewrite H. reflexivity.
Qed.

(** X10: the signature does not depend on the order in which the payload
    lists its keys ([sort_keys=True]): two payloads with the same items, the
    keys distinct, get the same signature under every configuration and
    timestamp. *)
Theorem signature_ignores_key_order (config : gmap string scalar)
    (kvs kvs' : list (string * jval)) (timestamp : Z) :
  Permutation kvs kvs' -> List.NoDup (map fst kvs) ->
  dumps (JObj kvs) = dumps (JObj kvs')
  /\ generate_signature config (JObj kvs) timestamp
     = generate_signature config (JObj kvs') timestamp.
Proof.
  intros Hp Hnd.
  assert (Hd : dumps (JObj kvs) = dumps (JObj kvs')).
  { rewrite !dumps_object. do 4 f_equal. apply sort_by_key_perm.
    - apply Permutation_map, Hp.
    - rewrite map_map. cbn [fst]. exact Hnd. }
  split; [exact Hd|]. unfold generate_signature. rewrite Hd. reflexivity.
Qed.

End SignerExtras.

Section PayloadExtras.

Import Py Sync Reading Scenario Observing.

Variable E : env.

Lemma after_last_no_separator (c : ascii) (s : string) :
  contains_char c s = true -> contains_char c (after_last c s) = false.
Proof.
  induction s as [|a s IH]; [discriminate|].
  cbn [contains_char after_last]. intros H.
  destruct (contains_char c s) eqn:Hrest; [apply IH; reflexivity|].
  rewrite orb_false_r in H. rewrite H. exact Hrest.
Qed.

Lemma collect_file_info (fs : list jval) (infos : list jval) :
  collect file_info fs = Some infos ->
  Forall2 (fun f info =>
             exists kvs name size ty,
               f = JObj kvs
               /\ item kvs "original_name" = Some name
               /\ item kvs "size" = Some size
               /\ file_type name = Some ty
               /\ info = JObj [("name", name); ("size", size); ("type", ty)])
          fs infos.
Proof.
  intros H. apply collect_Forall2 in H.
  induction H as [|f info fs infos Hf _ IH]; constructor; [|exact IH].
  unfold file_info in Hf.
  destruct f as [| | | | |kvs]; try discriminate.
  destruct (item kvs "original_name") as [name|] eqn:Hn; [|discriminate].
  destruct (item kvs "size") as [size|] eqn:Hs; [|discriminate].
  destruct (file_type name) as [ty|] eqn:Ht; [|discriminate].
  injection Hf as <-. exists kvs, name, size, ty. auto.
Qed.

(** X11: of the attachments of a submission the payload carries metadata
    only. When the payload builds, its [files] entry is absent for a
    submission without attachments, and otherwise lists one object per
    attachment, in order, with exactly the keys [name], [size] and [type],
    the first two copied from [original_name] and [size]; the stored name
    and the path of the file are not sent. The type sent for a file name
    with a dot is what follows its last dot, and has no dot itself. *)
Theorem payload_lists_attachment_metadata_only (s : submission) (payload : jval) :
  build_sync_data E s = Some payload ->
  (if truthy (sub_files s)
   then exists attachments infos,
          sub_files s = JList attachments
          /\ payload_files payload = Some (JList infos)
          /\ Forall2 (fun f info =>
                        exists kvs name size ty,
                          f = JObj kvs
                          /\ item kvs "original_name" = Some name
                          /\ item kvs "size" = Some size
                          /\ keys_of info = Some ["name"; "size"; "type"]
                          /\ info = JObj [("name", name); ("size", size); ("type", ty)]
                          /\ forall n, name = JStr n -> contains_char "." n = true ->
                                       ty = JStr (after_last "." n)
                                       /\ contains_char "." (after_last "." n) = false)
                     attachments infos
   else payload_files payload = None).
Proof.
  unfold build_sync_data. intros H.
  destruct (truthy (sub_files s)) eqn:Htruthy.
  - destruct (sub_files s) as [| | | |fs|] eqn:Hfiles; try discriminate.
    destruct (collect file_info fs) as [infos|] eqn:Hc; [|discriminate].
    injection H as <-. exists fs, infos.
    split; [reflexivity|]. split; [reflexivity|].
    apply collect_file_info in Hc.
    eapply Forall2_impl; [exact Hc|].
    intros f info (kvs & name & size & ty & -> & Hn & Hs & Ht & ->).
    exists kvs, name, size, ty. repeat split; try assumption.
    + subst name. cbn [file_type] in Ht. rewrite H0 in Ht. congruence.
    + apply after_last_no_separator. assumption.
  - injection H as <-. reflexivity.
Qed.

End PayloadExtras.

(* ===================================================================== *)
(** * Further properties: configuration, start-up, marking, QR codes *)
(* ===================================================================== *)

Section ConfigExtras.

Import Py Sync Reading Scenario Observing.

Variable C : Settings.
Variable E : env.

(** X12: what [load_config] reads after a [save_config]. A write that went
    through is read back unchanged, with no further write and no log line.
    A write that failed after the file was opened leaves a file that loads
    as the empty configuration, credentials and [sync_enabled] gone. A write
    that failed before that leaves what was there. *)
Theorem load_after_save (content : gmap string scalar) (w : world) :
  let saved := save_config E content w in
  let loaded := load_config E (final saved) in
  match save_result E with
  | Saved =>
      result loaded = Dict content /\ final loaded = final saved
      /\ events loaded = []
  | SaveRaisedLate =>
      result loaded = Dict ∅ /\ final loaded = final saved
      /\ events loaded = [Log ERROR MsgLoadConfigFailed]
      /\ match result loaded with
         | Dict read =>
             truthy_scalar (get read "api_key") = false
             /\ truthy_scalar (get read "sync_enabled") = false
         | NotDict => False
         end
  | SaveRaisedEarly =>
      final saved = w /\ loaded = load_config E w
  end.
Proof.
  cbn zeta. rewrite save_config_run.
  destruct (save_result E); cbn [final fst snd]; unfold load_config; run;
    repeat split.
Qed.

(** [load_config] by the state of the file. *)
Lemma load_config_run (w : world) :
  load_config E w
  = match config_file w with
    | FileJson content => (Dict content, w, [])
    | FileOther => (NotDict, w, [])
    | FileCorrupt => (Dict ∅, w, [Log ERROR MsgLoadConfigFailed])
    | FileAbsent =>
        (Dict default_config, final (save_config E default_config w),
         events (save_config E default_config w))
    end.
Proof.
  unfold load_config. unfold mbind at 1, M_bind at 1, bind at 1. cbn [gets].
  destruct (config_file w); try reflexivity.
  unfold mbind, M_bind, bind.
  destruct (save_config E default_config w) as [[u w'] t].
  cbn [mret M_ret ret final events fst snd]. rewrite app_nil_r. reflexivity.
Qed.

(** X13: [main] does not start a cycle without an API key in the
    configuration file. When the file is absent, unreadable, holds an object
    with no truthy [api_key], or holds JSON that is not an object, [main]
    probes nothing, reads and writes no row and posts nothing, whatever
    [self.config] held before, and the table is as it was. On JSON that is
    not an object it raises [AttributeError] right after its first log
    line, the state untouched; in the other cases it returns, its last line
    being the warning. *)
Theorem main_without_api_key_does_not_sync (w : world) :
  match config_file w with
  | FileJson content => truthy_scalar (get content "api_key") = false
  | _ => True
  end ->
  let run := main C E w in
  existsb is_sync_activity (events run) = false
  /\ db (final run) = db w
  /\ match config_file w with
     | FileOther =>
         result run = RaisesAttributeError
         /\ events run = [Log INFO MsgServiceStart]
         /\ final run = w
     | _ =>
         result run = Returns
         /\ List.last (events run) (Log INFO MsgServiceEnd)
            = Log WARNING MsgNoApiKey
     end.
Proof.
  intros Hkey. cbn zeta. unfold main, init.
  unfold mbind, M_bind, bind. cbn [log emit modify gets].
  rewrite load_config_run.
  destruct (config_file w) as [| | |content].
  - rewrite save_config_run.
    destruct (save_result E); cbn; repeat split.
  - cbn. repeat split.
  - cbn. repeat split.
  - unfold modify, mret, M_ret, ret. cbv beta iota zeta. rewrite Hkey. cbn. repeat split.
Qed.

(** X14: marking changes the rows of one id only. After a
    [mark_as_synced] whose UPDATE goes through, every row with that id is
    synced and the rows of all other ids are as before, in their places; and
    for an id that has no row the table is unchanged and no error is
    logged. *)
Theorem mark_as_synced_touches_only_its_id (sid : Z) (w : world) :
  update_ok E sid = true ->
  let run := mark_as_synced E sid w in
  (forall r, In r (db (final run)) -> Store.id r = sid ->
             Store.synced_to_cloud r = true)
  /\ Forall2 (fun r r' => Store.id r' = Store.id r
                          /\ (Store.id r <> sid -> r' = r)) (db w) (db (final run))
  /\ ((forall r, In r (db w) -> Store.id r <> sid) ->
      db (final run) = db w /\ events run = [Update sid]).
Proof.
  intros Hok. cbn zeta. rewrite mark_as_synced_run, Hok.
  cbn [final events fst snd db with_db].
  set (now := Clock.current_timestamp (clock w)).
  split; [|split].
  - intros r Hin Hid. unfold Store.update_synced in Hin.
    apply in_map_iff in Hin as (r0 & Hr0 & _).
    destruct (Store.id r0 =? sid) eqn:H0; subst r; [reflexivity|].
    apply Z.eqb_neq in H0. contradiction.
  - unfold Store.update_synced.
    induction (db w) as [|r t IH]; cbn [map]; constructor; [|exact IH].
    destruct (Store.id r =? sid) eqn:H0.
    + split; [reflexivity|]. apply Z.eqb_eq in H0. contradiction.
    + auto.
  - intros Hnone. split; [|reflexivity].
    unfold Store.update_synced.
    induction (db w) as [|r t IH]; [reflexivity|].
    cbn [map]. rewrite IH by (intros r' Hr'; apply Hnone; right; exact Hr').
    assert (H0 : (Store.id r =? sid) = false)
      by (apply Z.eqb_neq, Hnone; left; reflexivity).
    rewrite H0. reflexivity.
Qed.

End ConfigExtras.

Section QrExtras.

Import Py Sync Reading Scenario Observing QrCode.

(** X15: [create_qr_code_for_data] makes at most one request and never
    raises. Without an API key it makes none and returns [None]. A value
    other than [None] is returned only for an answer with status 200 whose
    JSON object has a truthy [success], and is then its [qr_url]; the one
    request went to [/qr/create] with the address of the submission, and
    submissions with different ids get different addresses. *)
Theorem create_qr_code_for_data_returns_the_url_of_an_accepted_request
    (C : Settings) (config : gmap string scalar) (answer : post_result)
    (s : submission) :
  let run := create_qr_code_for_data C config answer s in
  (length (List.filter (fun e => match e with QrPost _ _ => true | _ => false end)
                       run.2) <= 1)%nat
  /\ (truthy_scalar (get config "api_key") = false -> run = (JNull, []))
  /\ (run.1 <> JNull ->
      exists resp result,
        answer = PostReturns resp /\ status_code resp = 200
        /\ json resp = JsonValue (JObj result)
        /\ truthy (dict_get result "success") = true
        /\ run.1 = dict_get result "qr_url"
        /\ run.2 = [QrPost (api_base_url C +:+ "/qr/create")
                      {| qr_api_key := get config "api_key";
                         qr_text := data_url s;
                         qr_size := "200x200";
                         qr_format := "png" |}])
  /\ (forall s', sub_id s' <> sub_id s -> data_url s' <> data_url s).
Proof.
  cbn zeta. unfold create_qr_code_for_data.
  split; [|split; [|split]].
  - destruct (truthy_scalar (get config "api_key")); cbn [negb]; [|cbn; lia].
    destruct answer as [e|resp]; [cbn; lia|].
    destruct (status_code resp =? 200); [|cbn; lia].
    destruct (json resp) as [e|[| | | | |result]]; try (cbn; lia).
    destruct (truthy (dict_get result "success")); cbn; lia.
  - intros ->. reflexivity.
  - destruct (truthy_scalar (get config "api_key")); cbn [negb];
      [|intros H; exfalso; apply H; reflexivity].
    destruct answer as [e|resp]; [intros H; exfalso; apply H; reflexivity|].
    destruct (status_code resp =? 200) eqn:Hstatus;
      [|intros H; exfalso; apply H; reflexivity].
    destruct (json resp) as [e|[| | | | |result]] eqn:Hjson;
      try (intros H; exfalso; apply H; reflexivity).
    destruct (truthy (dict_get result "success")) eqn:Hsuccess;
      [|intros H; exfalso; apply H; reflexivity].
    intros _. exists resp, result. apply Z.eqb_eq in Hstatus. repeat split; assumption.
  - intros s' Hne Heq. apply Hne. unfold data_url in Heq.
    assert (Hinj : forall a b c, a +:+ b = a +:+ c -> b = c).
    { induction a as [|x a IH]; intros b c H; [exact H|].
      cbn in H. injection H as H. apply IH, H. }
    apply Hinj in Heq. apply (inj pretty) in Heq. exact Heq.
Qed.

End QrExtras.

(* ===================================================================== *)
(** * Further properties: the collecting server *)
(* ===================================================================== *)

Section ServerExtras.

Import Py Sync Reading Scenario Observing App ServerReading.

Lemma NoDup_app_iff_own {A : Type} (l1 l2 : list A) :
  List.NoDup l1 -> List.NoDup l2 ->
  (forall x, In x l1 -> ~ In x l2) -> List.NoDup (l1 ++ l2).
Proof.
  induction l1 as [|a l1 IH]; intros H1 H2 Hdis; [exact H2|].
  inversion H1 as [|? ? Hnotin Hnd]; subst. cbn [app]. constructor.
  - intros Hin. apply in_app_or in Hin as [Hin|Hin]; [contradiction|].
    apply (Hdis a); [left; reflexivity | exact Hin].
  - apply IH; [exact Hnd | exact H2 |].
    intros x Hx. apply Hdis. right. exact Hx.
Qed.

Lemma save_files_frame (E : server_env) (fs : list upload) :
  forall (file_info : list jval) (s : server),
    rows (save_files E fs file_info s).2 = rows s
    /\ sequence (save_files E fs file_info s).2 = sequence s
    /\ now (save_files E fs file_info s).2 = now s.
Proof.
  induction fs as [|file rest IH]; intros file_info s; cbn [save_files].
  - repeat split.
  - destruct (String.eqb (filename file) ""); [apply IH|].
    destruct (file_save_ok E _); [|repeat split].
    match goal with
    | |- context [save_files E rest ?i ?s'] => destruct (IH i s') as (H1 & H2 & H3)
    end.
    rewrite H1, H2, H3. repeat split.
Qed.

Lemma max_id_bound (t : Store.table) (r : Store.row) :
  In r t -> Store.id r <= max_id t.
Proof.
  induction t as [|x t IH]; intros Hin; [destruct Hin|].
  cbn [max_id foldr]. fold (max_id t).
  destruct Hin as [->|Hin]; [lia|]. specialize (IH Hin). lia.
Qed.

Lemma unsynced_count_app (t1 t2 : Store.table) :
  Store.unsynced_count (t1 ++ t2)
  = (Store.unsynced_count t1 + Store.unsynced_count t2)%nat.
Proof.
  unfold Store.unsynced_count. rewrite List.filter_app, length_app. reflexivity.
Qed.

(** [save_submission], by what it returns. *)
Lemma save_submission_run (E : server_env) (form_type : string) (data : jval)
    (fs : list upload) (ip_address user_agent : option string) (s : server) :
  let run := save_submission E form_type data fs ip_address user_agent s in
  match run.1.1 with
  | Some id =>
      next_rowid s = Some id
      /\ run.2 = [LogSaved id]
      /\ sequence run.1.2 = id
      /\ exists file_info,
           rows run.1.2
           = rows s ++ [new_row id (now s) form_type data file_info
                          ip_address user_agent]
  | None => rows run.1.2 = rows s /\ sequence run.1.2 = sequence s /\ run.2 = []
  end.
Proof.
  cbn zeta. unfold save_submission.
  destruct (connect_ok E); cbn [negb]; [|repeat split].
  destruct (save_files_frame E fs [] s) as (Hrows & Hseq & Hnow).
  destruct (save_files E fs [] s) as [[file_info|] s1]; cbn [fst snd] in *;
    [|repeat split; assumption].
  destruct (insert_ok E); [|repeat split; assumption].
  unfold next_rowid. rewrite Hrows, Hseq.
  destruct (largest_rowid <=? Z.max (sequence s) (max_id (rows s)));
    cbn [fst snd rows sequence]; [repeat split; assumption|].
  split; [reflexivity|]. split; [reflexivity|]. split; [reflexivity|].
  exists file_info. rewrite ?Hrows, ?Hnow. reflexivity.
Qed.

Lemma next_rowid_fresh (s : server) (id : Z) :
  next_rowid s = Some id ->
  sequence s < id /\ forall r, In r (rows s) -> Store.id r < id.
Proof.
  unfold next_rowid.
  destruct (largest_rowid <=? Z.max (sequence s) (max_id (rows s)));
    [discriminate|].
  intros H. injection H as <-. split; [lia|].
  intros r Hr. pose proof (max_id_bound _ _ Hr). lia.
Qed.

(** X16: a [save_submission] that returns an id has appended exactly one
    row, unsynced and with no sync time, under that id; the id is larger
    than every id in the table and than every id handed out before, so ids
    stay distinct and the next successful call returns a larger one. A call
    that raises leaves the table and the id counter as they were. *)
Theorem save_submission_appends_a_fresh_unsynced_row
    (E : server_env) (form_type : string) (data : jval) (fs : list upload)
    (ip_address user_agent : option string) (s : server) :
  let run := save_submission E form_type data fs ip_address user_agent s in
  match run.1.1 with
  | Some id =>
      (exists file_info,
         rows run.1.2
         = rows s ++ [new_row id (now s) form_type data file_info
                        ip_address user_agent])
      /\ (forall r, In r (rows s) -> Store.id r < id)
      /\ sequence s < id /\ sequence run.1.2 = id
      /\ (List.NoDup (map Store.id (rows s)) ->
          List.NoDup (map Store.id (rows run.1.2)))
      /\ Store.unsynced_count (rows run.1.2) = S (Store.unsynced_count (rows s))
      /\ (forall E' form_type' data' fs' ip' agent' id',
            (save_submission E' form_type' data' fs' ip' agent' run.1.2).1.1
            = Some id' -> id < id')
  | None => rows run.1.2 = rows s /\ sequence run.1.2 = sequence s
  end.
Proof.
  cbn zeta.
  pose proof (save_submission_run E form_type data fs ip_address user_agent s) as H.
  cbn zeta in H.
  destruct (save_submission E form_type data fs ip_address user_agent s)
    as [[[id|] s'] logs]; cbn [fst snd] in *; [|tauto].
  destruct H as (Hnext & _ & Hseq & file_info & Hrows).
  apply next_rowid_fresh in Hnext as [Hlt Hfresh].
  split; [eauto|]. split; [exact Hfresh|]. split; [exact Hlt|].
  split; [exact Hseq|]. split; [|split].
  - intros Hnd. rewrite Hrows, map_app. cbn [map new_row Store.id].
    apply NoDup_app_iff_own; [exact Hnd | repeat constructor; intros [] |].
    intros i Hi [<-|[]]. apply in_map_iff in Hi as (r & Hr & Hin).
    specialize (Hfresh r Hin). lia.
  - rewrite Hrows, unsynced_count_app. cbn. lia.
  - intros E' ft' data' fs' ip' agent' id' H'.
    pose proof (save_submission_run E' ft' data' fs' ip' agent' s') as H2.
    cbn zeta in H2. rewrite H' in H2. destruct H2 as (Hnext' & _).
    apply next_rowid_fresh in Hnext' as [Hlt' _]. lia.
Qed.

(** X17: a saved submission comes back in the next batch. After a
    [save_submission] that returned an id, on a table whose other rows hold
    valid JSON and with room under [batch_size], a working
    [get_unsynced_submissions] returns a submission with that id and with
    the form type, the data, the address and the insertion time it was saved
    with. *)
Theorem saved_submission_is_in_the_next_batch
    (E : server_env) (form_type : string) (data : jval) (fs : list upload)
    (ip_address user_agent : option string) (s : server)
    (C : Settings) (Es : env) (w : world) (id : Z) :
  (save_submission E form_type data fs ip_address user_agent s).1.1 = Some id ->
  db w = rows (save_submission E form_type data fs ip_address user_agent s).1.2 ->
  select_ok Es = true ->
  Forall (fun r => json_valid r = true) (rows s) ->
  Z.of_nat (Store.unsynced_count (rows s)) < batch_size C ->
  exists sub,
    In sub (batch C Es w)
    /\ sub_id sub = id
    /\ sub_form_type sub = Some form_type
    /\ sub_data sub = data
    /\ sub_ip_address sub = ip_address
    /\ sub_timestamp sub = Clock.current_timestamp (now s).
Proof.
  intros Hid Hdb Hok Hvalid Hroom.
  pose proof (save_submission_run E form_type data fs ip_address user_agent s) as H.
  cbn zeta in H. rewrite Hid in H.
  destruct H as (_ & _ & _ & file_info & Hrows).
  rewrite Hrows in Hdb.
  set (row := new_row id (now s) form_type data file_info ip_address user_agent) in *.
  assert (Hrow_valid : json_valid row = true) by (destruct file_info; reflexivity).
  assert (Hall : Forall (fun r => json_valid r = true) (db w)).
  { rewrite Hdb. apply Forall_app. split; [exact Hvalid | repeat constructor].
    exact Hrow_valid. }
  assert (Hsel : Forall (fun r => json_valid r = true)
                        (Store.select_unsynced (batch_size C) (db w))).
  { rewrite List.Forall_forall in Hall. apply List.Forall_forall. intros r Hr.
    apply Hall. apply select_unsynced_In in Hr. tauto. }
  assert (Hcount : Z.of_nat (Store.unsynced_count (db w)) <= batch_size C).
  { rewrite Hdb, unsynced_count_app. cbn. lia. }
  destruct (batch_holds_every_unsynced_row C Es w row Hok Hsel Hcount)
    as (sub & Hin & Hsub).
  { rewrite Hdb. apply in_or_app. right. left. reflexivity. }
  { reflexivity. }
  exists sub. split; [exact Hin|].
  unfold to_submission in Hsub.
  destruct file_info; cbn in Hsub; injection Hsub as <-; repeat split.
Qed.

End ServerExtras.

(* ===================================================================== *)
(** * Further properties: the statistics and the listing of the server *)
(* ===================================================================== *)

Section StatsExtras.

Import Py Sync Reading Scenario Observing App ServerReading.

Lemma counted_insert_fresh (m : gmap (option string) nat) (k : option string) (n : nat) :
  m !! k = None -> counted (<[k := n]> m) = (n + counted m)%nat.
Proof.
  intros Hk. unfold counted.
  rewrite map_fold_insert_L; [reflexivity | intros; lia | exact Hk].
Qed.

Lemma counted_delete (m : gmap (option string) nat) (k : option string) (n : nat) :
  m !! k = Some n -> counted m = (n + counted (delete k m))%nat.
Proof.
  intros Hk. unfold counted.
  rewrite (map_fold_delete_L _ _ k n m); [reflexivity | intros; lia | exact Hk].
Qed.

Lemma counted_count_by_form_type (t : Store.table) :
  counted (count_by_form_type t) = length t.
Proof.
  induction t as [|r t IH]; [reflexivity|].
  cbn [count_by_form_type foldr length].
  fold (count_by_form_type t).
  set (m := count_by_form_type t) in *. set (k := Store.form_type r).
  destruct (m !! k) as [n|] eqn:Hk; cbn [default].
  - rewrite <- insert_delete_eq.
    rewrite counted_insert_fresh by apply lookup_delete_eq.
    rewrite (counted_delete m k n Hk) in IH. unfold id. lia.
  - rewrite counted_insert_fresh by exact Hk. lia.
Qed.

Lemma lookup_count_by_form_type (t : Store.table) (k : option string) :
  count_by_form_type t !! k
  = match length (of_type k t) with
    | O => None
    | S n => Some (S n)
    end.
Proof.
  induction t as [|r t IH]; [reflexivity|].
  cbn [count_by_form_type foldr]. fold (count_by_form_type t).
  unfold of_type in *. cbn [List.filter].
  destruct (decide (Store.form_type r = k)) as [Heq|Hne].
  - rewrite (bool_decide_eq_true_2 _ Heq). rewrite Heq, lookup_insert_eq, IH.
    cbn [length]. destruct (length _); reflexivity.
  - rewrite (bool_decide_eq_false_2 _ Hne).
    rewrite lookup_insert_ne by exact Hne. exact IH.
Qed.

Lemma filter_length_le {A : Type} (p : A -> bool) (l : list A) :
  (length (List.filter p l) <= length l)%nat.
Proof.
  induction l as [|a l IH]; [reflexivity|].
  cbn [List.filter]. destruct (p a); cbn [length]; lia.
Qed.

Lemma count_by_form_type_key (t : Store.table) (k : option string) :
  is_Some (count_by_form_type t !! k)
  <-> exists r, In r t /\ Store.form_type r = k.
Proof.
  rewrite lookup_count_by_form_type. unfold of_type. split.
  - destruct (List.filter _ t) as [|r l] eqn:Hf; cbn [length].
    + intros [n Hn]. discriminate.
    + intros _. exists r.
      assert (Hin : In r (List.filter
                            (fun r => bool_decide (Store.form_type r = k)) t))
        by (rewrite Hf; left; reflexivity).
      apply filter_In in Hin as [Hin Hk]. split; [exact Hin|].
      apply bool_decide_eq_true_1 in Hk. exact Hk.
  - intros (r & Hin & Hk).
    assert (Hr : In r (List.filter
                         (fun r => bool_decide (Store.form_type r = k)) t)).
    { apply filter_In. split; [exact Hin|]. apply bool_decide_eq_true_2, Hk. }
    destruct (List.filter _ t); [destruct Hr|]. cbn [length]. eauto.
Qed.

Lemma existsb_keys (p : option string -> bool) (m : gmap (option string) nat) :
  existsb p (map fst (map_to_list m)) = true
  <-> exists k, is_Some (m !! k) /\ p k = true.
Proof.
  rewrite existsb_exists. split.
  - intros (k & Hin & Hp). apply in_map_iff in Hin as ([k' n] & Hk & Hin).
    cbn [fst] in Hk. subst k'. exists k. split; [|exact Hp].
    exists n. apply elem_of_map_to_list, list_elem_of_In. exact Hin.
  - intros (k & [n Hn] & Hp). exists k. split; [|exact Hp].
    apply in_map_iff. exists (k, n). split; [reflexivity|].
    apply list_elem_of_In, elem_of_map_to_list. exact Hn.
Qed.

(** The keys of [type_stats] cannot be sorted exactly when the table holds
    form types of both kinds. *)
Lemma sortable_keys (t : Store.table) :
  sortable (map fst (map_to_list (count_by_form_type t))) = false
  <-> mixed_form_types t.
Proof.
  unfold sortable, mixed_form_types.
  rewrite negb_false_iff, andb_true_iff, !existsb_keys. split.
  - intros [(k1 & H1 & Hp1) (k2 & H2 & Hp2)].
    apply count_by_form_type_key in H1 as (r & Hr & Hk1).
    apply count_by_form_type_key in H2 as (r' & Hr' & Hk2).
    exists r, r'. repeat split; [exact Hr | exact Hr' | |].
    + destruct k1; [discriminate | exact Hk1].
    + rewrite Hk2. destruct k2; [discriminate | discriminate].
  - intros (r & r' & Hr & Hr' & Hnone & Hsome). split.
    + exists None. split; [|reflexivity].
      apply count_by_form_type_key. exists r. split; assumption.
    + exists (Store.form_type r'). split.
      * apply count_by_form_type_key. exists r'. split; [exact Hr' | reflexivity].
      * destruct (Store.form_type r'); [reflexivity | congruence].
Qed.

(** X18: when [get_stats] answers and what its figures are. The route
    answers 200 exactly when the connection works and the table does not
    hold both a row with a NULL form type and a row with a text one (the
    keys of [type_stats] are then of one kind and [jsonify] can sort them).
    In the statistics [today_submissions] and [unsynced_count] are at most
    [total_submissions], [type_stats] has for every form type the number of
    rows of that type and no entry for a type without rows, and the counts
    of [type_stats] add up to [total_submissions]. Otherwise it answers 500
    and logs. *)
Theorem get_stats_figures_agree (E : server_env) (s : server) :
  match (get_stats E s).1 with
  | Some st =>
      connect_ok E = true
      /\ ~ mixed_form_types (rows s)
      /\ total_submissions st = length (rows s)
      /\ (today_submissions st <= total_submissions st)%nat
      /\ (unsynced_count st <= total_submissions st)%nat
      /\ (forall k : option string,
            type_stats st !! k
            = match length (of_type k (rows s)) with
              | O => None
              | S n => Some (S n)
              end)
      /\ counted (type_stats st) = total_submissions st
  | None =>
      (connect_ok E = false \/ mixed_form_types (rows s))
      /\ (get_stats E s).2 = [LogStatsFailed]
  end.
Proof.
  unfold get_stats. cbn zeta. cbn [type_stats].
  destruct (connect_ok E); [|split; [left|]; reflexivity].
  destruct (sortable (map fst (map_to_list (count_by_form_type (rows s)))))
    eqn:Hsort; cbn [fst snd].
  - split; [reflexivity|]. split.
    { intros Hmixed. apply sortable_keys in Hmixed. congruence. }
    cbn [total_submissions today_submissions unsynced_count type_stats].
    split; [reflexivity|].
    split; [apply filter_length_le|].
    split; [apply filter_length_le|].
    split; [intros k; apply lookup_count_by_form_type|].
    apply counted_count_by_form_type.
  - split; [|reflexivity]. right. apply sortable_keys. exact Hsort.
Qed.

Lemma insert_newest_first_perm (r : Store.row) (l : list Store.row) :
  Permutation (r :: l) (insert_newest_first r l).
Proof.
  induction l as [|r' l IH]; [reflexivity|].
  cbn [insert_newest_first].
  destruct (String.leb _ _); [reflexivity|].
  rewrite perm_swap. constructor. exact IH.
Qed.

Lemma newest_first_perm (t : Store.table) : Permutation t (newest_first t).
Proof.
  induction t as [|r t IH]; [constructor|].
  cbn [newest_first foldr]. fold (newest_first t).
  rewrite <- insert_newest_first_perm. constructor. exact IH.
Qed.

Lemma insert_newest_first_sorted (r : Store.row) (l : list Store.row) :
  StronglySorted row_not_older l ->
  StronglySorted row_not_older (insert_newest_first r l).
Proof.
  induction l as [|r' l IH]; intros Hs.
  - repeat constructor.
  - cbn [insert_newest_first].
    inversion Hs as [|? ? Hs' Hall]; subst.
    destruct (String.leb (Store.timestamp r') (Store.timestamp r)) eqn:Hle.
    + constructor; [exact Hs|]. constructor; [exact Hle|].
      revert Hall. apply List.Forall_impl. intros x Hx.
      unfold row_not_older in *. eapply string_leb_trans; eassumption.
    + constructor; [apply IH; exact Hs'|].
      apply List.Forall_forall. intros x Hx.
      apply (Permutation_in _ (Permutation_sym (insert_newest_first_perm r l))) in Hx.
      destruct Hx as [<-|Hx].
      * unfold row_not_older.
        destruct (String.leb_total (Store.timestamp r) (Store.timestamp r'))
          as [H|H]; [exact H | congruence].
      * rewrite List.Forall_forall in Hall. apply Hall. exact Hx.
Qed.

Lemma newest_first_sorted (t : Store.table) :
  StronglySorted row_not_older (newest_first t).
Proof.
  induction t as [|r t IH]; [constructor|].
  cbn [newest_first foldr]. apply insert_newest_first_sorted. exact IH.
Qed.

Lemma to_entry_valid (r : Store.row) :
  to_entry r <> None <-> json_valid r = true.
Proof.
  unfold to_entry, json_valid, App.load_col.
  destruct (Store.data r), (Store.files r); split; intros H;
    try congruence; try discriminate.
Qed.

Lemma to_entry_columns (r : Store.row) (e : entry) :
  to_entry r = Some e ->
  entry_id e = Store.id r
  /\ entry_timestamp e = Store.timestamp r
  /\ entry_synced_to_cloud e = Store.synced_to_cloud r.
Proof.
  unfold to_entry.
  destruct (App.load_col (Store.data r) (JObj [])); [|discriminate].
  destruct (App.load_col (Store.files r) (JList [])); [|discriminate].
  intros H. injection H as <-. repeat split.
Qed.

Lemma entries_sorted (l : list Store.row) (entries : list entry) :
  Forall2 (fun r e => to_entry r = Some e) l entries ->
  StronglySorted row_not_older l -> StronglySorted not_older entries.
Proof.
  induction 1 as [|r e l entries He Hrest IH]; intros Hs; [constructor|].
  inversion Hs as [|? ? Hs' Hall]; subst.
  constructor; [apply IH; exact Hs'|].
  clear IH Hs Hs'. induction Hrest as [|r' e' l entries He' _ IH'];
    [constructor|].
  inversion Hall as [|? ? Hr' Hall']; subst.
  constructor; [|apply IH'; exact Hall'].
  apply to_entry_columns in He as (_ & He & _).
  apply to_entry_columns in He' as (_ & He' & _).
  unfold not_older. rewrite He, He'. exact Hr'.
Qed.

Lemma entries_columns (l : list Store.row) (entries : list entry) :
  Forall2 (fun r e => to_entry r = Some e) l entries ->
  map entry_id entries = map Store.id l
  /\ length (List.filter (fun e => negb (entry_synced_to_cloud e)) entries)
     = Store.unsynced_count l.
Proof.
  unfold Store.unsynced_count.
  induction 1 as [|r e l entries He _ [IH1 IH2]]; [split; reflexivity|].
  apply to_entry_columns in He as (Hid & _ & Hsynced).
  cbn [map List.filter]. rewrite Hid, Hsynced, IH1. split; [reflexivity|].
  destruct (Store.synced_to_cloud r); cbn [negb length]; rewrite ?IH2; reflexivity.
Qed.

Lemma unsynced_count_perm (l l' : list Store.row) :
  Permutation l l' -> Store.unsynced_count l = Store.unsynced_count l'.
Proof.
  unfold Store.unsynced_count.
  induction 1 as [|x l l' _ IH|x y l|l l' l'' _ IH1 _ IH2]; cbn [List.filter].
  - reflexivity.
  - destruct (negb _); cbn [length]; rewrite IH; reflexivity.
  - destruct (negb (Store.synced_to_cloud x)), (negb (Store.synced_to_cloud y));
      reflexivity.
  - congruence.
Qed.

(** X19: [get_submissions] lists the whole table, newest first. With a
    working connection and valid JSON in every row the route returns one
    entry per row (the ids of the entries are a permutation of the ids of
    the table), ordered so that no entry is older than one listed after it,
    with as many entries not synced as the table has unsynced rows. It
    answers 500 and logs exactly when the connection fails or some row holds
    text that is not valid JSON. *)
Theorem get_submissions_lists_every_row_newest_first (E : server_env) (s : server) :
  match (get_submissions E s).1 with
  | Some entries =>
      connect_ok E = true
      /\ Forall (fun r => json_valid r = true) (rows s)
      /\ Permutation (map entry_id entries) (map Store.id (rows s))
      /\ StronglySorted not_older entries
      /\ length (List.filter (fun e => negb (entry_synced_to_cloud e)) entries)
         = Store.unsynced_count (rows s)
  | None =>
      (connect_ok E = false \/ exists r, In r (rows s) /\ json_valid r = false)
      /\ (get_submissions E s).2 = [LogListFailed]
  end.
Proof.
  unfold get_submissions. destruct (connect_ok E); cbn [fst snd];
    [|split; [left|]; reflexivity].
  pose proof (newest_first_perm (rows s)) as Hperm.
  destruct (collect to_entry (newest_first (rows s))) as [entries|] eqn:Hc;
    cbn [fst snd].
  - apply collect_Forall2 in Hc.
    destruct (entries_columns _ _ Hc) as [Hids Hcount].
    split; [reflexivity|]. split; [|split; [|split]].
    + apply List.Forall_forall. intros r Hr.
      apply (Permutation_in _ Hperm) in Hr.
      apply to_entry_valid.
      clear - Hc Hr. induction Hc as [|x e l entries He _ IH]; [destruct Hr|].
      destruct Hr as [<-|Hr]; [congruence | apply IH; exact Hr].
    + rewrite Hids. apply Permutation_map. symmetry. exact Hperm.
    + eapply entries_sorted; [exact Hc | apply newest_first_sorted].
    + rewrite Hcount. symmetry. apply unsynced_count_perm. exact Hperm.
  - split; [|reflexivity]. right.
    destruct (existsb (fun r => negb (json_valid r)) (rows s)) eqn:Hex.
    + apply existsb_exists in Hex as (r & Hr & Hbad). exists r.
      split; [exact Hr|]. destruct (json_valid r); [discriminate | reflexivity].
    + exfalso.
      assert (Hall : Forall (fun r => to_entry r <> None) (newest_first (rows s))).
      { apply List.Forall_forall. intros r Hr.
        apply (Permutation_in _ (Permutation_sym Hperm)) in Hr.
        apply to_entry_valid.
        destruct (json_valid r) eqn:Hv; [reflexivity|].
        assert (existsb (fun r => negb (json_valid r)) (rows s) = true).
        { apply existsb_exists. exists r. rewrite Hv. split; [exact Hr | reflexivity]. }
        congruence. }
      destruct (collect_Some _ _ Hall) as [l' Hl']. congruence.
Qed.

End StatsExtras.

(* ===================================================================== *)
(** * Further properties: the submit route *)
(* ===================================================================== *)

Section SubmitExtras.

Import Py Sync Reading Scenario Observing App ServerReading.

Lemma first_value_filter {A : Type} (l : list (string * A)) (k0 k : string) :
  first_value (List.filter (fun kv => negb (String.eqb (fst kv) k0)) l) k
  = if String.eqb k0 k then None else first_value l k.
Proof.
  induction l as [|[k' v] l IH]; cbn [List.filter first_value fst].
  - destruct (String.eqb k0 k); reflexivity.
  - destruct (String.eqb k' k0) eqn:H0; cbn [negb first_value].
    + apply String.eqb_eq in H0. subst k'.
      destruct (String.eqb k0 k); [exact IH | exact IH].
    + destruct (String.eqb k' k) eqn:Hk; [|exact IH].
      apply String.eqb_eq in Hk. subst k'.
      rewrite String.eqb_sym, H0. reflexivity.
Qed.

Lemma first_value_multi_items {A : Type} (l : list (string * A)) (k : string) :
  first_value (multi_items l) k = first_value l k.
Proof.
  induction l as [|[k' v] l IH]; [reflexivity|].
  cbn [multi_items first_value].
  destruct (String.eqb k' k) eqn:Hk; [reflexivity|].
  rewrite first_value_filter, Hk. exact IH.
Qed.

Lemma filter_keys_NoDup {A : Type} (p : string * A -> bool) (l : list (string * A)) :
  List.NoDup (map fst l) -> List.NoDup (map fst (List.filter p l)).
Proof.
  induction l as [|kv l IH]; intros Hnd; [constructor|].
  inversion Hnd as [|? ? Hnotin Hnd']; subst.
  cbn [List.filter]. destruct (p kv); [|apply IH; exact Hnd'].
  cbn [map]. constructor; [|apply IH; exact Hnd'].
  intros Hin. apply Hnotin.
  apply in_map_iff in Hin as (x & Hx & Hin). apply filter_In in Hin as [Hin _].
  apply in_map_iff. exists x. split; assumption.
Qed.

Lemma multi_items_NoDup {A : Type} (l : list (string * A)) :
  List.NoDup (map fst (multi_items l)).
Proof.
  induction l as [|[k v] l IH]; [constructor|].
  cbn [multi_items map fst]. constructor.
  - intros Hin. apply in_map_iff in Hin as ([k' v'] & Hk & Hin).
    apply filter_In in Hin as [_ Hne]. cbn [fst] in *. subst k'.
    rewrite String.eqb_refl in Hne. discriminate.
  - apply filter_keys_NoDup. exact IH.
Qed.

Lemma item_of_strings (l : list (string * string)) (k : string) :
  item (map (fun kv => (fst kv, JStr (snd kv))) l) k
  = option_map JStr (first_value l k).
Proof.
  induction l as [|[k' v] l IH]; [reflexivity|].
  cbn [map item first_value fst snd].
  destruct (String.eqb k' k); [reflexivity | exact IH].
Qed.

Lemma save_submission_now (E : server_env) (form_type : string) (data : jval)
    (fs : list upload) (ip_address user_agent : option string) (s : server) :
  now (save_submission E form_type data fs ip_address user_agent s).1.2 = now s.
Proof.
  unfold save_submission.
  destruct (connect_ok E); cbn [negb]; [|reflexivity].
  destruct (save_files_frame E fs [] s) as (_ & _ & Hnow).
  destruct (save_files E fs [] s) as [[file_info|] s1]; cbn [fst snd] in *;
    [|exact Hnow].
  destruct (insert_ok E); [|exact Hnow].
  destruct (next_rowid s1); cbn [fst snd now]; exact Hnow.
Qed.

(** X20: what [submit_data] stores. The stored object has every field name
    of the form once, each with the first value sent for it, and never the
    key [form_type]; the form type is the first [form_type] value sent, or
    [general]. A 200 answer carries the id of a row appended to the table,
    unsynced, holding that form type, that object, the address and the user
    agent of the request, and the local time of the answer; a 500 answer
    leaves the table as it was and is logged. *)
Theorem submit_data_stores_the_first_value_of_each_field
    (E : server_env) (req : request) (s : server) :
  (exists kvs,
      form_data req = JObj kvs
      /\ List.NoDup (map fst kvs)
      /\ item kvs "form_type" = None
      /\ forall k, k <> "form_type" ->
                   item kvs k = option_map JStr (first_value (form req) k))
  /\ match (submit_data E req s).1.1 with
     | Submitted id timestamp =>
         (exists file_info,
             rows (submit_data E req s).1.2
             = rows s ++ [new_row id (now s) (stored_form_type req) (form_data req)
                            file_info (remote_addr req) (user_agent_header req)])
         /\ Forall (fun r => Store.id r < id) (rows s)
         /\ timestamp = Clock.isoformat_now (local_offset E) (now s)
     | SubmitFailed =>
         rows (submit_data E req s).1.2 = rows s
         /\ In LogSubmitFailed (submit_data E req s).2
     end.
Proof.
  split.
  - eexists. split; [reflexivity|]. split; [|split].
    + rewrite map_map. cbn [fst].
      apply filter_keys_NoDup, multi_items_NoDup.
    + rewrite item_of_strings, first_value_filter, String.eqb_refl. reflexivity.
    + intros k Hk. rewrite item_of_strings, first_value_filter.
      destruct (String.eqb "form_type" k) eqn:Heq.
      * apply String.eqb_eq in Heq. congruence.
      * rewrite first_value_multi_items. reflexivity.
  - unfold submit_data. fold (stored_form_type req).
    pose proof (save_submission_run E (stored_form_type req) (form_data req)
                  (sent_files req) (remote_addr req) (user_agent_header req) s) as H.
    cbn zeta in H.
    pose proof (save_submission_now E (stored_form_type req) (form_data req)
                  (sent_files req) (remote_addr req) (user_agent_header req) s)
      as Hnow.
    destruct (save_submission E (stored_form_type req) (form_data req)
                (sent_files req) (remote_addr req) (user_agent_header req) s)
      as [[[id|] s'] logs]; cbn [fst snd] in *.
    + destruct H as (Hnext & _ & _ & file_info & Hrows).
      apply next_rowid_fresh in Hnext as [_ Hfresh].
      split; [exists file_info; exact Hrows|].
      split; [apply List.Forall_forall; exact Hfresh|].
      rewrite Hnow. reflexivity.
    + destruct H as [Hrows _]. split; [exact Hrows|].
      apply in_or_app. right. left. reflexivity.
Qed.

End SubmitExtras.

(* ===================================================================== *)
(** * Runs of the further properties *)
(* ===================================================================== *)

Section FurtherRuns.

Import Py Sync Reading Scenario Observing App ServerReading ServerScenario.

(** A run of X4: one row, delivered and marked; the next selection, made
    against a remote side that declines everything, does not hold it. *)
Lemma delivered_item_is_not_selected_again_witness :
  (online env_delivering = true
   /\ sync_enabled (world_with one_row ready) = true
   /\ In (fresh_submission 1 "2023-11-14 10:00:00")
         (batch CONFIG env_delivering (world_with one_row ready))
   /\ delivers CONFIG env_delivering (config (world_with one_row ready))
        (fresh_submission 1 "2023-11-14 10:00:00") = true
   /\ update_ok env_delivering (sub_id (fresh_submission 1 "2023-11-14 10:00:00"))
      = true
   /\ db (final (sync_all_pending CONFIG env_delivering (world_with one_row ready)))
      = db (final (sync_all_pending CONFIG env_delivering (world_with one_row ready))))
  /\ Forall (fun s' => sub_id s' <> sub_id (fresh_submission 1 "2023-11-14 10:00:00"))
            (batch CONFIG env_rejecting
               (final (sync_all_pending CONFIG env_delivering
                         (world_with one_row ready)))).
Proof.
  assert (H1 : online env_delivering = true) by reflexivity.
  assert (H2 : sync_enabled (world_with one_row ready) = true) by reflexivity.
  assert (H3 : In (fresh_submission 1 "2023-11-14 10:00:00")
                  (batch CONFIG env_delivering (world_with one_row ready)))
    by (left; reflexivity).
  assert (H4 : delivers CONFIG env_delivering (config (world_with one_row ready))
                 (fresh_submission 1 "2023-11-14 10:00:00") = true)
    by reflexivity.
  assert (H5 : update_ok env_delivering
                 (sub_id (fresh_submission 1 "2023-11-14 10:00:00")) = true)
    by reflexivity.
  assert (H6 : db (final (sync_all_pending CONFIG env_delivering
                            (world_with one_row ready)))
               = db (final (sync_all_pending CONFIG env_delivering
                              (world_with one_row ready))))
    by reflexivity.
  split; [repeat split; assumption|].
  exact (delivered_item_is_not_selected_again CONFIG env_delivering
           (world_with one_row ready) (fresh_submission 1 "2023-11-14 10:00:00")
           CONFIG env_rejecting
           (final (sync_all_pending CONFIG env_delivering (world_with one_row ready)))
           H1 H2 H3 H4 H5 H6).
Defined.

Lemma two_rows_distinct_ids : List.NoDup (map Store.id two_rows).
Proof.
  repeat (constructor; [cbn; intuition discriminate|]). constructor.
Defined.

(** A run of X5: two rows, both acknowledged, the UPDATE for id 2 raising. *)
Lemma cycle_lowers_unsynced_count_witness :
  List.NoDup (map Store.id (db (world_with two_rows ready)))
  /\ let w := world_with two_rows ready in
     let run := sync_all_pending CONFIG env_update_fails_2 w in
     let marked_items :=
       if online env_update_fails_2 && sync_enabled w
       then List.filter (fun s => delivers CONFIG env_update_fails_2 (config w) s
                                  && update_ok env_update_fails_2 (sub_id s))
                        (batch CONFIG env_update_fails_2 w)
       else [] in
     (Store.unsynced_count (db (final run)) + length marked_items)%nat
     = Store.unsynced_count (db w)
     /\ (online env_update_fails_2 = true -> sync_enabled w = true ->
         Forall (fun s => delivers CONFIG env_update_fails_2 (config w) s = true
                          /\ update_ok env_update_fails_2 (sub_id s) = true)
                (batch CONFIG env_update_fails_2 w) ->
         (Store.unsynced_count (db (final run))
          + length (batch CONFIG env_update_fails_2 w))%nat
         = Store.unsynced_count (db w)).
Proof.
  assert (H : List.NoDup (map Store.id (db (world_with two_rows ready))))
    by exact two_rows_distinct_ids.
  split; [exact H|].
  exact (cycle_lowers_unsynced_count CONFIG env_update_fails_2
           (world_with two_rows ready) H).
Defined.

(** A run of X6: one row, every request failing on the network. *)
Lemma cycle_sleeps_within_bounds_witness :
  0 <= retry_delay CONFIG
  /\ let w := world_with one_row ready in
     let run := sync_all_pending CONFIG env_unreachable w in
     let n := if online env_unreachable && sync_enabled w
              then length (batch CONFIG env_unreachable w) else 0%nat in
     Z.of_nat n <= slept (events run)
     <= Z.of_nat n
        * (1 + Z.of_nat (pred (Z.to_nat (max_retries CONFIG))) * retry_delay CONFIG).
Proof.
  assert (H : 0 <= retry_delay CONFIG) by (simpl; lia).
  split; [exact H|].
  exact (cycle_sleeps_within_bounds CONFIG env_unreachable
           (world_with one_row ready) H).
Defined.

(** A run of X7: of two unsynced rows and a limit of one, the older row is
    returned and the younger left out. *)
Lemma select_unsynced_leaves_out_only_younger_rows_witness :
  (In (fresh_row 2 "2023-11-14 09:00:00") (Store.select_unsynced 1 two_rows)
   /\ In (fresh_row 1 "2023-11-14 10:00:00") two_rows
   /\ Store.synced_to_cloud (fresh_row 1 "2023-11-14 10:00:00") = false
   /\ ~ In (fresh_row 1 "2023-11-14 10:00:00") (Store.select_unsynced 1 two_rows))
  /\ Store.older (fresh_row 2 "2023-11-14 09:00:00")
                 (fresh_row 1 "2023-11-14 10:00:00").
Proof.
  assert (H1 : In (fresh_row 2 "2023-11-14 09:00:00")
                  (Store.select_unsynced 1 two_rows)) by (left; reflexivity).
  assert (H2 : In (fresh_row 1 "2023-11-14 10:00:00") two_rows)
    by (left; reflexivity).
  assert (H3 : Store.synced_to_cloud (fresh_row 1 "2023-11-14 10:00:00") = false)
    by reflexivity.
  assert (H4 : ~ In (fresh_row 1 "2023-11-14 10:00:00")
                    (Store.select_unsynced 1 two_rows)).
  { intros [H|[]]. discriminate H. }
  split; [repeat split; assumption|].
  exact (select_unsynced_leaves_out_only_younger_rows 1 two_rows
           (fresh_row 2 "2023-11-14 09:00:00") (fresh_row 1 "2023-11-14 10:00:00")
           H1 H2 H3 H4).
Defined.

(** A run of X8: two unsynced rows, the second with broken JSON. *)
Lemma one_invalid_row_empties_the_batch_witness :
  (In broken_row
      (Store.select_unsynced (batch_size CONFIG) (db (world_with broken_rows ready)))
   /\ json_valid broken_row = false)
  /\ (batch CONFIG env_delivering (world_with broken_rows ready) = []
      /\ In (Log ERROR MsgSelectFailed)
            (events (get_unsynced_submissions CONFIG env_delivering
                       (world_with broken_rows ready)))
      /\ (online env_delivering = true ->
          sync_enabled (world_with broken_rows ready) = true ->
          let run := sync_all_pending CONFIG env_delivering
                       (world_with broken_rows ready) in
          result run = true /\ final run = world_with broken_rows ready
          /\ existsb is_post (events run) = false)).
Proof.
  assert (H1 : In broken_row
                  (Store.select_unsynced (batch_size CONFIG)
                     (db (world_with broken_rows ready)))) by (left; reflexivity).
  assert (H2 : json_valid broken_row = false) by reflexivity.
  split; [split; assumption|].
  exact (one_invalid_row_empties_the_batch CONFIG env_delivering
           (world_with broken_rows ready) broken_row H1 H2).
Defined.

(** A run of X9: two valid unsynced rows under the default limit. *)
Lemma batch_is_the_selection_witness :
  (select_ok env_delivering = true
   /\ Forall (fun r => json_valid r = true)
             (Store.select_unsynced (batch_size CONFIG) (db (world_with two_rows ready)))
   /\ 0 <= batch_size CONFIG)
  /\ (map sub_id (batch CONFIG env_delivering (world_with two_rows ready))
      = map Store.id (Store.select_unsynced (batch_size CONFIG)
                        (db (world_with two_rows ready)))
      /\ length (batch CONFIG env_delivering (world_with two_rows ready))
         = Nat.min (Z.to_nat (batch_size CONFIG))
                   (Store.unsynced_count (db (world_with two_rows ready)))
      /\ (Z.of_nat (Store.unsynced_count (db (world_with two_rows ready)))
          <= batch_size CONFIG ->
          forall r, In r (db (world_with two_rows ready)) ->
                    Store.synced_to_cloud r = false ->
                    exists s, In s (batch CONFIG env_delivering
                                      (world_with two_rows ready))
                              /\ to_submission r = Some s)).
Proof.
  assert (H1 : select_ok env_delivering = true) by reflexivity.
  assert (H2 : Forall (fun r => json_valid r = true)
                 (Store.select_unsynced (batch_size CONFIG)
                    (db (world_with two_rows ready))))
    by (repeat constructor).
  assert (H3 : 0 <= batch_size CONFIG) by (simpl; lia).
  split; [repeat split; assumption|].
  exact (batch_is_the_selection CONFIG env_delivering (world_with two_rows ready)
           H1 H2 H3).
Defined.

(** A run of X10: the same two items in both orders. *)
Lemma signature_ignores_key_order_witness :
  (Permutation [("b", JNum 1); ("a", JStr "x")] [("a", JStr "x"); ("b", JNum 1)]
   /\ List.NoDup (map fst [("b", JNum 1); ("a", JStr "x")]))
  /\ (dumps (JObj [("b", JNum 1); ("a", JStr "x")])
      = dumps (JObj [("a", JStr "x"); ("b", JNum 1)])
      /\ generate_signature ready (JObj [("b", JNum 1); ("a", JStr "x")]) 1700000000
         = generate_signature ready (JObj [("a", JStr "x"); ("b", JNum 1)]) 1700000000).
Proof.
  assert (H1 : Permutation [("b", JNum 1); ("a", JStr "x")]
                           [("a", JStr "x"); ("b", JNum 1)])
    by apply perm_swap.
  assert (H2 : List.NoDup (map fst [("b", JNum 1); ("a", JStr "x")])).
  { repeat (constructor; [cbn; intuition discriminate|]). constructor. }
  split; [split; assumption|].
  exact (signature_ignores_key_order ready [("b", JNum 1); ("a", JStr "x")]
           [("a", JStr "x"); ("b", JNum 1)] 1700000000 H1 H2).
Defined.

(** A run of X11: the submission with one photo that the server saved. *)
Lemma payload_lists_attachment_metadata_only_witness :
  build_sync_data env_delivering survey_submission = Some survey_sync_data
  /\ (if truthy (sub_files survey_submission)
      then exists attachments infos,
             sub_files survey_submission = JList attachments
             /\ payload_files survey_sync_data = Some (JList infos)
             /\ Forall2 (fun f info =>
                           exists kvs name size ty,
                             f = JObj kvs
                             /\ item kvs "original_name" = Some name
                             /\ item kvs "size" = Some size
                             /\ keys_of info = Some ["name"; "size"; "type"]
                             /\ info = JObj [("name", name); ("size", size);
                                             ("type", ty)]
                             /\ forall n, name = JStr n ->
                                          contains_char "." n = true ->
                                          ty = JStr (after_last "." n)
                                          /\ contains_char "." (after_last "." n)
                                             = false)
                        attachments infos
      else payload_files survey_sync_data = None).
Proof.
  assert (H : build_sync_data env_delivering survey_submission
              = Some survey_sync_data) by reflexivity.
  split; [exact H|].
  exact (payload_lists_attachment_metadata_only env_delivering survey_submission
           survey_sync_data H).
Defined.

(** A run of X13: the first start, with no configuration file. *)
Lemma main_without_api_key_does_not_sync_witness :
  match config_file first_start with
  | FileJson content => truthy_scalar (get content "api_key") = false
  | _ => True
  end
  /\ let run := main CONFIG env_delivering first_start in
     existsb is_sync_activity (events run) = false
     /\ db (final run) = db first_start
     /\ match config_file first_start with
        | FileOther =>
            result run = RaisesAttributeError
            /\ events run = [Log INFO MsgServiceStart]
            /\ final run = first_start
        | _ =>
            result run = Returns
            /\ List.last (events run) (Log INFO MsgServiceEnd)
               = Log WARNING MsgNoApiKey
        end.
Proof.
  assert (H : match config_file first_start with
              | FileJson content => truthy_scalar (get content "api_key") = false
              | _ => True
              end) by exact I.
  split; [exact H|].
  exact (main_without_api_key_does_not_sync CONFIG env_delivering first_start H).
Defined.

(** A run of X14: marking id 1 in a table of two rows. *)
Lemma mark_as_synced_touches_only_its_id_witness :
  update_ok env_delivering 1 = true
  /\ let run := mark_as_synced env_delivering 1 (world_with two_rows ready) in
     (forall r, In r (db (final run)) -> Store.id r = 1 ->
                Store.synced_to_cloud r = true)
     /\ Forall2 (fun r r' => Store.id r' = Store.id r
                             /\ (Store.id r <> 1 -> r' = r))
                (db (world_with two_rows ready)) (db (final run))
     /\ ((forall r, In r (db (world_with two_rows ready)) -> Store.id r <> 1) ->
         db (final run) = db (world_with two_rows ready)
         /\ events run = [Update 1]).
Proof.
  assert (H : update_ok env_delivering 1 = true) by reflexivity.
  split; [exact H|].
  exact (mark_as_synced_touches_only_its_id env_delivering 1
           (world_with two_rows ready) H).
Defined.

(** A run of X17: the survey form saved by the server, then read by the
    worker. *)
Lemma saved_submission_is_in_the_next_batch_witness :
  ((save_submission working (stored_form_type survey_request)
      (form_data survey_request) (sent_files survey_request)
      (remote_addr survey_request) (user_agent_header survey_request)
      fresh_server).1.1 = Some 1
   /\ db survey_world
      = rows (save_submission working (stored_form_type survey_request)
                (form_data survey_request) (sent_files survey_request)
                (remote_addr survey_request) (user_agent_header survey_request)
                fresh_server).1.2
   /\ select_ok env_delivering = true
   /\ Forall (fun r => json_valid r = true) (rows fresh_server)
   /\ Z.of_nat (Store.unsynced_count (rows fresh_server)) < batch_size CONFIG)
  /\ exists sub,
       In sub (batch CONFIG env_delivering survey_world)
       /\ sub_id sub = 1
       /\ sub_form_type sub = Some (stored_form_type survey_request)
       /\ sub_data sub = form_data survey_request
       /\ sub_ip_address sub = remote_addr survey_request
       /\ sub_timestamp sub = Clock.current_timestamp (now fresh_server).
Proof.
  assert (H1 : (save_submission working (stored_form_type survey_request)
                  (form_data survey_request) (sent_files survey_request)
                  (remote_addr survey_request) (user_agent_header survey_request)
                  fresh_server).1.1 = Some 1) by reflexivity.
  assert (H2 : db survey_world
               = rows (save_submission working (stored_form_type survey_request)
                         (form_data survey_request) (sent_files survey_request)
                         (remote_addr survey_request)
                         (user_agent_header survey_request) fresh_server).1.2)
    by reflexivity.
  assert (H3 : select_ok env_delivering = true) by reflexivity.
  assert (H4 : Forall (fun r => json_valid r = true) (rows fresh_server))
    by constructor.
  assert (H5 : Z.of_nat (Store.unsynced_count (rows fresh_server))
               < batch_size CONFIG) by reflexivity.
  split; [repeat split; assumption|].
  exact (saved_submission_is_in_the_next_batch working
           (stored_form_type survey_request) (form_data survey_request)
           (sent_files survey_request) (remote_addr survey_request)
           (user_agent_header survey_request) fresh_server
           CONFIG env_delivering survey_world 1 H1 H2 H3 H4 H5).
Defined.

(** [main] on a configuration file that holds a JSON list: it raises before
    anything is probed, read or posted. *)
Example main_on_a_list_in_the_file :
  main CONFIG env_delivering list_in_file
  = (RaisesAttributeError, list_in_file, [Log INFO MsgServiceStart]).
Proof. reflexivity. Qed.

(** [get_stats] on a table with a NULL and a text form type: the answer
    cannot be written, and the route answers 500. *)
Example get_stats_on_mixed_form_types :
  get_stats working mixed_server = (None, [LogStatsFailed])
  /\ (get_stats working after_survey).1
     = Some {| total_submissions := 1; today_submissions := 1;
               unsynced_count := 1;
               type_stats := <[Some "survey" := 1%nat]> ∅ |}.
Proof. split; vm_compute; reflexivity. Qed.

(** The survey form, end to end: the server stores the first value of each
    field and the one file that has a name; the worker reads that row,
    builds the payload with the metadata of the file, delivers it and marks
    the row; the statistics of the server then count no unsynced row. *)
Example survey_from_form_to_cloud :
  (submit_data working survey_request fresh_server).1.1
  = Submitted 1 "2023-11-15T06:13:20"
  /\ batch CONFIG env_delivering survey_world = [survey_submission]
  /\ build_sync_data env_delivering survey_submission = Some survey_sync_data
  /\ result (sync_all_pending CONFIG env_delivering survey_world) = true
  /\ Store.unsynced_count
       (db (final (sync_all_pending CONFIG env_delivering survey_world))) = 0%nat
  /\ Store.unsynced_count (rows after_survey) = 1%nat.
Proof. vm_compute. repeat split. Qed.

End FurtherRuns.
